(** * Cold VM launcher (Cold.cpp): a shallow embedding and its properties

    The launcher is one C++ class, [ColdVM], a signal handler and [main].
    The embedding follows the source function by function:

    - [StdString]: the [std::string] and [std::filesystem::path] operations
      the program calls ([find], [substr], [erase], [find_last_not_of],
      [to_string], [extension], [filename], [std::sort] on strings);
    - [FileSys]: the part of the file system the program observes (which
      paths exist, which are directories, what a directory holds);
    - a state-and-exception monad [M] over the process state [Proc] (the
      [ColdVM] object, the file system, the number of [fork] calls made and
      the chronological trace of observable events), run against a [Host]
      that answers [system], [popen] and [fork];
    - the member functions of [ColdVM], [signalHandler] and [main].

    The properties come after the program: frame lemmas saying what each
    function leaves alone ([within], [total]), the layout of the hypervisor
    command line ([buildQEMUCommand_shape]), the evaluation of [cleanup] and
    of the two spawns, and then one section per property of the
    specification, C1 to C10. *)

From Stdlib Require Import String Ascii List ZArith NArith Lia Bool DecimalString.
From Stdlib Require Import Sorted Permutation.
Import ListNotations.
Open Scope string_scope.

(* ================================================================== *)
(** ** std::string and std::filesystem::path *)

Module StdString.

(** [size_t] is a 64-bit unsigned integer; [npos] is its largest value. *)
Definition size_max : N := 2 ^ 64.
Definition npos : N := size_max - 1.
Definition size_add (a b : N) : N := ((a + b) mod size_max)%N.

Definition nl : string := String (ascii_of_nat 10) EmptyString.
Definition cr : string := String (ascii_of_nat 13) EmptyString.
Definition tab : string := String (ascii_of_nat 9) EmptyString.
Definition dquote : string := String (ascii_of_nat 34) EmptyString.

Definition size (s : string) : N := N.of_nat (String.length s).

(** [s.find(pat)]: index of the first occurrence, [npos] when absent. *)
Definition find (s pat : string) : N :=
  match String.index 0 pat s with
  | Some i => N.of_nat i
  | None => npos
  end.

(** [s.substr(pos, n)] throws [std::out_of_range] when [pos > s.size()]
    (here [None]) and otherwise returns at most [n] characters. *)
Definition substr (s : string) (pos n : N) : option string :=
  if (size s <? pos)%N then None
  else Some (String.substring (N.to_nat pos) (N.to_nat n) s).

(** [s.substr(pos)]: up to the end of the string. *)
Definition substr_from (s : string) (pos : N) : option string :=
  if (size s <? pos)%N then None
  else Some (String.substring (N.to_nat pos) (String.length s) s).

(** [s.erase(pos)]: drops everything from [pos] on; throws when
    [pos > s.size()]. *)
Definition erase (s : string) (pos : N) : option string :=
  if (size s <? pos)%N then None
  else Some (String.substring 0 (N.to_nat pos) s).

Fixpoint mem_char (c : ascii) (set : string) : bool :=
  match set with
  | EmptyString => false
  | String d set' => Ascii.eqb c d || mem_char c set'
  end.

Fixpoint find_last_not_of_from (s set : string) (i : N) (last : N) : N :=
  match s with
  | EmptyString => last
  | String c s' =>
      find_last_not_of_from s' set (i + 1)%N (if mem_char c set then last else i)
  end.

(** [s.find_last_not_of(set)]: [npos] when every character is in [set]. *)
Definition find_last_not_of (s set : string) : N :=
  find_last_not_of_from s set 0%N npos.

(** [std::to_string] on [int] and on [size_t]. *)
Definition to_string (z : Z) : string := NilZero.string_of_int (Z.to_int z).
Definition to_string_size (n : nat) : string := NilZero.string_of_uint (Nat.to_uint n).

(** [std::string(const char* )]: a C buffer read up to its first NUL. *)
Fixpoint of_c_str (buf : string) : string :=
  match buf with
  | EmptyString => EmptyString
  | String c buf' =>
      if Ascii.eqb c zero then EmptyString else String c (of_c_str buf')
  end.

(** Index of the last occurrence of character [c], if any. *)
Fixpoint rfind_char_from (s : string) (c : ascii) (i : nat) (last : option nat)
  : option nat :=
  match s with
  | EmptyString => last
  | String d s' =>
      rfind_char_from s' c (S i) (if Ascii.eqb c d then Some i else last)
  end.
Definition rfind_char (s : string) (c : ascii) : option nat :=
  rfind_char_from s c 0 None.

Definition drop (n : nat) (s : string) : string :=
  String.substring n (String.length s) s.

(** [path::filename()]: what follows the last directory separator. *)
Definition filename (p : string) : string :=
  match rfind_char p "/"%char with
  | Some i => drop (S i) p
  | None => p
  end.

(** [path::extension()]: from the rightmost period of the file name to its
    end, with the period; empty for [.] and [..], for a name with no period
    and for a name whose only period is its first character. *)
Definition extension (p : string) : string :=
  let f := filename p in
  if String.eqb f "." || String.eqb f ".." then EmptyString
  else match rfind_char f "."%char with
       | None => EmptyString
       | Some O => EmptyString
       | Some i => drop i f
       end.

(** [std::sort] on a vector of strings orders by [operator<], the
    byte-wise lexicographic order; that order is total, so the result is
    the one sorted arrangement whatever algorithm the library runs. *)
Fixpoint insert_sorted (x : string) (l : list string) : list string :=
  match l with
  | [] => [x]
  | y :: l' => if String.leb x y then x :: l else y :: insert_sorted x l'
  end.
Definition sort (l : list string) : list string :=
  fold_right insert_sorted [] l.

End StdString.
Import StdString.

(* ================================================================== *)
(** ** The observed file system *)

Module FileSys.

(** Regular files and directories, by the path string the program uses
    for them.  File contents are never read by the launcher. *)
Record FS : Type := mkFS {
  fs_files : list string;
  fs_dirs : list string
}.

Definition mem (p : string) (l : list string) : bool := existsb (String.eqb p) l.

Definition is_directory (fs : FS) (p : string) : bool := mem p (fs_dirs fs).
Definition is_regular_file (fs : FS) (p : string) : bool := mem p (fs_files fs).
Definition exists_ (fs : FS) (p : string) : bool :=
  is_regular_file fs p || is_directory fs p.

(** [p] is an entry directly inside directory [d]: [d/name] with a
    non-empty [name] holding no separator. *)
Definition is_entry_of (d p : string) : bool :=
  let pre := d ++ "/" in
  String.prefix pre p
  && (let name := drop (String.length pre) p in
      negb (String.eqb name EmptyString)
      && (N.eqb (find name "/") npos)).

(** [fs::directory_iterator(d)]: the entries of [d], in an order the
    standard leaves unspecified (here: the order of the model's lists). *)
Definition directory_iterator (fs : FS) (d : string) : list string :=
  filter (is_entry_of d) (fs_files fs ++ fs_dirs fs).

(** [path::parent_path()]: what precedes the last separator; the root for
    a path directly under it, empty for a bare name. *)
Definition parent_path (p : string) : string :=
  match rfind_char p "/"%char with
  | Some O => "/"
  | Some i => String.substring 0 i p
  | None => EmptyString
  end.

(** A regular file stands at [p] or at one of the directories [p] goes
    through: nothing can be created at [p] or below it. *)
Definition blocked (fs : FS) (p : string) : bool :=
  existsb (fun file => String.eqb file p || String.prefix (file ++ "/") p)
    (fs_files fs).

(** [d] can take a new entry: it is the working directory or the root, a
    directory of the model, or a directory that an entry of the model
    lies under. *)
Definition has_directory (fs : FS) (d : string) : bool :=
  String.eqb d EmptyString || String.eqb d "." || String.eqb d "/"
  || is_directory fs d
  || existsb (String.prefix (d ++ "/")) (fs_files fs ++ fs_dirs fs).

(** [fs::create_directories(p)]: nothing to do when [p] is a directory; an
    error ([None], a [filesystem_error]) when a regular file stands at [p]
    or in its way.  The ancestors it also creates are not listed: they are
    directories by [has_directory]. *)
Definition create_directories (fs : FS) (p : string) : option FS :=
  if is_directory fs p then Some fs
  else if blocked fs p then None
  else Some (mkFS (fs_files fs) (fs_dirs fs ++ [p])).

(** [e.what()] for the [filesystem_error] of a failed
    [create_directories(p)], as libstdc++ composes it. *)
Definition create_directories_what (p : string) : string :=
  "filesystem error: cannot create directories: Not a directory [" ++ p ++ "]".

(** [fs::copy_file(src, dst)] with default options: an error
    ([None], a [filesystem_error]) unless [src] is a regular file, [dst]
    does not exist and the directory [dst] is to go into does. *)
Definition copy_file (fs : FS) (src dst : string) : option FS :=
  if is_regular_file fs src && negb (exists_ fs dst)
     && has_directory fs (parent_path dst)
  then Some (mkFS (fs_files fs ++ [dst]) (fs_dirs fs))
  else None.

(** Opening [p] with [std::ofstream] and writing to it.  The stream fails
    silently, and no file appears, when the directory [p] is to go into
    does not exist. *)
Definition write_file (fs : FS) (p : string) : FS :=
  if exists_ fs p || negb (has_directory fs (parent_path p)) then fs
  else mkFS (fs_files fs ++ [p]) (fs_dirs fs).

End FileSys.
Import FileSys.

(* ================================================================== *)
(** ** Process state, host and the monad of the launcher *)

(** The fields of [class ColdVM], in declaration order.  [pid_t] and [int]
    are modelled as [Z]; the program never does arithmetic on them. *)
Record ColdVM : Type := mkColdVM {
  diskDir : string;
  romPath : string;
  firmwarePath : string;
  varsPath : string;
  noVNCPath : string;
  useVNC : bool;
  useBridge : bool;
  bridgeInterface : string;
  qemuPid : Z;
  websockifyPid : Z;
  diskFiles : list string;
  isoFiles : list string;
  cpuCores : Z;
  ramGB : Z;
  cpuModel : string;
  enableCamera : bool;
  enableAudio : bool;
  enableMicrophone : bool
}.

(** The constructor [ColdVM::ColdVM()]; the two vectors start empty. *)
Definition ColdVM_new : ColdVM := {|
  diskDir := "./devices/disk";
  romPath := "./devices/rom";
  firmwarePath := "./boot/firmware/OVMF_CODE.fd";
  varsPath := "./boot/firmware/OVMF_VARS.fd";
  noVNCPath := "./libraries/noVNC";
  useVNC := true;
  useBridge := true;
  bridgeInterface := "virbr0";
  qemuPid := -1;
  websockifyPid := -1;
  diskFiles := [];
  isoFiles := [];
  cpuCores := 4;
  ramGB := 4;
  cpuModel := "host";
  enableCamera := true;
  enableAudio := true;
  enableMicrophone := true
|}.

(** Field assignments. *)
Definition set_useVNC (b : bool) (v : ColdVM) : ColdVM :=
  mkColdVM (diskDir v) (romPath v) (firmwarePath v) (varsPath v) (noVNCPath v)
    b (useBridge v) (bridgeInterface v) (qemuPid v) (websockifyPid v)
    (diskFiles v) (isoFiles v) (cpuCores v) (ramGB v) (cpuModel v)
    (enableCamera v) (enableAudio v) (enableMicrophone v).
Definition set_useBridge (b : bool) (v : ColdVM) : ColdVM :=
  mkColdVM (diskDir v) (romPath v) (firmwarePath v) (varsPath v) (noVNCPath v)
    (useVNC v) b (bridgeInterface v) (qemuPid v) (websockifyPid v)
    (diskFiles v) (isoFiles v) (cpuCores v) (ramGB v) (cpuModel v)
    (enableCamera v) (enableAudio v) (enableMicrophone v).
Definition set_qemuPid (pid : Z) (v : ColdVM) : ColdVM :=
  mkColdVM (diskDir v) (romPath v) (firmwarePath v) (varsPath v) (noVNCPath v)
    (useVNC v) (useBridge v) (bridgeInterface v) pid (websockifyPid v)
    (diskFiles v) (isoFiles v) (cpuCores v) (ramGB v) (cpuModel v)
    (enableCamera v) (enableAudio v) (enableMicrophone v).
Definition set_websockifyPid (pid : Z) (v : ColdVM) : ColdVM :=
  mkColdVM (diskDir v) (romPath v) (firmwarePath v) (varsPath v) (noVNCPath v)
    (useVNC v) (useBridge v) (bridgeInterface v) (qemuPid v) pid
    (diskFiles v) (isoFiles v) (cpuCores v) (ramGB v) (cpuModel v)
    (enableCamera v) (enableAudio v) (enableMicrophone v).
Definition set_diskFiles (l : list string) (v : ColdVM) : ColdVM :=
  mkColdVM (diskDir v) (romPath v) (firmwarePath v) (varsPath v) (noVNCPath v)
    (useVNC v) (useBridge v) (bridgeInterface v) (qemuPid v) (websockifyPid v)
    l (isoFiles v) (cpuCores v) (ramGB v) (cpuModel v)
    (enableCamera v) (enableAudio v) (enableMicrophone v).
Definition set_isoFiles (l : list string) (v : ColdVM) : ColdVM :=
  mkColdVM (diskDir v) (romPath v) (firmwarePath v) (varsPath v) (noVNCPath v)
    (useVNC v) (useBridge v) (bridgeInterface v) (qemuPid v) (websockifyPid v)
    (diskFiles v) l (cpuCores v) (ramGB v) (cpuModel v)
    (enableCamera v) (enableAudio v) (enableMicrophone v).
Definition set_cpuCores (n : Z) (v : ColdVM) : ColdVM :=
  mkColdVM (diskDir v) (romPath v) (firmwarePath v) (varsPath v) (noVNCPath v)
    (useVNC v) (useBridge v) (bridgeInterface v) (qemuPid v) (websockifyPid v)
    (diskFiles v) (isoFiles v) n (ramGB v) (cpuModel v)
    (enableCamera v) (enableAudio v) (enableMicrophone v).
Definition set_ramGB (n : Z) (v : ColdVM) : ColdVM :=
  mkColdVM (diskDir v) (romPath v) (firmwarePath v) (varsPath v) (noVNCPath v)
    (useVNC v) (useBridge v) (bridgeInterface v) (qemuPid v) (websockifyPid v)
    (diskFiles v) (isoFiles v) (cpuCores v) n (cpuModel v)
    (enableCamera v) (enableAudio v) (enableMicrophone v).
Definition set_enableCamera (b : bool) (v : ColdVM) : ColdVM :=
  mkColdVM (diskDir v) (romPath v) (firmwarePath v) (varsPath v) (noVNCPath v)
    (useVNC v) (useBridge v) (bridgeInterface v) (qemuPid v) (websockifyPid v)
    (diskFiles v) (isoFiles v) (cpuCores v) (ramGB v) (cpuModel v)
    b (enableAudio v) (enableMicrophone v).
Definition set_enableMicrophone (b : bool) (v : ColdVM) : ColdVM :=
  mkColdVM (diskDir v) (romPath v) (firmwarePath v) (varsPath v) (noVNCPath v)
    (useVNC v) (useBridge v) (bridgeInterface v) (qemuPid v) (websockifyPid v)
    (diskFiles v) (isoFiles v) (cpuCores v) (ramGB v) (cpuModel v)
    (enableCamera v) (enableAudio v) b.

Inductive Signal : Type := SIGINT | SIGTERM.

(** What a forked child runs in place of the launcher's image. *)
Inductive ChildImage : Type :=
| Execvp (argv : list string)
| ExeclSh (cmd : string).

(** Observable actions of the process, recorded in the order they happen.
    [CreateDirectories] and [WriteFile] record the call; whether it had an
    effect shows in the file system. *)
Inductive Event : Type :=
| Stdout (text : string)
| Stderr (text : string)
| InstallHandler (sig : Signal)
| SystemCmd (cmd : string) (status : Z)
| PopenCmd (cmd : string)
| Pclose
| ForkCall (child : ChildImage) (ret : Z)
| Kill (pid : Z) (sig : Signal)
| Waitpid (pid : Z)
| Sleep (secs : nat)
| CreateDirectories (p : string)
| CopyFile (src dst : string)
| WriteFile (p : string) (bytes : N).

(** The C++ exceptions the launcher meets: [std::out_of_range] escapes
    from the camera probe, [fs::filesystem_error] is caught in
    [createDirectories]. *)
Inductive exn : Type :=
| out_of_range (what : string)
| filesystem_error (what : string).

(** The host the launcher runs on: what [system] returns for a command and
    what the command does to the file system, what [popen] yields ([None]
    when it fails, else everything the command prints), and the value the
    [n]-th call of [fork] returns (positive in the parent, negative on
    failure, zero in the child). *)
Record Host : Type := mkHost {
  host_system : string -> FS -> Z * FS;
  host_popen : string -> option string;
  host_fork : nat -> Z
}.

Record Proc : Type := mkProc {
  vm : ColdVM;
  fs : FS;
  nforks : nat;
  globalVM : bool;
  trace : list Event
}.

Definition with_vm (v : ColdVM) (p : Proc) : Proc :=
  mkProc v (fs p) (nforks p) (globalVM p) (trace p).
Definition with_fs (f : FS) (p : Proc) : Proc :=
  mkProc (vm p) f (nforks p) (globalVM p) (trace p).
Definition with_event (e : Event) (p : Proc) : Proc :=
  mkProc (vm p) (fs p) (nforks p) (globalVM p) (trace p ++ [e]).

(** A computation either returns, throws, or finds itself to be the forked
    child, about to replace its image. *)
Inductive Result (A : Type) : Type :=
| Ok (a : A) (p : Proc)
| Throw (e : exn) (p : Proc)
| InChild (img : ChildImage) (p : Proc).
Arguments Ok {A} a p.
Arguments Throw {A} e p.
Arguments InChild {A} img p.

Definition M (A : Type) : Type := Proc -> Result A.

Definition ret {A} (a : A) : M A := fun p => Ok a p.
Definition bind {A B} (c : M A) (k : A -> M B) : M B :=
  fun p => match c p with
           | Ok a p' => k a p'
           | Throw e p' => Throw e p'
           | InChild img p' => InChild img p'
           end.
Definition throw {A} (e : exn) : M A := fun p => Throw e p.

(** [try { body } catch (const fs::filesystem_error& e) { handler(e.what()) }]:
    any other exception passes through. *)
Definition try_catch {A} (body : M A) (handler : string -> M A) : M A :=
  fun p => match body p with
           | Throw (filesystem_error what) p' => handler what p'
           | r => r
           end.

Notation "x <- c1 ;; c2" := (bind c1 (fun x => c2))
  (at level 61, c1 at next level, right associativity).
Notation "c1 ;; c2" := (bind c1 (fun _ => c2))
  (at level 61, right associativity).

Definition get_vm : M ColdVM := fun p => Ok (vm p) p.
Definition modify_vm (f : ColdVM -> ColdVM) : M unit :=
  fun p => Ok tt (with_vm (f (vm p)) p).
Definition get_fs : M FS := fun p => Ok (fs p) p.
Definition put_fs (f : FS) : M unit := fun p => Ok tt (with_fs f p).
Definition emit (e : Event) : M unit := fun p => Ok tt (with_event e p).

(** A [std::string] member that may throw [std::out_of_range]. *)
Definition checked (what : string) (o : option string) : M string :=
  match o with
  | Some s => ret s
  | None => throw (out_of_range what)
  end.

Definition cout (text : string) : M unit := emit (Stdout text).
Definition cerr (text : string) : M unit := emit (Stderr text).

(* ================================================================== *)
(** ** The member functions of ColdVM *)

Section Launcher.

Variable H : Host.

(** [system(cmd)]: the host runs the command, which may change the file
    system, and hands back its status. *)
Definition system (cmd : string) : M Z :=
  fun p => let (status, fs') := host_system H cmd (fs p) in
           Ok status (with_event (SystemCmd cmd status) (with_fs fs' p)).

(** [popen(cmd, r)], with everything the command prints. *)
Definition popen (cmd : string) : M (option string) :=
  emit (PopenCmd cmd) ;; ret (host_popen H cmd).

(** [fork()]: the return value comes from the host; the model follows
    the calling process and records what the child is about to run. *)
Definition fork (child : ChildImage) : M Z :=
  fun p => let r := host_fork H (nforks p) in
           Ok r (with_event (ForkCall child r)
                   (mkProc (vm p) (fs p) (S (nforks p)) (globalVM p) (trace p))).

(** The child side of a [fork]: [exec] replaces the image. *)
Definition in_child {A} (img : ChildImage) : M A := fun p => InChild img p.

Definition fs_exists (path : string) : M bool :=
  f <- get_fs ;; ret (exists_ f path).

(** *** Logging *)

Definition log (message : string) : M unit := cout ("- " ++ message ++ nl).
Definition warning (message : string) : M unit := cout ("! " ++ message ++ nl).
Definition debug (message : string) : M unit := cout ("+ " ++ message ++ nl).
Definition error (message : string) : M unit := cerr ("✗ " ++ message ++ nl).
Definition success (message : string) : M unit := cout ("✓ " ++ message ++ nl).

(** *** Environment checks *)

Definition checkFile (path name : string) : M bool :=
  e <- fs_exists path ;;
  if e then success (name ++ " found!") ;; ret true
  else warning (name ++ " not found at: " ++ path) ;; ret false.

Definition checkCommand (cmd name : string) : M bool :=
  let checkCmd := "which " ++ cmd ++ " > /dev/null 2>&1" in
  r <- system checkCmd ;;
  if (r =? 0)%Z then success (name ++ " is available!") ;; ret true
  else warning (name ++ " is not installed!") ;; ret false.

Definition checkBridgeInterface : M bool :=
  v <- get_vm ;;
  let cmd := "ip link show " ++ bridgeInterface v ++ " > /dev/null 2>&1" in
  r <- system cmd ;;
  if (r =? 0)%Z then
    success ("Bridge interface '" ++ bridgeInterface v ++ "' is available!") ;;
    ret true
  else
    warning ("Bridge interface '" ++ bridgeInterface v ++ "' not found!") ;;
    warning "Falling back to user networking (NAT)" ;;
    modify_vm (set_useBridge false) ;;
    ret false.

(** *** Media discovery *)

(** The scans and [createDirectories] wrap their body in a handler for
    [fs::filesystem_error]; the operations of [FileSys] do not fail, so the
    handlers have nothing to catch here. *)

Definition is_disk_ext (ext : string) : bool :=
  String.eqb ext ".qcow2" || String.eqb ext ".img" || String.eqb ext ".raw"
  || String.eqb ext ".vdi" || String.eqb ext ".vmdk".

Fixpoint scan_entries (keep : string -> bool) (found : string)
    (entries : list string) (acc : list string) : M (list string) :=
  match entries with
  | [] => ret acc
  | entry :: rest =>
      if keep (extension entry) then
        debug (found ++ filename entry) ;;
        scan_entries keep found rest (acc ++ [entry])%list
      else scan_entries keep found rest acc
  end.

Definition findAllDisks : M (list string) :=
  debug "Scanning for disk images..." ;;
  v <- get_vm ;;
  f <- get_fs ;;
  if exists_ f (diskDir v) && is_directory f (diskDir v) then
    disks <- scan_entries is_disk_ext "Found disk: "
               (directory_iterator f (diskDir v)) [] ;;
    ret (sort disks)
  else ret [].

Definition findAllISOs : M (list string) :=
  debug "Scanning for ISO files..." ;;
  v <- get_vm ;;
  f <- get_fs ;;
  if exists_ f (romPath v) && is_directory f (romPath v) then
    isos <- scan_entries (fun ext => String.eqb ext ".iso") "Found ISO: "
              (directory_iterator f (romPath v)) [] ;;
    ret (sort isos)
  else ret [].

Definition mkdirs (p : string) : M unit :=
  f <- get_fs ;;
  emit (CreateDirectories p) ;;
  match create_directories f p with
  | Some f' => put_fs f'
  | None => throw (filesystem_error (create_directories_what p))
  end.

Definition createDirectories : M unit :=
  debug "Creating required directories..." ;;
  v <- get_vm ;;
  try_catch
    (mkdirs (diskDir v) ;;
     mkdirs (romPath v) ;;
     mkdirs "./boot/firmware" ;;
     mkdirs "./libraries" ;;
     success "Directory structure created!")
    (fun what => error ("Failed to create directories: " ++ what)).

Definition createDefaultDisk : M bool :=
  v <- get_vm ;;
  let defaultDiskPath := diskDir v ++ "/disk.qcow2" in
  e <- fs_exists defaultDiskPath ;;
  if negb e then
    log "Creating default 30GB disk image..." ;;
    let cmd := "qemu-img create -f qcow2 " ++ dquote ++ defaultDiskPath
               ++ dquote ++ " 30G 2>&1" in
    result <- system cmd ;;
    if (result =? 0)%Z then
      success "Default disk created successfully!" ;; ret true
    else
      error "Failed to create default disk!" ;; ret false
  else ret true.

Definition varsSources : list string :=
  [ "/usr/share/OVMF/OVMF_VARS.fd";
    "/usr/share/edk2-ovmf/x64/OVMF_VARS.fd";
    "/usr/share/qemu/OVMF_VARS.fd" ].

(** The loop over [varsSources]: [true] when a template was copied (the
    function then returns), [false] when the loop ran to its end. *)
Fixpoint copy_vars_from (sources : list string) (dst : string) : M bool :=
  match sources with
  | [] => ret false
  | source :: rest =>
      f <- get_fs ;;
      if exists_ f source then
        match copy_file f source dst with
        | Some f' =>
            emit (CopyFile source dst) ;; put_fs f' ;;
            success "OVMF VARS file created from system template!" ;;
            ret true
        | None =>
            debug ("Failed to copy from " ++ source) ;;
            copy_vars_from rest dst
        end
      else copy_vars_from rest dst
  end.

Definition createVarsFile : M bool :=
  v <- get_vm ;;
  e <- fs_exists (varsPath v) ;;
  if negb e then
    log "Creating OVMF VARS file..." ;;
    copied <- copy_vars_from varsSources (varsPath v) ;;
    if copied then ret true
    else
      warning "Creating empty OVMF VARS file (not recommended)" ;;
      f <- get_fs ;;
      emit (WriteFile (varsPath v) (64 * 1024 * 1024)) ;;
      put_fs (write_file f (varsPath v)) ;;
      ret true
  else ret true.

(** *** The hypervisor command line *)

(** [cmd.push_back(arg)]. *)
Definition push_back (cmd : list string) (arg : string) : list string :=
  (cmd ++ [arg])%list.

(** The format chosen for a disk in [buildQEMUCommand]: the tests are
    [diskPath.find(...) != npos], in the order of the source. *)
Definition disk_format (diskPath : string) : string :=
  if negb (find diskPath ".img" =? npos)%N || negb (find diskPath ".raw" =? npos)%N
  then "raw"
  else if negb (find diskPath ".vdi" =? npos)%N then "vdi"
  else if negb (find diskPath ".vmdk" =? npos)%N then "vmdk"
  else "qcow2".

(** Body of the loop over [diskFiles], from index [i] on. *)
Fixpoint attach_disks (i : nat) (disks : list string) (cmd : list string)
  : M (list string) :=
  match disks with
  | [] => ret cmd
  | diskPath :: rest =>
      let format := disk_format diskPath in
      let cmd := push_back cmd "-drive" in
      let cmd := push_back cmd ("file=" ++ diskPath ++ ",format=" ++ format
                         ++ ",if=virtio,cache=writeback") in
      let bootFlag := if Nat.eqb i 0 then " [PRIMARY BOOT]" else EmptyString in
      log ("  → " ++ filename diskPath ++ bootFlag) ;;
      attach_disks (S i) rest cmd
  end.

(** Body of the loop over [isoFiles], from index [i] on. *)
Fixpoint attach_isos (i : nat) (isos : list string) (cmd : list string)
  : M (list string) :=
  match isos with
  | [] => ret cmd
  | isoPath :: rest =>
      if Nat.eqb i 0 then
        let cmd := push_back cmd "-cdrom" in
        let cmd := push_back cmd isoPath in
        log ("  → " ++ filename isoPath ++ " [CDROM - BOOT PRIORITY]") ;;
        attach_isos (S i) rest cmd
      else
        let cmd := push_back cmd "-drive" in
        let cmd := push_back cmd ("file=" ++ isoPath ++ ",media=cdrom,readonly=on,if=ide,index="
                           ++ to_string_size i) in
        log ("  → " ++ filename isoPath ++ " [CDROM " ++ to_string_size i ++ "]") ;;
        attach_isos (S i) rest cmd
  end.

(** What successive [fgets(buffer, 256, pipe)] calls return on a stream:
    each call takes at most 255 characters and stops after a newline;
    [room] is what is left of the buffer for the line being read. *)
Fixpoint fgets_lines (stream : string) (room : nat) : list string :=
  match stream with
  | EmptyString => []
  | String c rest =>
      if Ascii.eqb c (ascii_of_nat 10) || Nat.leb room 1
      then String c EmptyString :: fgets_lines rest 255
      else match fgets_lines rest (room - 1) with
           | [] => [String c EmptyString]
           | l :: ls => String c l :: ls
           end
  end.

Record Camera : Type := mkCamera {
  cameraVendor : string;
  cameraProduct : string;
  cameraName : string
}.

Definition has (line pat : string) : bool := negb (find line pat =? npos)%N.

(** The [while (fgets ...)] loop of the camera probe: the first line with
    a camera keyword and an [ID ] marker ends it ([break]). *)
Fixpoint scan_camera (lines : list string) : M (option Camera) :=
  match lines with
  | [] => ret None
  | buffer :: rest =>
      let line := of_c_str buffer in
      if has line "Camera" || has line "Webcam" || has line "HD Webcam"
         || has line "Integrated Camera" then
        let idPos := find line "ID " in
        if negb (idPos =? npos)%N then
          ids <- checked "basic_string::substr" (substr line (size_add idPos 3) 9) ;;
          vendor <- checked "basic_string::substr" (substr ids 0 4) ;;
          product <- checked "basic_string::substr" (substr ids 5 4) ;;
          let namePos := size_add (find line ids) 10 in
          name <- checked "basic_string::substr" (substr_from line namePos) ;;
          name <- checked "basic_string::erase"
                    (erase name
                       (size_add (find_last_not_of name (" " ++ nl ++ cr ++ tab)) 1)) ;;
          ret (Some (mkCamera vendor product name))
        else scan_camera rest
      else scan_camera rest
  end.

Definition attach_camera (cmd : list string) : M (list string) :=
  debug "Detecting USB camera devices..." ;;
  pipe <- popen "lsusb 2>/dev/null" ;;
  match pipe with
  | Some stream =>
      found <- scan_camera (fgets_lines stream 255) ;;
      emit Pclose ;;
      match found with
      | Some cam =>
          let cmd := push_back cmd "-device" in
          let cmd := push_back cmd ("usb-host,vendorid=0x" ++ cameraVendor cam
                             ++ ",productid=0x" ++ cameraProduct cam) in
          success ("Camera enabled: " ++ cameraName cam) ;;
          debug ("Camera IDs: " ++ cameraVendor cam ++ ":" ++ cameraProduct cam) ;;
          ret cmd
      | None =>
          warning "No camera device found! Camera disabled." ;;
          warning "Make sure your camera is connected and working" ;;
          ret cmd
      end
  | None =>
      warning "Could not execute lsusb to detect camera!" ;;
      ret cmd
  end.

Definition buildQEMUCommand : M (list string) :=
  v <- get_vm ;;
  let cmd : list string := nil in
  let cmd := push_back cmd "qemu-system-x86_64" in
  let cmd := push_back cmd "-enable-kvm" in
  let cmd := push_back cmd "-cpu" in
  let cmd := push_back cmd (cpuModel v) in
  let cmd := push_back cmd "-smp" in
  let cmd := push_back cmd (to_string (cpuCores v)) in
  let cmd := push_back cmd "-m" in
  let cmd := push_back cmd (to_string (ramGB v) ++ "G") in
  let cmd := push_back cmd "-vga" in
  let cmd := push_back cmd "virtio" in
  let cmd := push_back cmd "-display" in
  let cmd := if useVNC v then push_back (push_back (push_back cmd "none") "-vnc") ":1"
             else push_back cmd "gtk,gl=on" in
  e <- fs_exists (firmwarePath v) ;;
  cmd <- (if e then
            let cmd := push_back cmd "-drive" in
            let cmd := push_back cmd ("if=pflash,format=raw,readonly=on,file=" ++ firmwarePath v) in
            created <- createVarsFile ;;
            if created then
              ret (push_back (push_back cmd "-drive")
                     ("if=pflash,format=raw,file=" ++ varsPath v))
            else ret cmd
          else ret cmd) ;;
  cmd <- (match diskFiles v with
          | [] => ret cmd
          | _ =>
              log ("Attaching " ++ to_string_size (length (diskFiles v)) ++ " disk(s):") ;;
              attach_disks 0 (diskFiles v) cmd
          end) ;;
  cmd <- (match isoFiles v with
          | [] => ret cmd
          | _ =>
              log ("Attaching " ++ to_string_size (length (isoFiles v)) ++ " ISO(s):") ;;
              attach_isos 0 (isoFiles v) cmd
          end) ;;
  cmd <- (if enableAudio v then
            let cmd := push_back cmd "-audiodev" in
            let cmd := push_back cmd "alsa,id=audio0" in
            let cmd := push_back cmd "-device" in
            let cmd := push_back cmd "intel-hda" in
            if enableMicrophone v then
              let cmd := push_back cmd "-device" in
              let cmd := push_back cmd "hda-duplex,audiodev=audio0" in
              success "Audio & Microphone enabled!" ;;
              ret cmd
            else
              let cmd := push_back cmd "-device" in
              let cmd := push_back cmd "hda-output,audiodev=audio0" in
              success "Audio enabled (no microphone)" ;;
              warning "Microphone is disabled!" ;;
              ret cmd
          else warning "Audio is disabled!" ;; ret cmd) ;;
  cmd <- (if useBridge v then
            let cmd := push_back cmd "-netdev" in
            let cmd := push_back cmd ("bridge,id=net0,br=" ++ bridgeInterface v) in
            let cmd := push_back cmd "-device" in
            let cmd := push_back cmd "virtio-net-pci,netdev=net0,mac=52:54:00:12:34:56" in
            success ("Network: Bridge mode (" ++ bridgeInterface v
                     ++ ") with internet access!") ;;
            ret cmd
          else
            let cmd := push_back cmd "-netdev" in
            let cmd := push_back cmd "user,id=net0" in
            let cmd := push_back cmd "-device" in
            let cmd := push_back cmd "virtio-net-pci,netdev=net0" in
            success "Network: NAT mode with internet access!" ;;
            ret cmd) ;;
  let cmd := push_back cmd "-device" in
  let cmd := push_back cmd "qemu-xhci,id=xhci" in
  let cmd := push_back cmd "-device" in
  let cmd := push_back cmd "usb-tablet" in
  cmd <- (if enableCamera v then attach_camera cmd
          else warning "Camera is disabled!" ;; ret cmd) ;;
  let cmd := push_back cmd "-rtc" in
  let cmd := push_back cmd "base=localtime,clock=host,driftfix=slew" in
  let cmd := match isoFiles v with
             | [] => push_back (push_back cmd "-boot") "order=c,menu=on"
             | _ => push_back (push_back cmd "-boot") "order=dc,menu=on"
             end in
  let cmd := push_back cmd "-machine" in
  let cmd := push_back cmd "type=q35,accel=kvm" in
  ret cmd.

(** *** Children *)

Definition startWebsockify : M bool :=
  v <- get_vm ;;
  if negb (useVNC v) then ret true
  else
    log "Starting websockify for noVNC..." ;;
    e <- fs_exists (noVNCPath v) ;;
    if negb e then
      error ("noVNC directory not found at: " ++ noVNCPath v) ;;
      ret false
    else
      let cmd := "websockify --web=" ++ noVNCPath v ++ " 8080 localhost:5901 2>&1" in
      pid <- fork (ExeclSh cmd) ;;
      if (pid =? 0)%Z then in_child (ExeclSh cmd)
      else if (pid >? 0)%Z then
        modify_vm (set_websockifyPid pid) ;;
        emit (Sleep 2) ;;
        ret true
      else
        error "Failed to fork websockify process!" ;;
        ret false.

(** The loop [for (arg : cmd) fullCmd += arg + " "]. *)
Definition join_args (cmd : list string) : string :=
  fold_left (fun fullCmd arg => fullCmd ++ (arg ++ " ")) cmd EmptyString.

Definition startQEMU : M bool :=
  log "Starting QEMU virtual machine..." ;;
  cmd <- buildQEMUCommand ;;
  debug "QEMU Command:" ;;
  let fullCmd := join_args cmd in
  debug fullCmd ;;
  pid <- fork (Execvp cmd) ;;
  if (pid =? 0)%Z then in_child (Execvp cmd)
  else if (pid >? 0)%Z then
    modify_vm (set_qemuPid pid) ;;
    emit (Sleep 3) ;;
    ret true
  else
    error "Failed to fork QEMU process!" ;;
    ret false.

Definition cleanup : M unit :=
  log "Shutting down Cold VM..." ;;
  v <- get_vm ;;
  (if negb (qemuPid v =? -1)%Z then
     emit (Kill (qemuPid v) SIGTERM) ;;
     emit (Waitpid (qemuPid v)) ;;
     success "QEMU stopped"
   else ret tt) ;;
  v <- get_vm ;;
  (if negb (websockifyPid v =? -1)%Z then
     emit (Kill (websockifyPid v) SIGTERM) ;;
     emit (Waitpid (websockifyPid v)) ;;
     success "Websockify stopped"
   else ret tt).

(** *** Banner and configuration summary *)

Definition printHeader : M unit :=
  cout nl ;;
  cout ("╔═══════════════════════════════════════╗" ++ nl) ;;
  cout ("║          COLD VM MANAGER v2.0         ║" ++ nl) ;;
  cout ("║     Advanced Virtual Machine System   ║" ++ nl) ;;
  cout ("╚═══════════════════════════════════════╝" ++ nl) ;;
  cout nl.

Definition printConfiguration : M unit :=
  log "System Configuration:" ;;
  v <- get_vm ;;
  cout ("  → CPU: " ++ cpuModel v ++ " (" ++ to_string (cpuCores v) ++ " cores)" ++ nl) ;;
  cout ("  → RAM: " ++ to_string (ramGB v) ++ " GB" ++ nl) ;;
  cout ("  → VirtIO: Enabled" ++ nl) ;;
  e <- fs_exists (firmwarePath v) ;;
  cout ("  → OVMF/UEFI: " ++ (if e then "Enabled" else "Disabled") ++ nl) ;;
  cout ("  → Display: " ++ (if useVNC v then "VNC (Remote)" else "GTK (Local)") ++ nl) ;;
  cout nl.

Definition readyBanner : M unit :=
  cout nl ;;
  cout ("╔═══════════════════════════════════════════════════════════════╗" ++ nl) ;;
  cout ("║  VM is ready! Access via web browser:                         ║" ++ nl) ;;
  cout ("║                                                               ║" ++ nl) ;;
  cout ("║  🌐 http://localhost:8080/vnc.html?resize=remote&autoconnect=true  ║" ++ nl) ;;
  cout ("║                                                               ║" ++ nl) ;;
  cout ("║  Features: Remote scaling, auto-connect, full control         ║" ++ nl) ;;
  cout ("╚═══════════════════════════════════════════════════════════════╝" ++ nl).

(** *** boot *)

(** The rest of [boot], from the call of [startQEMU] on. *)
Definition launch : M bool :=
  started <- startQEMU ;;
  if negb started then
    error "Failed to start QEMU!" ;;
    ret false
  else
    success "QEMU started successfully!" ;;
    v <- get_vm ;;
    ready <- (if useVNC v then
                ws <- startWebsockify ;;
                if negb ws then
                  cleanup ;;
                  ret false
                else
                  success "Websockify started successfully!" ;;
                  readyBanner ;;
                  ret true
              else
                success "VM started in local display mode!" ;;
                ret true) ;;
    if negb ready then ret false
    else
      cout nl ;;
      log "Press Ctrl+C to shutdown the VM" ;;
      cout nl ;;
      ret true.

(** The media discovery of [boot]: both scans, then the default disk
    when the disk scan came back empty. *)
Definition discoverMedia : M unit :=
  disks <- findAllDisks ;;
  modify_vm (set_diskFiles disks) ;;
  isos <- findAllISOs ;;
  modify_vm (set_isoFiles isos) ;;
  v <- get_vm ;;
  match diskFiles v with
  | [] =>
      warning "No disk images found!" ;;
      created <- createDefaultDisk ;;
      if created then
        disks <- findAllDisks ;;
        modify_vm (set_diskFiles disks)
      else ret tt
  | _ => ret tt
  end.

(** [boot] up to the last line before [startQEMU]: [true] when the
    launch is to go ahead, [false] where [boot] executes [return false]. *)
Definition prepare : M bool :=
  printHeader ;;
  log "Initializing Cold VM..." ;;
  createDirectories ;;
  debug "Checking system requirements..." ;;
  haveQemu <- checkCommand "qemu-system-x86_64" "QEMU" ;;
  if negb haveQemu then
    error "QEMU is required but not installed!" ;;
    ret false
  else
    v <- get_vm ;;
    checkFile (firmwarePath v) "OVMF Firmware" ;;
    vncOk <- (if useVNC v then
                haveWs <- checkCommand "websockify" "Websockify" ;;
                if negb haveWs then
                  error "Websockify is required for VNC mode!" ;;
                  ret false
                else
                  checkFile (noVNCPath v) "noVNC" ;;
                  ret true
              else ret true) ;;
    if negb vncOk then ret false
    else
      (if useBridge v then checkBridgeInterface ;; ret tt else ret tt) ;;
      discoverMedia ;;
      v <- get_vm ;;
      match diskFiles v, isoFiles v with
      | [], [] =>
          error "No bootable media available!" ;;
          error "Please add disk images to ./devices/disk/ or ISOs to ./devices/rom/" ;;
          ret false
      | _, _ =>
          cout nl ;;
          printConfiguration ;;
          (match isoFiles v, diskFiles v with
           | _ :: _, _ :: _ => log "Boot Mode: ISO Installation with persistent disk(s)"
           | _ :: _, [] => log "Boot Mode: Live ISO (no persistent storage)"
           | [], _ => log "Boot Mode: Disk boot"
           end) ;;
          cout nl ;;
          log "Starting virtual machine..." ;;
          cout nl ;;
          ret true
      end.

Definition boot : M bool :=
  ready <- prepare ;;
  if ready then launch else ret false.

Definition setVNCMode (enabled : bool) : M unit := modify_vm (set_useVNC enabled).
Definition setBridgeMode (enabled : bool) : M unit := modify_vm (set_useBridge enabled).
Definition setCPUCores (cores : Z) : M unit := modify_vm (set_cpuCores cores).
Definition setRAM (gb : Z) : M unit := modify_vm (set_ramGB gb).
Definition setCamera (enabled : bool) : M unit := modify_vm (set_enableCamera enabled).
Definition setMicrophone (enabled : bool) : M unit :=
  modify_vm (set_enableMicrophone enabled).

(** *** signalHandler and main *)

(** How the process stands when the modelled code stops: it has exited
    with a status, it sits in [while (true) sleep(1)] until a signal
    comes, an exception escaped [main] ([std::terminate]), or this is the
    forked child replacing its image. *)
Inductive Status : Type :=
| Exited (code : Z)
| Idle
| Terminated (e : exn)
| Replaced (img : ChildImage).

Definition set_globalVM : M unit :=
  fun p => Ok tt (mkProc (vm p) (fs p) (nforks p) true (trace p)).
Definition get_globalVM : M bool := fun p => Ok (globalVM p) p.

(** [signalHandler(sig)]: [cleanup] through the global pointer when it is
    set, then [exit(0)]. *)
Definition signalHandler (sig : Signal) : M Status :=
  cout nl ;;
  set <- get_globalVM ;;
  (if set then cleanup else ret tt) ;;
  cout (nl ++ "✓ Cold VM shutdown complete!" ++ nl ++ nl) ;;
  ret (Exited 0).

Definition printHelp (argv0 : string) : M unit :=
  cout ("Cold VM Manager - Advanced Virtual Machine System" ++ nl ++ nl) ;;
  cout ("Usage: " ++ argv0 ++ " [options]" ++ nl ++ nl) ;;
  cout ("Options:" ++ nl) ;;
  cout ("  --no-vnc      Use local GTK display instead of VNC" ++ nl) ;;
  cout ("  --no-bridge   Use NAT networking instead of bridge" ++ nl) ;;
  cout ("  --no-camera   Disable camera passthrough" ++ nl) ;;
  cout ("  --no-mic      Disable microphone" ++ nl) ;;
  cout ("  --help, -h    Show this help message" ++ nl ++ nl) ;;
  cout ("Default configuration:" ++ nl) ;;
  cout ("  - 6 GB RAM" ++ nl) ;;
  cout ("  - 4 CPU cores (host model)" ++ nl) ;;
  cout ("  - VirtIO devices" ++ nl) ;;
  cout ("  - VNC with remote scaling" ++ nl) ;;
  cout ("  - Bridge networking (virbr0)" ++ nl) ;;
  cout ("  - Camera, audio & microphone enabled" ++ nl) ;;
  cout nl.

Definition is_help (arg : string) : bool :=
  String.eqb arg "--help" || String.eqb arg "-h".

(** The argument loop of [main], over [argv[1..]]: [Some code] when the
    loop returns from [main]. *)
Fixpoint parse_args (argv0 : string) (args : list string) : M (option Z) :=
  match args with
  | [] => ret None
  | arg :: rest =>
      if String.eqb arg "--no-vnc" then setVNCMode false ;; parse_args argv0 rest
      else if String.eqb arg "--no-bridge" then setBridgeMode false ;; parse_args argv0 rest
      else if String.eqb arg "--no-camera" then setCamera false ;; parse_args argv0 rest
      else if String.eqb arg "--no-mic" then setMicrophone false ;; parse_args argv0 rest
      else if is_help arg then printHelp argv0 ;; ret (Some 0%Z)
      else parse_args argv0 rest
  end.

(** [main] up to the end of the argument loop. *)
Definition startup (argv : list string) : M (option Z) :=
  emit (InstallHandler SIGINT) ;;
  emit (InstallHandler SIGTERM) ;;
  set_globalVM ;;
  parse_args (hd EmptyString argv) (tl argv).

Definition main_body (argv : list string) : M Status :=
  returned <- startup argv ;;
  match returned with
  | Some code => ret (Exited code)
  | None =>
      booted <- boot ;;
      if booted then ret Idle
      else
        cerr (nl ++ "✗ Failed to start Cold VM!" ++ nl ++ nl) ;;
        ret (Exited 1)
  end.

Definition run {A} (c : M A) (lift : A -> Status) (p : Proc) : Status * Proc :=
  match c p with
  | Ok a p' => (lift a, p')
  | Throw e p' => (Terminated e, p')
  | InChild img p' => (Replaced img, p')
  end.

(** The process as [main] starts on a file system: the [ColdVM] object is
    built by its constructor, [globalVM] is still null, no [fork] has been
    made and nothing has been printed. *)
Definition initial (fs0 : FS) : Proc := mkProc ColdVM_new fs0 0 false [].

Definition main (argv : list string) (fs0 : FS) : Status * Proc :=
  run (main_body argv) (fun st => st) (initial fs0).

(** A termination signal delivered to the process in state [p]. *)
Definition deliver (sig : Signal) (p : Proc) : Status * Proc :=
  run (signalHandler sig) (fun st => st) p.

End Launcher.

(* ================================================================== *)
(** ** Vocabulary for the properties *)

(** The state a computation leaves behind, however it ends. *)
Definition final {A} (r : Result A) : Proc :=
  match r with
  | Ok _ p => p
  | Throw _ p => p
  | InChild _ p => p
  end.

(** The value a computation returns, when it returns. *)
Definition returned {A} (r : Result A) : option A :=
  match r with
  | Ok a _ => Some a
  | _ => None
  end.

(** [c] moves the process along [R], however it ends. *)
Definition within (R : Proc -> Proc -> Prop) {A} (c : M A) : Prop :=
  forall p, R p (final (c p)).

(** [c] always returns: no exception, no switch to the child side. *)
Definition total {A} (c : M A) : Prop :=
  forall p, exists a p', c p = Ok a p'.

(** [c] returns or throws a [filesystem_error]: under a [try] block that
    catches it, control always comes back. *)
Definition catchable {A} (c : M A) : Prop :=
  forall p, (exists a p', c p = Ok a p')
            \/ (exists what p', c p = Throw (filesystem_error what) p').

Class Frame (R : Proc -> Proc -> Prop) : Prop := {
  frame_refl : forall p, R p p;
  frame_trans : forall p q r, R p q -> R q r -> R p r
}.

(** The trace grows by events that pass [allowed], and [K] relates the
    rest of the state. *)
Definition calm (K : Proc -> Proc -> Prop) (allowed : Event -> bool)
  : Proc -> Proc -> Prop :=
  fun p q =>
    K p q /\ exists t, trace q = (trace p ++ t)%list /\ forallb allowed t = true.

Class Keeps (K : Proc -> Proc -> Prop) : Prop := {
  keeps_refl : forall p, K p p;
  keeps_trans : forall p q r, K p q -> K q r -> K p r;
  keeps_event : forall p e, K p (with_event e p)
}.

(** Nothing but the trace changes. *)
Definition untouched (p q : Proc) : Prop :=
  vm q = vm p /\ fs q = fs p /\ nforks q = nforks p /\ globalVM q = globalVM p.

(** The [ColdVM] object, the [fork] count and the global pointer stay. *)
Definition same_vm (p q : Proc) : Prop :=
  vm q = vm p /\ nforks q = nforks p /\ globalVM q = globalVM p.

(** The recorded children, the RAM size, the [fork] count and the global
    pointer stay. *)
Definition steady (p q : Proc) : Prop :=
  qemuPid (vm q) = qemuPid (vm p) /\ websockifyPid (vm q) = websockifyPid (vm p)
  /\ ramGB (vm q) = ramGB (vm p)
  /\ nforks q = nforks p /\ globalVM q = globalVM p.

(** Printing only. *)
Definition only_output (e : Event) : bool :=
  match e with
  | Stdout _ | Stderr _ => true
  | _ => false
  end.

(** No process is created, signalled or waited for. *)
Definition no_child (e : Event) : bool :=
  match e with
  | ForkCall _ _ | Kill _ _ | Waitpid _ => false
  | _ => true
  end.

(** What happens to children, read off a trace: a [fork] that returned a
    pid to the parent, a signal sent, a wait. *)
Inductive ChildAction : Type :=
| Spawned (pid : Z)
| Signalled (pid : Z)
| Waited (pid : Z).

Definition child_action (e : Event) : list ChildAction :=
  match e with
  | ForkCall _ r => if (r >? 0)%Z then [Spawned r] else []
  | Kill pid _ => [Signalled pid]
  | Waitpid pid => [Waited pid]
  | _ => []
  end.

Definition child_actions (t : list Event) : list ChildAction :=
  flat_map child_action t.

(** The argument vectors handed to [execvp] by the forks of a trace. *)
Definition spawned_argv (e : Event) : list (list string) :=
  match e with
  | ForkCall (Execvp argv) _ => [argv]
  | _ => []
  end.

Definition spawned_commands (t : list Event) : list (list string) :=
  flat_map spawned_argv t.

(** [cmd'] is [cmd] with arguments pushed at its back. *)
Definition extends (cmd cmd' : list string) : Prop :=
  exists pushed, cmd' = (cmd ++ pushed)%list.

(** What one call of [cleanup] appends to the trace, by the two pids. *)
Definition teardown_events (v : ColdVM) : list Event :=
  ([Stdout ("- Shutting down Cold VM..." ++ nl)]
   ++ (if (qemuPid v =? -1)%Z then []
       else [Kill (qemuPid v) SIGTERM; Waitpid (qemuPid v);
             Stdout ("✓ QEMU stopped" ++ nl)])
   ++ (if (websockifyPid v =? -1)%Z then []
       else [Kill (websockifyPid v) SIGTERM; Waitpid (websockifyPid v);
             Stdout ("✓ Websockify stopped" ++ nl)]))%list.

Definition append_events (t : list Event) (p : Proc) : Proc :=
  mkProc (vm p) (fs p) (nforks p) (globalVM p) (trace p ++ t).

(** [e] is the text [text] written to standard error. *)
Definition printed_on_stderr (text : string) (e : Event) : bool :=
  match e with
  | Stderr t => String.eqb t text
  | _ => false
  end.

(* ================================================================== *)
(** ** Hosts and file systems used as concrete inputs *)

Definition default_disk : string := "./devices/disk/disk.qcow2".

(** Every command succeeds; [qemu-img create] ends with [status] and, when
    that is zero, leaves the default disk image behind. *)
Definition demo_system (status : Z) (cmd : string) (f : FS) : Z * FS :=
  if String.prefix "qemu-img create" cmd then
    if (status =? 0)%Z then (0%Z, mkFS (fs_files f ++ [default_disk]) (fs_dirs f))
    else (status, f)
  else (0%Z, f).

Definition demo_fork (n : nat) : Z := (100 + Z.of_nat n)%Z.

Definition lsusb_webcam : string :=
  "Bus 001 Device 002: ID 8087:0024 Intel Corp. Integrated Rate Matching Hub" ++ nl
  ++ "Bus 001 Device 003: ID 046d:0825 Logitech, Inc. Webcam C270" ++ nl.

Definition lsusb_short_id : string := "Camera ID 12" ++ nl.

Definition host_webcam : Host :=
  mkHost (demo_system 0) (fun _ => Some lsusb_webcam) demo_fork.

Definition host_short_id : Host :=
  mkHost (demo_system 0) (fun _ => Some lsusb_short_id) demo_fork.

Definition host_no_qemu_img : Host :=
  mkHost (demo_system 1) (fun _ => Some lsusb_webcam) demo_fork.

Definition fs_iso : FS :=
  mkFS ["./devices/rom/debian.iso"] ["./devices/rom"; "./libraries/noVNC"].

Definition fs_iso_no_novnc : FS :=
  mkFS ["./devices/rom/debian.iso"] ["./devices/rom"].

Definition fs_bare : FS := mkFS [] ["./libraries/noVNC"].

Definition fs_img : FS :=
  mkFS ["./devices/disk/a.img"] ["./devices/disk"; "./libraries/noVNC"].

Definition fs_stacked : FS :=
  mkFS ["./devices/disk/backup.img.vdi"] ["./devices/disk"; "./libraries/noVNC"].

(** The states a run of [main] goes through on a host: after the argument
    loop, after [prepare], and after the command line is built. *)
Definition configured (argv : list string) (fs0 : FS) : Proc :=
  final (startup argv (initial fs0)).

Definition prepared (H : Host) (argv : list string) (fs0 : FS) : Proc :=
  final (prepare H (configured argv fs0)).

Definition building (H : Host) (argv : list string) (fs0 : FS) : Result (list string) :=
  buildQEMUCommand H
    (with_event (Stdout ("- Starting QEMU virtual machine..." ++ nl)) (prepared H argv fs0)).

Definition built (H : Host) (argv : list string) (fs0 : FS) : list string :=
  match building H argv fs0 with
  | Ok cmd _ => cmd
  | _ => []
  end.

(* ================================================================== *)
(** ** Vocabulary for the properties of the remaining functions *)

(** The file system, the [fork] count and the global pointer stay. *)
Definition same_fs (p q : Proc) : Prop :=
  fs q = fs p /\ nforks q = nforks p /\ globalVM q = globalVM p.

(** No external command is run. *)
Definition no_command (e : Event) : bool :=
  match e with
  | SystemCmd _ _ | PopenCmd _ | ForkCall _ _ | Kill _ _ | Waitpid _ => false
  | _ => true
  end.

(** The commands handed to [system] and [popen], in order. *)
Definition command_of (e : Event) : list string :=
  match e with
  | SystemCmd cmd _ => [cmd]
  | PopenCmd cmd => [cmd]
  | _ => []
  end.

Definition commands_run (t : list Event) : list string := flat_map command_of t.

(** The entries of a directory whose extension passes [keep]. *)
Definition recognized (keep : string -> bool) (f : FS) (dir : string) : list string :=
  filter (fun entry => keep (extension entry)) (directory_iterator f dir).

Definition is_iso_ext (ext : string) : bool := String.eqb ext ".iso".

Definition which_qemu : string := "which qemu-system-x86_64 > /dev/null 2>&1".
Definition which_websockify : string := "which websockify > /dev/null 2>&1".

(** The display mode and the camera switch stay. *)
Definition same_switches (p q : Proc) : Prop :=
  useVNC (vm q) = useVNC (vm p) /\ enableCamera (vm q) = enableCamera (vm p).

(** No restriction on the events. *)
Definition any_event (e : Event) : bool := true.

(** A host on which every [fork] call hands back [r]. *)
Definition host_fork_returns (r : Z) : Host :=
  mkHost (demo_system 0) (fun _ => Some lsusb_webcam) (fun _ => r).

(** The arguments the loop over [diskFiles] pushes, in closed form. *)
Definition disk_args (disks : list string) : list string :=
  flat_map (fun diskPath =>
              [ "-drive";
                "file=" ++ diskPath ++ ",format=" ++ disk_format diskPath
                ++ ",if=virtio,cache=writeback" ]) disks.

(** The arguments the loop over [isoFiles] pushes from index [i] on. *)
Fixpoint iso_args (i : nat) (isos : list string) : list string :=
  match isos with
  | [] => []
  | isoPath :: rest =>
      ((if Nat.eqb i 0 then [ "-cdrom"; isoPath ]
        else [ "-drive";
               ("file=" ++ isoPath ++ ",media=cdrom,readonly=on,if=ide,index="
                ++ to_string_size i)%string ])
       ++ iso_args (S i) rest)%list
  end.

(** The argument vector of [buildQEMUCommand] in closed form, by the
    configuration, whether the firmware file exists and what the camera
    probe contributed. *)
Definition command_line (v : ColdVM) (firmware : bool) (camera : list string)
  : list string :=
  ([ "qemu-system-x86_64"; "-enable-kvm"; "-cpu"; cpuModel v; "-smp";
     to_string (cpuCores v); "-m"; (to_string (ramGB v) ++ "G")%string;
     "-vga"; "virtio"; "-display" ]
   ++ (if useVNC v then [ "none"; "-vnc"; ":1" ] else [ "gtk,gl=on" ])
   ++ (if firmware
       then [ "-drive"; ("if=pflash,format=raw,readonly=on,file=" ++ firmwarePath v)%string;
              "-drive"; ("if=pflash,format=raw,file=" ++ varsPath v)%string ]
       else [])
   ++ disk_args (diskFiles v)
   ++ iso_args 0 (isoFiles v)
   ++ (if enableAudio v
       then [ "-audiodev"; "alsa,id=audio0"; "-device"; "intel-hda"; "-device";
              if enableMicrophone v then "hda-duplex,audiodev=audio0"
              else "hda-output,audiodev=audio0" ]
       else [])
   ++ (if useBridge v
       then [ "-netdev"; ("bridge,id=net0,br=" ++ bridgeInterface v)%string; "-device";
              "virtio-net-pci,netdev=net0,mac=52:54:00:12:34:56" ]
       else [ "-netdev"; "user,id=net0"; "-device"; "virtio-net-pci,netdev=net0" ])
   ++ [ "-device"; "qemu-xhci,id=xhci"; "-device"; "usb-tablet" ]
   ++ camera
   ++ [ "-rtc"; "base=localtime,clock=host,driftfix=slew"; "-boot";
        match isoFiles v with
        | [] => "order=c,menu=on"
        | _ :: _ => "order=dc,menu=on"
        end;
        "-machine"; "type=q35,accel=kvm" ])%list.

(** The pair of arguments that passes a camera through. *)
Definition camera_args (cam : Camera) : list string :=
  [ "-device";
    "usb-host,vendorid=0x" ++ cameraVendor cam ++ ",productid=0x" ++ cameraProduct cam ].

(** The test that ends the camera probe's loop on a buffer: one of the
    keywords and the [ID ] marker occur in the line. *)
Definition camera_line (buffer : string) : bool :=
  let line := of_c_str buffer in
  (has line "Camera" || has line "Webcam" || has line "HD Webcam"
   || has line "Integrated Camera")
  && negb (find line "ID " =? npos)%N.

(** The text the probe cuts out after the marker: [line.substr(idPos + 3, 9)]. *)
Definition id_text (line : string) : string :=
  substring (N.to_nat (find line "ID ") + 3) 9 line.

(** [c] always ends in the exception [e]. *)
Definition raises {A} (e : exn) (c : M A) : Prop :=
  forall p, exists p', c p = Throw e p'.

(** The command of the camera probe. *)
Definition lsusb : string := "lsusb 2>/dev/null".

(** An [lsusb] output whose last line names a webcam, ends right after
    the ids and has no trailing newline. *)
Definition lsusb_no_name : string :=
  "Bus 001 Device 002: ID 8087:0024 Intel Corp. Integrated Rate Matching Hub" ++ nl
  ++ "Bus 001 Device 003: Webcam ID 046d:0825".

Definition host_no_name : Host :=
  mkHost (demo_system 0) (fun _ => Some lsusb_no_name) demo_fork.

(** The directories [createDirectories] asks for, in the order of its calls. *)
Definition required_dirs (v : ColdVM) : list string :=
  [diskDir v; romPath v; "./boot/firmware"; "./libraries"].

(** [create_directories] fails at [d]: it is not a directory yet and a
    regular file stands at it or in its way. *)
Definition refused (f : FS) (d : string) : bool :=
  negb (is_directory f d) && blocked f d.

(** A run of [create_directories] calls that stops at the first failure:
    the file system reached, the calls made and the path that failed. *)
Fixpoint make_dirs (f : FS) (ds : list string) : FS * list string * option string :=
  match ds with
  | [] => (f, [], None)
  | d :: rest =>
      match create_directories f d with
      | Some f' =>
          let '(f2, tried, failed) := make_dirs f' rest in (f2, d :: tried, failed)
      | None => (f, [d], Some d)
      end
  end.

(* ================================================================== *)
(** ** Running computations *)

Lemma bind_Ok_inv {A B} (c : M A) (k : A -> M B) p b p' :
  bind c k p = Ok b p' -> exists a p1, c p = Ok a p1 /\ k a p1 = Ok b p'.
Proof.
  unfold bind. destruct (c p) as [a p1|e p1|img p1]; intro E; try discriminate.
  exists a, p1. split; [reflexivity | exact E].
Qed.

Lemma Ok_inj {A} (a b : A) (p q : Proc) : Ok a p = Ok b q -> a = b /\ p = q.
Proof. intro E. injection E as -> ->. split; reflexivity. Qed.

Lemma run_bind {A B} (c : M A) (k : A -> M B) p a p1 :
  c p = Ok a p1 -> bind c k p = k a p1.
Proof. intro E. unfold bind. rewrite E. reflexivity. Qed.

Lemma emit_bind {B} e (k : unit -> M B) p :
  bind (emit e) k p = k tt (with_event e p).
Proof. reflexivity. Qed.

Lemma bind_bind {A B C} (c : M A) (k1 : A -> M B) (k2 : B -> M C) p :
  bind (bind c k1) k2 p = bind c (fun a => bind (k1 a) k2) p.
Proof. unfold bind. destruct (c p); reflexivity. Qed.

Ltac inv_bind E :=
  cbv zeta beta in E;
  let a := fresh "a" in
  let q := fresh "q" in
  let Ea := fresh "E" in
  apply bind_Ok_inv in E; destruct E as (a & q & Ea & E); cbv beta in E.

Ltac inv_ret E := unfold ret in E; injection E; intros; subst.

(* ================================================================== *)
(** ** Frames: what a function leaves alone *)

Section FrameLemmas.
Context {R : Proc -> Proc -> Prop} {FR : Frame R}.

Lemma within_ret {A} (a : A) : within R (ret a).
Proof. intro p. apply frame_refl. Qed.

Lemma within_throw {A} (e : exn) : within R (@throw A e).
Proof. intro p. apply frame_refl. Qed.

Lemma within_in_child {A} img : within R (@in_child A img).
Proof. intro p. apply frame_refl. Qed.

Lemma within_get_vm : within R get_vm.
Proof. intro p. apply frame_refl. Qed.

Lemma within_get_fs : within R get_fs.
Proof. intro p. apply frame_refl. Qed.

Lemma within_bind {A B} (c : M A) (k : A -> M B) :
  within R c -> (forall a, within R (k a)) -> within R (bind c k).
Proof.
  intros Hc Hk p. unfold bind. specialize (Hc p).
  destruct (c p) as [a p1|e p1|img p1]; simpl in *; try assumption.
  eapply frame_trans; [exact Hc | apply Hk].
Qed.

Lemma within_try_catch {A} (body : M A) (handler : string -> M A) :
  within R body -> (forall what, within R (handler what)) ->
  within R (try_catch body handler).
Proof.
  intros Hb Hh p. unfold try_catch. specialize (Hb p).
  destruct (body p) as [a p1|[what|what] p1|img p1]; simpl in *; try assumption.
  eapply frame_trans; [exact Hb | apply Hh].
Qed.
End FrameLemmas.

Lemma within_weaken (R1 R2 : Proc -> Proc -> Prop) {A} (c : M A) :
  (forall p q, R1 p q -> R2 p q) -> within R1 c -> within R2 c.
Proof. intros Hin Hc p. apply Hin, Hc. Qed.

Lemma within_Ok (R : Proc -> Proc -> Prop) {A} (c : M A) p a p' :
  within R c -> c p = Ok a p' -> R p p'.
Proof. intros W E. specialize (W p). rewrite E in W. exact W. Qed.

Lemma total_ret {A} (a : A) : total (ret a).
Proof. intro p. exists a, p. reflexivity. Qed.

Lemma total_bind {A B} (c : M A) (k : A -> M B) :
  total c -> (forall a, total (k a)) -> total (bind c k).
Proof.
  intros Hc Hk p. destruct (Hc p) as (a & p1 & E).
  destruct (Hk a p1) as (b & p2 & E2). exists b, p2.
  rewrite (run_bind _ _ _ _ _ E). exact E2.
Qed.

Lemma total_get_vm : total get_vm.
Proof. intro p. eexists _, _. reflexivity. Qed.

Lemma total_get_fs : total get_fs.
Proof. intro p. eexists _, _. reflexivity. Qed.

Lemma total_emit e : total (emit e).
Proof. intro p. eexists _, _. reflexivity. Qed.

Lemma total_modify_vm f : total (modify_vm f).
Proof. intro p. eexists _, _. reflexivity. Qed.

Lemma total_put_fs f : total (put_fs f).
Proof. intro p. eexists _, _. reflexivity. Qed.

Lemma total_system H cmd : total (system H cmd).
Proof.
  intro p. unfold system. destruct (host_system H cmd (fs p)).
  eexists _, _. reflexivity.
Qed.

Lemma total_catchable {A} (c : M A) : total c -> catchable c.
Proof. intros Hc p. left. apply Hc. Qed.

Lemma catchable_throw {A} what : catchable (@throw A (filesystem_error what)).
Proof. intro p. right. eexists _, _. reflexivity. Qed.

Lemma catchable_bind {A B} (c : M A) (k : A -> M B) :
  catchable c -> (forall a, catchable (k a)) -> catchable (bind c k).
Proof.
  intros Hc Hk p. destruct (Hc p) as [(a & p1 & E) | (what & p1 & E)].
  - rewrite (run_bind _ _ _ _ _ E). apply Hk.
  - right. exists what, p1. unfold bind. rewrite E. reflexivity.
Qed.

Lemma total_try_catch {A} (body : M A) (handler : string -> M A) :
  catchable body -> (forall what, total (handler what)) ->
  total (try_catch body handler).
Proof.
  intros Hb Hh p. unfold try_catch.
  destruct (Hb p) as [(a & p1 & E) | (what & p1 & E)]; rewrite E.
  - exists a, p1. reflexivity.
  - apply Hh.
Qed.

Section CalmLemmas.
Context {K : Proc -> Proc -> Prop} {KK : Keeps K}.
Variable allowed : Event -> bool.

#[export] Instance calm_Frame : Frame (calm K allowed).
Proof.
  split.
  - intro p. split; [apply keeps_refl |]. exists []. rewrite app_nil_r. auto.
  - intros p q r [K1 (t1 & E1 & A1)] [K2 (t2 & E2 & A2)]. split.
    + eapply keeps_trans; eassumption.
    + exists (t1 ++ t2)%list. rewrite E2, E1, app_assoc. split; [reflexivity |].
      rewrite forallb_app, A1, A2. reflexivity.
Qed.

Lemma within_emit e : allowed e = true -> within (calm K allowed) (emit e).
Proof.
  intros He p. simpl. split; [apply keeps_event |].
  exists [e]. simpl. rewrite He. auto.
Qed.

Lemma within_modify_vm f :
  (forall p, K p (with_vm (f (vm p)) p)) -> within (calm K allowed) (modify_vm f).
Proof.
  intros Hf p. simpl. split; [apply Hf |]. exists []. simpl. rewrite app_nil_r. auto.
Qed.

Lemma within_put_fs f :
  (forall p, K p (with_fs f p)) -> within (calm K allowed) (put_fs f).
Proof.
  intros Hf p. simpl. split; [apply Hf |]. exists []. simpl. rewrite app_nil_r. auto.
Qed.

Lemma within_system H cmd :
  (forall st, allowed (SystemCmd cmd st) = true) ->
  (forall p f, K p (with_fs f p)) ->
  within (calm K allowed) (system H cmd).
Proof.
  intros He Hf p. unfold system. destruct (host_system H cmd (fs p)) as [st f'].
  simpl. split.
  - eapply keeps_trans; [apply (Hf p f') | apply keeps_event].
  - exists [SystemCmd cmd st]. simpl. rewrite He. auto.
Qed.
End CalmLemmas.

Lemma calm_incl (K1 K2 : Proc -> Proc -> Prop) (a1 a2 : Event -> bool) :
  (forall p q, K1 p q -> K2 p q) -> (forall e, a1 e = true -> a2 e = true) ->
  forall p q, calm K1 a1 p q -> calm K2 a2 p q.
Proof.
  intros HK Ha p q [H1 (t & E & Hall)]. split; [auto |]. exists t. split; [exact E |].
  rewrite forallb_forall in *. auto.
Qed.

#[export] Instance untouched_Keeps : Keeps untouched.
Proof.
  split; unfold untouched; simpl; intros.
  - intuition.
  - intuition congruence.
  - intuition.
Qed.

#[export] Instance same_vm_Keeps : Keeps same_vm.
Proof.
  split; unfold same_vm; simpl; intros.
  - intuition.
  - intuition congruence.
  - intuition.
Qed.

#[export] Instance steady_Keeps : Keeps steady.
Proof.
  split; unfold steady; simpl; intros.
  - intuition.
  - intuition congruence.
  - intuition.
Qed.

Lemma untouched_same_vm p q : untouched p q -> same_vm p q.
Proof. unfold untouched, same_vm. intuition. Qed.

Lemma same_vm_steady p q : same_vm p q -> steady p q.
Proof. unfold same_vm, steady. intuition congruence. Qed.

Lemma untouched_steady p q : untouched p q -> steady p q.
Proof. intro U. apply same_vm_steady, untouched_same_vm, U. Qed.

Lemma only_output_no_child e : only_output e = true -> no_child e = true.
Proof. destruct e; simpl; congruence. Qed.

Create HintDb frame discriminated.
Create HintDb frame_incl discriminated.

#[export] Hint Resolve untouched_same_vm same_vm_steady untouched_steady
  only_output_no_child : frame_incl.

Ltac unfold_prog :=
  progress unfold log, warning, debug, error, success, cout, cerr, fs_exists, mkdirs,
    popen, checked, setVNCMode, setBridgeMode, setCamera, setMicrophone.

Ltac side :=
  solve [ reflexivity
        | intros; reflexivity
        | intros; unfold untouched, same_vm, steady; simpl; auto ].

Ltac incl :=
  solve [ intros; assumption
        | apply calm_incl; auto with frame_incl ].

Ltac within_step :=
  match goal with
  | |- within _ (bind _ _) => apply within_bind; [ | intros ]
  | |- within _ (ret _) => apply within_ret
  | |- within _ (throw _) => apply within_throw
  | |- within _ (try_catch _ _) => apply within_try_catch; [ | intros ]
  | |- within _ (in_child _) => apply within_in_child
  | |- within _ get_vm => apply within_get_vm
  | |- within _ get_fs => apply within_get_fs
  | |- within _ (emit _) => apply within_emit; side
  | |- within _ (modify_vm _) => apply within_modify_vm; side
  | |- within _ (put_fs _) => apply within_put_fs; side
  | |- within _ (system _ _) => apply within_system; side
  | |- within _ (if ?b then _ else _) => destruct b
  | |- within _ (match ?x with _ => _ end) => destruct x
  | |- within _ _ => solve [ eauto with frame ]
  | |- within _ _ =>
      solve [ eapply within_weaken; [ | solve [eauto with frame] ]; incl ]
  | |- within _ _ => unfold_prog
  | |- within _ _ => progress cbv zeta
  end.

Ltac within_auto := repeat within_step.

Ltac total_step :=
  match goal with
  | |- total (bind _ _) => apply total_bind; [ | intros ]
  | |- total (ret _) => apply total_ret
  | |- total get_vm => apply total_get_vm
  | |- total get_fs => apply total_get_fs
  | |- total (emit _) => apply total_emit
  | |- total (modify_vm _) => apply total_modify_vm
  | |- total (put_fs _) => apply total_put_fs
  | |- total (system _ _) => apply total_system
  | |- total (if ?b then _ else _) => destruct b
  | |- total (match ?x with _ => _ end) => destruct x
  | |- total _ => solve [ eauto with frame ]
  | |- total _ => unfold_prog
  | |- total _ => progress cbv zeta
  end.

Ltac total_auto := repeat total_step.

Ltac catch_step :=
  match goal with
  | |- catchable (bind _ _) => apply catchable_bind; [ | intros ]
  | |- catchable (throw (filesystem_error _)) => apply catchable_throw
  | |- catchable (match ?x with _ => _ end) => destruct x
  | |- catchable _ => apply total_catchable; solve [total_auto]
  | |- catchable _ => unfold_prog
  end.

Ltac catch_auto := repeat catch_step.

(** *** Media discovery prints and nothing else *)

Lemma scan_entries_within keep found entries acc :
  within (calm untouched only_output) (scan_entries keep found entries acc).
Proof.
  revert acc. induction entries as [|entry rest IH]; intro acc; simpl; within_auto.
Qed.

Lemma scan_entries_total keep found entries acc :
  total (scan_entries keep found entries acc).
Proof.
  revert acc. induction entries as [|entry rest IH]; intro acc; simpl; total_auto.
Qed.

#[export] Hint Resolve scan_entries_within scan_entries_total : frame.

Lemma findAllDisks_within : within (calm untouched only_output) findAllDisks.
Proof. unfold findAllDisks. within_auto. Qed.

Lemma findAllDisks_total : total findAllDisks.
Proof. unfold findAllDisks. total_auto. Qed.

Lemma findAllISOs_within : within (calm untouched only_output) findAllISOs.
Proof. unfold findAllISOs. within_auto. Qed.

Lemma findAllISOs_total : total findAllISOs.
Proof. unfold findAllISOs. total_auto. Qed.

Lemma printHeader_within : within (calm untouched only_output) printHeader.
Proof. unfold printHeader. within_auto. Qed.

Lemma printHeader_total : total printHeader.
Proof. unfold printHeader. total_auto. Qed.

Lemma printConfiguration_within : within (calm untouched only_output) printConfiguration.
Proof. unfold printConfiguration. within_auto. Qed.

Lemma printConfiguration_total : total printConfiguration.
Proof. unfold printConfiguration. total_auto. Qed.

Lemma printHelp_within argv0 : within (calm untouched only_output) (printHelp argv0).
Proof. unfold printHelp. within_auto. Qed.

Lemma readyBanner_within : within (calm untouched only_output) readyBanner.
Proof. unfold readyBanner. within_auto. Qed.

Lemma printHelp_total argv0 : total (printHelp argv0).
Proof. unfold printHelp. total_auto. Qed.

Lemma checkFile_within path name :
  within (calm untouched only_output) (checkFile path name).
Proof. unfold checkFile. within_auto. Qed.

Lemma checkFile_total path name : total (checkFile path name).
Proof. unfold checkFile. total_auto. Qed.

(** *** The checks and the default disk leave the ColdVM object alone *)

Lemma createDirectories_within : within (calm same_vm no_child) createDirectories.
Proof. unfold createDirectories. within_auto. Qed.

Lemma createDirectories_total : total createDirectories.
Proof.
  unfold createDirectories. total_auto.
  apply total_try_catch; [catch_auto | intro what; total_auto].
Qed.

Lemma checkCommand_within H cmd name :
  within (calm same_vm no_child) (checkCommand H cmd name).
Proof. unfold checkCommand. within_auto. Qed.

Lemma checkCommand_total H cmd name : total (checkCommand H cmd name).
Proof. unfold checkCommand. total_auto. Qed.

Lemma checkBridgeInterface_within H :
  within (calm steady no_child) (checkBridgeInterface H).
Proof. unfold checkBridgeInterface. within_auto. Qed.

Lemma checkBridgeInterface_total H : total (checkBridgeInterface H).
Proof. unfold checkBridgeInterface. total_auto. Qed.

Lemma createDefaultDisk_within H : within (calm same_vm no_child) (createDefaultDisk H).
Proof. unfold createDefaultDisk. within_auto. Qed.

Lemma createDefaultDisk_total H : total (createDefaultDisk H).
Proof. unfold createDefaultDisk. total_auto. Qed.

#[export] Hint Resolve findAllDisks_within findAllDisks_total findAllISOs_within
  findAllISOs_total printHeader_within printHeader_total printConfiguration_within
  printConfiguration_total printHelp_within checkFile_within checkFile_total
  createDirectories_within createDirectories_total checkCommand_within
  checkCommand_total checkBridgeInterface_within checkBridgeInterface_total
  createDefaultDisk_within createDefaultDisk_total : frame.

Lemma discoverMedia_within H : within (calm steady no_child) (discoverMedia H).
Proof. unfold discoverMedia. within_auto. Qed.

Lemma discoverMedia_total H : total (discoverMedia H).
Proof. unfold discoverMedia. total_auto. Qed.

#[export] Hint Resolve discoverMedia_within discoverMedia_total : frame.

(** [prepare] creates, signals and awaits no process, and always returns. *)
Lemma prepare_within H : within (calm steady no_child) (prepare H).
Proof. unfold prepare. within_auto. Qed.

Lemma prepare_total H : total (prepare H).
Proof. unfold prepare. total_auto. Qed.

Lemma parse_args_within argv0 args :
  within (calm steady only_output) (parse_args argv0 args).
Proof. induction args as [|arg rest IH]; simpl; within_auto. Qed.

(** *** Building the command line leaves the ColdVM object alone *)

Lemma copy_vars_from_within sources dst :
  within (calm same_vm no_child) (copy_vars_from sources dst).
Proof. induction sources as [|source rest IH]; simpl; within_auto. Qed.

#[export] Hint Resolve copy_vars_from_within : frame.

Lemma createVarsFile_within : within (calm same_vm no_child) createVarsFile.
Proof. unfold createVarsFile. within_auto. Qed.

Lemma attach_disks_within i disks cmd :
  within (calm untouched only_output) (attach_disks i disks cmd).
Proof.
  revert i cmd. induction disks as [|d rest IH]; intros i cmd; simpl; within_auto.
Qed.

Lemma attach_isos_within i isos cmd :
  within (calm untouched only_output) (attach_isos i isos cmd).
Proof.
  revert i cmd. induction isos as [|d rest IH]; intros i cmd; simpl; within_auto.
Qed.

Lemma scan_camera_within lines :
  within (calm untouched only_output) (scan_camera lines).
Proof. induction lines as [|l rest IH]; simpl; within_auto. Qed.

#[export] Hint Resolve createVarsFile_within attach_disks_within attach_isos_within
  scan_camera_within : frame.

Lemma attach_camera_within H cmd :
  within (calm same_vm no_child) (attach_camera H cmd).
Proof. unfold attach_camera. within_auto. Qed.

#[export] Hint Resolve attach_camera_within : frame.

Lemma buildQEMUCommand_within H : within (calm same_vm no_child) (buildQEMUCommand H).
Proof. unfold buildQEMUCommand. within_auto. Qed.

(* ================================================================== *)
(** ** Traces and child actions *)

Lemma child_actions_app t1 t2 :
  child_actions (t1 ++ t2) = (child_actions t1 ++ child_actions t2)%list.
Proof. apply flat_map_app. Qed.

Lemma child_actions_no_child t : forallb no_child t = true -> child_actions t = [].
Proof.
  induction t as [|e t IH]; simpl; [reflexivity |].
  intro E. apply andb_prop in E as [E1 E2]. rewrite (IH E2).
  destruct e; simpl in *; try reflexivity; discriminate.
Qed.

Lemma forallb_only_output_no_child t :
  forallb only_output t = true -> forallb no_child t = true.
Proof.
  rewrite !forallb_forall. intros Hall e He. apply only_output_no_child, Hall, He.
Qed.

(* ================================================================== *)
(** ** The shape of the command line *)

Lemma extends_refl cmd : extends cmd cmd.
Proof. exists []. rewrite app_nil_r. reflexivity. Qed.

Lemma extends_push cmd cmd' x : extends cmd cmd' -> extends cmd (push_back cmd' x).
Proof.
  intros [s ->]. exists (s ++ [x])%list. unfold push_back.
  rewrite app_assoc. reflexivity.
Qed.

Lemma extends_trans a b c : extends a b -> extends b c -> extends a c.
Proof. intros [s ->] [t ->]. exists (s ++ t)%list. rewrite app_assoc. reflexivity. Qed.

Ltac ext := repeat first [ assumption | apply extends_refl | apply extends_push ].

Lemma attach_disks_extends disks : forall i cmd p cmd' p',
  attach_disks i disks cmd p = Ok cmd' p' -> extends cmd cmd'.
Proof.
  induction disks as [|d rest IH]; intros i cmd p cmd' p' E; simpl in E.
  - inv_ret E. apply extends_refl.
  - inv_bind E. apply IH in E. eapply extends_trans; [| exact E]. ext.
Qed.

Lemma attach_isos_extends isos : forall i cmd p cmd' p',
  attach_isos i isos cmd p = Ok cmd' p' -> extends cmd cmd'.
Proof.
  induction isos as [|d rest IH]; intros i cmd p cmd' p' E; simpl in E.
  - inv_ret E. apply extends_refl.
  - destruct (Nat.eqb i 0); inv_bind E; apply IH in E;
      (eapply extends_trans; [| exact E]); ext.
Qed.

Lemma attach_camera_extends H cmd p cmd' p' :
  attach_camera H cmd p = Ok cmd' p' -> extends cmd cmd'.
Proof.
  unfold attach_camera. intro E. inv_bind E. inv_bind E.
  destruct a0 as [stream|].
  - inv_bind E. inv_bind E. destruct a0 as [cam|].
    + inv_bind E. inv_bind E. inv_ret E. ext.
    + inv_bind E. inv_bind E. inv_ret E. ext.
  - inv_bind E. inv_ret E. ext.
Qed.

(** Every command line that [buildQEMUCommand] returns is laid out as:
    the fixed head, the display, firmware, disk, ISO and audio arguments,
    the network pair, the USB controller and tablet, the camera device if
    any, and the fixed tail with the boot order. *)
Lemma buildQEMUCommand_shape H p cmd p' :
  buildQEMUCommand H p = Ok cmd p' ->
  exists before cam,
    cmd =
      ([ "qemu-system-x86_64"; "-enable-kvm"; "-cpu"; cpuModel (vm p); "-smp";
         to_string (cpuCores (vm p)); "-m"; (to_string (ramGB (vm p)) ++ "G")%string;
         "-vga"; "virtio"; "-display" ]
       ++ before
       ++ (if useBridge (vm p)
           then [ "-netdev"; ("bridge,id=net0,br=" ++ bridgeInterface (vm p))%string; "-device";
                  "virtio-net-pci,netdev=net0,mac=52:54:00:12:34:56" ]
           else [ "-netdev"; "user,id=net0"; "-device"; "virtio-net-pci,netdev=net0" ])
       ++ [ "-device"; "qemu-xhci,id=xhci"; "-device"; "usb-tablet" ]
       ++ cam
       ++ [ "-rtc"; "base=localtime,clock=host,driftfix=slew"; "-boot";
            match isoFiles (vm p) with
            | [] => "order=c,menu=on"
            | _ :: _ => "order=dc,menu=on"
            end;
            "-machine"; "type=q35,accel=kvm" ])%list.
Proof.
  unfold buildQEMUCommand. intro E.
  inv_bind E. unfold get_vm in E0. injection E0 as <- <-.
  cbv zeta in E. set (c0 := if useVNC (vm p) then _ else _) in E.
  assert (X0 : extends
                 [ "qemu-system-x86_64"; "-enable-kvm"; "-cpu"; cpuModel (vm p); "-smp";
                   to_string (cpuCores (vm p)); "-m"; (to_string (ramGB (vm p)) ++ "G")%string;
                   "-vga"; "virtio"; "-display" ] c0).
  { subst c0. destruct (useVNC (vm p)); unfold push_back; simpl.
    - exists ["none"; "-vnc"; ":1"]. reflexivity.
    - exists ["gtk,gl=on"]. reflexivity. }
  clearbody c0.
  inv_bind E. clear E0.
  inv_bind E.
  assert (X1 : extends c0 a0).
  { destruct a.
    - inv_bind E0. destruct a; inv_ret E0; ext.
    - inv_ret E0. ext. }
  clear E0. inv_bind E.
  assert (X2 : extends a0 a1).
  { destruct (diskFiles (vm p)).
    - inv_ret E0. ext.
    - inv_bind E0. eapply attach_disks_extends, E0. }
  clear E0. inv_bind E.
  assert (X3 : extends a1 a2).
  { destruct (isoFiles (vm p)).
    - inv_ret E0. ext.
    - inv_bind E0. eapply attach_isos_extends, E0. }
  clear E0. inv_bind E.
  assert (X4 : extends a2 a3).
  { destruct (enableAudio (vm p)).
    - destruct (enableMicrophone (vm p)).
      + inv_bind E0. inv_ret E0. ext.
      + inv_bind E0. inv_bind E0. inv_ret E0. ext.
    - inv_bind E0. inv_ret E0. ext. }
  clear E0. inv_bind E.
  assert (X5 : a4 =
                 (a3 ++ (if useBridge (vm p)
                         then [ "-netdev"; ("bridge,id=net0,br=" ++ bridgeInterface (vm p))%string;
                                "-device";
                                "virtio-net-pci,netdev=net0,mac=52:54:00:12:34:56" ]
                         else [ "-netdev"; "user,id=net0"; "-device";
                                "virtio-net-pci,netdev=net0" ]))%list).
  { destruct (useBridge (vm p)); inv_bind E0; inv_ret E0;
      unfold push_back; repeat rewrite <- app_assoc; reflexivity. }
  clear E0. inv_bind E.
  assert (X6 : extends
                 (a4 ++ ["-device"; "qemu-xhci,id=xhci"; "-device"; "usb-tablet"]) a5).
  { replace (a4 ++ ["-device"; "qemu-xhci,id=xhci"; "-device"; "usb-tablet"])%list
      with (push_back (push_back (push_back (push_back a4 "-device") "qemu-xhci,id=xhci")
                         "-device") "usb-tablet")
      by (unfold push_back; repeat rewrite <- app_assoc; reflexivity).
    destruct (enableCamera (vm p)).
    - eapply attach_camera_extends, E0.
    - inv_bind E0. inv_ret E0. ext. }
  clear E0. inv_ret E.
  destruct X0 as [s0 ->], X1 as [s1 ->], X2 as [s2 ->], X3 as [s3 ->], X4 as [s4 ->],
    X6 as [cam ->].
  exists (s0 ++ s1 ++ s2 ++ s3 ++ s4)%list, cam.
  unfold push_back. destruct (isoFiles (vm p));
    repeat rewrite <- app_assoc; reflexivity.
Qed.

(* ================================================================== *)
(** ** Running cleanup, the handler and the two spawns *)

Lemma cleanup_eval p : cleanup p = Ok tt (append_events (teardown_events (vm p)) p).
Proof.
  destruct p as [v f n g t].
  unfold cleanup, log, success, cout, bind, emit, get_vm, ret, append_events,
    teardown_events, with_event.
  destruct (qemuPid v =? -1)%Z eqn:Eq; destruct (websockifyPid v =? -1)%Z eqn:Ew;
    cbv beta iota delta [vm fs nforks globalVM trace negb];
    rewrite ?Eq; cbv beta iota delta [vm fs nforks globalVM trace negb];
    rewrite ?Ew; cbv beta iota delta [vm fs nforks globalVM trace negb];
    repeat rewrite <- app_assoc; reflexivity.
Qed.

Lemma signalHandler_eval sig p :
  globalVM p = true ->
  signalHandler sig p =
    Ok (Exited 0)
      (append_events
         ([Stdout nl] ++ teardown_events (vm p)
          ++ [Stdout (nl ++ "✓ Cold VM shutdown complete!" ++ nl ++ nl)]) p).
Proof.
  intro G. destruct p as [v f n g t]. cbn [globalVM] in G. subst g.
  unfold signalHandler, cout, bind, emit, get_globalVM, with_event.
  cbv beta iota delta [vm fs nforks globalVM trace].
  rewrite cleanup_eval.
  unfold ret, append_events. cbv beta iota delta [vm fs nforks globalVM trace].
  repeat rewrite <- app_assoc. reflexivity.
Qed.

Lemma child_actions_teardown v :
  child_actions (teardown_events v) =
    ((if (qemuPid v =? -1)%Z then [] else [Signalled (qemuPid v); Waited (qemuPid v)])
     ++ (if (websockifyPid v =? -1)%Z then []
         else [Signalled (websockifyPid v); Waited (websockifyPid v)]))%list.
Proof.
  unfold teardown_events.
  destruct (qemuPid v =? -1)%Z; destruct (websockifyPid v =? -1)%Z; reflexivity.
Qed.

(** The parent side of [startQEMU] when [fork] hands back a pid. *)
Lemma startQEMU_parent H p cmd pb :
  buildQEMUCommand H (with_event (Stdout ("- Starting QEMU virtual machine..." ++ nl)) p)
  = Ok cmd pb ->
  (host_fork H (nforks pb) > 0)%Z ->
  startQEMU H p =
    Ok true (mkProc (set_qemuPid (host_fork H (nforks pb)) (vm pb)) (fs pb)
               (S (nforks pb)) (globalVM pb)
               (trace pb ++ [ Stdout ("+ QEMU Command:" ++ nl);
                              Stdout ("+ " ++ join_args cmd ++ nl);
                              ForkCall (Execvp cmd) (host_fork H (nforks pb));
                              Sleep 3 ])).
Proof.
  intros Hb Hq.
  unfold startQEMU, log, debug, cout. rewrite emit_bind, (run_bind _ _ _ _ _ Hb).
  cbv zeta. rewrite !emit_bind.
  unfold bind, fork, modify_vm, emit, ret, with_event, with_vm. simpl.
  assert (E0 : (host_fork H (nforks pb) =? 0)%Z = false) by (apply Z.eqb_neq; lia).
  assert (E1 : (host_fork H (nforks pb) >? 0)%Z = true) by (apply Z.gtb_lt; lia).
  rewrite E0, E1. simpl. rewrite <- !app_assoc. reflexivity.
Qed.

(** [startWebsockify] in remote display mode, when the noVNC directory is
    missing or [fork] fails: it returns [false], records no pid and no
    child gets to run. *)
Lemma startWebsockify_fails H p :
  useVNC (vm p) = true ->
  exists_ (fs p) (noVNCPath (vm p)) = false \/ (host_fork H (nforks p) < 0)%Z ->
  exists p2 t,
    startWebsockify H p = Ok false p2 /\ vm p2 = vm p /\ globalVM p2 = globalVM p
    /\ trace p2 = (trace p ++ t)%list /\ child_actions t = [].
Proof.
  intros Hvnc Hw. destruct p as [v f n g t]. cbn [vm fs nforks] in Hvnc, Hw.
  unfold startWebsockify, log, error, cout, cerr, fs_exists, bind, get_vm, get_fs,
    emit, ret, fork, modify_vm, in_child, with_event, with_vm.
  cbv beta iota zeta delta [vm fs nforks globalVM trace].
  rewrite Hvnc. cbv beta iota delta [negb].
  destruct (exists_ f (noVNCPath v)) eqn:Ex; cbv beta iota delta [negb].
  - destruct Hw as [Hw | Hw]; [discriminate |].
    assert (E0 : (host_fork H n =? 0)%Z = false) by (apply Z.eqb_neq; lia).
    assert (E1 : (host_fork H n >? 0)%Z = false) by (rewrite Z.gtb_ltb; apply Z.ltb_ge; lia).
    rewrite E0, E1.
    eexists _, _. split; [reflexivity |]. cbn [vm globalVM trace].
    repeat split.
    + repeat rewrite <- app_assoc. reflexivity.
    + simpl. rewrite E1. reflexivity.
  - eexists _, _. split; [reflexivity |]. cbn [vm globalVM trace].
    repeat split.
    + repeat rewrite <- app_assoc. reflexivity.
    + reflexivity.
Qed.

(** *** The argument loop *)

Lemma startup_eq argv fs0 :
  startup argv (initial fs0) =
    parse_args (hd EmptyString argv) (tl argv)
      (mkProc ColdVM_new fs0 0 true [InstallHandler SIGINT; InstallHandler SIGTERM]).
Proof. reflexivity. Qed.

Lemma is_help_not_flag arg :
  is_help arg = true ->
  String.eqb arg "--no-vnc" = false /\ String.eqb arg "--no-bridge" = false
  /\ String.eqb arg "--no-camera" = false /\ String.eqb arg "--no-mic" = false.
Proof.
  unfold is_help. intro E. apply orb_prop in E as [E | E];
    apply String.eqb_eq in E; subst arg; repeat split; reflexivity.
Qed.

Lemma parse_args_help argv0 args : forall p,
  existsb is_help args = true -> exists p', parse_args argv0 args p = Ok (Some 0%Z) p'.
Proof.
  induction args as [|arg rest IH]; intros p E; simpl in E; [discriminate |].
  simpl. destruct (is_help arg) eqn:Eh.
  - destruct (is_help_not_flag arg Eh) as (-> & -> & -> & ->).
    destruct (printHelp_total argv0 p) as (u & p1 & E1).
    exists p1. rewrite (run_bind _ _ _ _ _ E1). reflexivity.
  - simpl in E.
    destruct (String.eqb arg "--no-vnc"); [apply (IH _ E) |].
    destruct (String.eqb arg "--no-bridge"); [apply (IH _ E) |].
    destruct (String.eqb arg "--no-camera"); [apply (IH _ E) |].
    destruct (String.eqb arg "--no-mic"); [apply (IH _ E) |].
    apply (IH _ E).
Qed.

Lemma parse_args_no_help argv0 args : forall p,
  existsb is_help args = false -> exists p', parse_args argv0 args p = Ok None p'.
Proof.
  induction args as [|arg rest IH]; intros p E; simpl in E.
  - eexists. reflexivity.
  - apply orb_false_elim in E as [Eh E]. simpl. rewrite Eh.
    destruct (String.eqb arg "--no-vnc"); [apply (IH _ E) |].
    destruct (String.eqb arg "--no-bridge"); [apply (IH _ E) |].
    destruct (String.eqb arg "--no-camera"); [apply (IH _ E) |].
    destruct (String.eqb arg "--no-mic"); [apply (IH _ E) |].
    apply (IH _ E).
Qed.

(** When the argument loop is over, no child is recorded, the RAM size is
    the constructor's and nothing but output and the handler installation
    has happened. *)
Lemma startup_facts argv fs0 r p_cfg :
  startup argv (initial fs0) = Ok r p_cfg ->
  qemuPid (vm p_cfg) = (-1)%Z /\ websockifyPid (vm p_cfg) = (-1)%Z
  /\ ramGB (vm p_cfg) = 4%Z /\ nforks p_cfg = 0 /\ globalVM p_cfg = true
  /\ forallb no_child (trace p_cfg) = true.
Proof.
  rewrite startup_eq. intro E.
  destruct (within_Ok _ _ _ _ _ (parse_args_within _ _) E)
    as [(Kq & Kw & Kr & Kn & Kg) (t & Et & At)].
  simpl in *. repeat split; try assumption.
  rewrite Et. simpl. apply forallb_only_output_no_child, At.
Qed.

Lemma get_vm_bind {B} (k : ColdVM -> M B) p : bind get_vm k p = k (vm p) p.
Proof. reflexivity. Qed.

Lemma ret_bind {A B} (a : A) (k : A -> M B) p : bind (ret a) k p = k a p.
Proof. reflexivity. Qed.

(** [startQEMU] returns [true] only on the parent side of a [fork] that
    handed back a pid, after the command line was built. *)
Lemma startQEMU_true_inv H p p1 :
  startQEMU H p = Ok true p1 ->
  exists cmd pb,
    buildQEMUCommand H (with_event (Stdout ("- Starting QEMU virtual machine..." ++ nl)) p)
    = Ok cmd pb
    /\ (host_fork H (nforks pb) > 0)%Z.
Proof.
  unfold startQEMU, log, debug, cout. intro E.
  rewrite emit_bind in E. inv_bind E. exists a, q. split; [exact E0 |].
  cbv zeta in E. rewrite !emit_bind in E.
  unfold bind at 1 in E. unfold fork in E. cbv beta iota zeta in E.
  cbn [nforks with_event] in E.
  destruct (host_fork H (nforks q) =? 0)%Z; [discriminate |].
  destruct (host_fork H (nforks q) >? 0)%Z eqn:Eg.
  - apply Z.gtb_lt in Eg. lia.
  - unfold error, cerr in E. rewrite emit_bind in E. discriminate.
Qed.

(** [startWebsockify] in remote display mode returns [true] only on the
    parent side of a [fork] that handed back a pid, which it records. *)
Lemma startWebsockify_true_inv H p p2 :
  useVNC (vm p) = true ->
  startWebsockify H p = Ok true p2 ->
  (host_fork H (nforks p) > 0)%Z
  /\ vm p2 = set_websockifyPid (host_fork H (nforks p)) (vm p)
  /\ globalVM p2 = globalVM p
  /\ exists t, trace p2 = (trace p ++ t)%list
               /\ child_actions t = [Spawned (host_fork H (nforks p))].
Proof.
  intros Hvnc. destruct p as [v f n g t]. cbn [vm fs nforks globalVM trace] in *.
  unfold startWebsockify, log, error, cout, cerr, fs_exists, bind, get_vm, get_fs,
    emit, ret, fork, modify_vm, in_child, with_event, with_vm.
  cbv beta iota zeta delta [vm fs nforks globalVM trace].
  rewrite Hvnc. cbv beta iota delta [negb].
  destruct (exists_ f (noVNCPath v)); cbv beta iota delta [negb]; [| discriminate].
  destruct (host_fork H n =? 0)%Z; [discriminate |].
  destruct (host_fork H n >? 0)%Z eqn:Eg; [| discriminate].
  intro E. injection E as <-. cbn [vm globalVM trace].
  apply Z.gtb_lt in Eg. repeat split; [lia |].
  eexists. split.
  - repeat rewrite <- app_assoc. reflexivity.
  - simpl. assert (Eg' : (host_fork H n >? 0)%Z = true) by (apply Z.gtb_lt; lia).
    rewrite Eg'. reflexivity.
Qed.

(** A [launch] that succeeds in remote display mode has spawned the
    hypervisor and then the proxy, and recorded both pids. *)
Lemma launch_remote_started H p p1 :
  launch H p = Ok true p1 ->
  useVNC (vm p) = true ->
  exists q w tl,
    (q > 0)%Z /\ (w > 0)%Z /\ qemuPid (vm p1) = q /\ websockifyPid (vm p1) = w
    /\ globalVM p1 = globalVM p
    /\ trace p1 = (trace p ++ tl)%list
    /\ child_actions tl = [Spawned q; Spawned w].
Proof.
  intros E Hvnc. unfold launch in E. inv_bind E.
  destruct a; cbv beta iota delta [negb] in E.
  2:{ unfold error, cerr in E. rewrite emit_bind in E. discriminate. }
  destruct (startQEMU_true_inv _ _ _ E0) as (cmd & pb & Hb & Hq).
  rewrite (startQEMU_parent _ _ _ _ Hb Hq) in E0. injection E0 as <-.
  destruct (within_Ok _ _ _ _ _ (buildQEMUCommand_within H) Hb)
    as [(Bvm & Bn & Bg) (tb & Bt & Ba)].
  cbn [vm nforks globalVM trace with_event] in Bvm, Bn, Bg, Bt.
  unfold success, cout in E. rewrite emit_bind, get_vm_bind in E.
  cbn [vm with_event useVNC set_qemuPid] in E. rewrite Bvm, Hvnc in E.
  inv_bind E. inv_bind E0.
  destruct a0; cbv beta iota delta [negb] in E0.
  2:{ inv_bind E0. inv_ret E0. cbv beta iota delta [negb] in E. discriminate. }
  apply startWebsockify_true_inv in E1 as (Hw & Wvm & Wg & tw & Wt & Wa);
    [| cbn [vm with_event useVNC set_qemuPid]; exact Hvnc].
  cbn [vm nforks globalVM trace with_event] in Hw, Wvm, Wg, Wt.
  unfold success, cout in E0. rewrite emit_bind in E0. inv_bind E0. inv_ret E0.
  destruct (within_Ok _ _ _ _ _ readyBanner_within E1)
    as [(Rvm & _ & _ & Rg) (tr & Rt & Ra)].
  cbn [vm nforks globalVM trace with_event] in Rvm, Rg, Rt.
  cbv beta iota delta [negb] in E. unfold log, cout in E. rewrite !emit_bind in E.
  inv_ret E. cbn [vm globalVM trace with_event].
  exists (host_fork H (nforks pb)), (host_fork H (S (nforks pb))), 
    ([Stdout ("- Starting QEMU virtual machine..." ++ nl)] ++ tb
     ++ [ Stdout ("+ QEMU Command:" ++ nl); Stdout ("+ " ++ join_args cmd ++ nl);
          ForkCall (Execvp cmd) (host_fork H (nforks pb)); Sleep 3 ]
     ++ [Stdout ("✓ " ++ "QEMU started successfully!" ++ nl)] ++ tw
     ++ [Stdout ("✓ " ++ "Websockify started successfully!" ++ nl)] ++ tr
     ++ [Stdout nl; Stdout ("- " ++ "Press Ctrl+C to shutdown the VM" ++ nl); Stdout nl])%list.
  repeat split.
  - exact Hq.
  - exact Hw.
  - rewrite Rvm, Wvm. reflexivity.
  - rewrite Rvm, Wvm. reflexivity.
  - rewrite Rg, Wg. exact Bg.
  - rewrite Rt, Wt, Bt. repeat rewrite <- app_assoc. reflexivity.
  - rewrite !child_actions_app, (child_actions_no_child _ Ba),
      (child_actions_no_child _ (forallb_only_output_no_child _ Ra)), Wa.
    simpl. assert (Eg : (host_fork H (nforks pb) >? 0)%Z = true) by (apply Z.gtb_lt; lia).
    rewrite Eg. reflexivity.
Qed.

(** In remote display mode, once the hypervisor is spawned and the proxy
    spawn fails, [launch] runs [cleanup] on the hypervisor alone and
    returns [false]. *)
Lemma launch_proxy_failure H p cmd pb :
  useVNC (vm p) = true ->
  websockifyPid (vm p) = (-1)%Z ->
  buildQEMUCommand H (with_event (Stdout ("- Starting QEMU virtual machine..." ++ nl)) p)
  = Ok cmd pb ->
  (host_fork H (nforks p) > 0)%Z ->
  exists_ (fs pb) (noVNCPath (vm pb)) = false \/ (host_fork H (S (nforks p)) < 0)%Z ->
  exists p3 t,
    launch H p = Ok false p3
    /\ trace p3 =
         (trace pb ++ t
          ++ [ Stdout ("- Shutting down Cold VM..." ++ nl);
               Kill (host_fork H (nforks p)) SIGTERM; Waitpid (host_fork H (nforks p));
               Stdout ("✓ QEMU stopped" ++ nl) ])%list
    /\ child_actions t = [Spawned (host_fork H (nforks p))]
    /\ qemuPid (vm p3) = host_fork H (nforks p)
    /\ websockifyPid (vm p3) = (-1)%Z.
Proof.
  intros Hvnc Hws0 Hb Hq Hw.
  destruct (within_Ok _ _ _ _ _ (buildQEMUCommand_within H) Hb)
    as [(Bvm & Bn & Bg) (tb & Bt & Ba)].
  cbn [vm nforks globalVM trace with_event] in Bvm, Bn, Bg, Bt.
  rewrite <- Bn in Hq, Hw |- *.
  pose proof (startQEMU_parent _ _ _ _ Hb Hq) as HQ.
  set (q := host_fork H (nforks pb)) in *.
  set (p1 := with_event (Stdout ("✓ " ++ "QEMU started successfully!" ++ nl))
               (mkProc (set_qemuPid q (vm pb)) (fs pb) (S (nforks pb)) (globalVM pb)
                  (trace pb ++ [ Stdout ("+ QEMU Command:" ++ nl);
                                 Stdout ("+ " ++ join_args cmd ++ nl);
                                 ForkCall (Execvp cmd) q; Sleep 3 ]))).
  assert (Hvnc1 : useVNC (vm p1) = true).
  { subst p1. cbn [vm with_event useVNC set_qemuPid]. rewrite Bvm. exact Hvnc. }
  destruct (startWebsockify_fails H p1 Hvnc1) as (p2 & t2 & Hws & Wvm & Wg & Wt & Wa).
  { subst p1. cbn [vm fs nforks with_event noVNCPath set_qemuPid]. exact Hw. }
  assert (Eq : (qemuPid (vm p2) =? -1)%Z = false).
  { rewrite Wvm. subst p1. cbn [vm with_event qemuPid set_qemuPid].
    apply Z.eqb_neq. lia. }
  assert (Ew : (websockifyPid (vm p2) =? -1)%Z = true).
  { rewrite Wvm. subst p1. cbn [vm with_event websockifyPid set_qemuPid].
    rewrite Bvm, Hws0. reflexivity. }
  exists (append_events (teardown_events (vm p2)) p2),
    ([ Stdout ("+ QEMU Command:" ++ nl); Stdout ("+ " ++ join_args cmd ++ nl);
       ForkCall (Execvp cmd) q; Sleep 3 ]
     ++ [Stdout ("✓ " ++ "QEMU started successfully!" ++ nl)] ++ t2)%list.
  split; [| split; [| split; [| split]]].
  - unfold launch. rewrite (run_bind _ _ _ _ _ HQ). cbv beta iota delta [negb].
    unfold success, cout. rewrite emit_bind, get_vm_bind. fold p1. rewrite Hvnc1.
    rewrite bind_bind, (run_bind _ _ _ _ _ Hws). cbv beta iota delta [negb].
    rewrite bind_bind, (run_bind _ _ _ _ _ (cleanup_eval p2)).
    rewrite !ret_bind. reflexivity.
  - unfold append_events, teardown_events. cbn [trace]. rewrite Eq, Ew, Wt.
    subst p1. cbn [trace with_event vm qemuPid]. rewrite Wvm.
    cbn [vm with_event qemuPid set_qemuPid].
    repeat rewrite <- app_assoc. reflexivity.
  - rewrite !child_actions_app, Wa. simpl.
    assert (Eg : (q >? 0)%Z = true) by (apply Z.gtb_lt; lia).
    rewrite Eg. reflexivity.
  - cbn [append_events vm]. rewrite Wvm. subst p1. reflexivity.
  - cbn [append_events vm]. rewrite Wvm. subst p1.
    cbn [vm with_event websockifyPid set_qemuPid]. rewrite Bvm. exact Hws0.
Qed.

(** [prepare] says go only with a disk or an ISO in the lists. *)
Lemma prepare_true_has_media H p p' :
  prepare H p = Ok true p' -> diskFiles (vm p') <> [] \/ isoFiles (vm p') <> [].
Proof.
  unfold prepare. intro E.
  inv_bind E. inv_bind E. inv_bind E. inv_bind E. inv_bind E.
  destruct a3; cbv beta iota delta [negb] in E.
  2:{ inv_bind E. discriminate E. }
  inv_bind E. inv_bind E. inv_bind E.
  destruct a5; cbv beta iota delta [negb] in E; [| discriminate E].
  inv_bind E. inv_bind E. inv_bind E.
  repeat match goal with
         | Hg : get_vm _ = Ok _ _ |- _ => unfold get_vm in Hg; injection Hg as <- <-
         end.
  match type of E with
  | _ ?q = _ =>
      assert (Tail : forall (c : M bool),
                 within (calm untouched only_output) c -> c q = Ok true p' ->
                 vm p' = vm q)
        by (intros c W Ec; destruct (within_Ok _ _ _ _ _ W Ec) as [(Tvm & _) _];
            exact Tvm);
      destruct (diskFiles (vm q)) as [|d ds] eqn:Ed;
        [destruct (isoFiles (vm q)) as [|iso isos] eqn:Ei |]
  end.
  - inv_bind E. inv_bind E. discriminate E.
  - right.
    match type of E with
    | ?c _ = _ => rewrite (Tail c ltac:(within_auto) E), Ei
    end.
    discriminate.
  - left.
    match type of E with
    | ?c _ = _ => rewrite (Tail c ltac:(within_auto) E), Ed
    end.
    discriminate.
Qed.

(* ================================================================== *)
(** ** C1: teardown order *)

(** C1, counterexample.  On a host where both children start (pids 100
    and 101), a termination signal makes the launcher signal and await the
    hypervisor first and the display proxy second: the order of the
    spawns, not its reverse. *)
Lemma teardown_order_counterexample :
  let acts := child_actions
                (trace (snd (deliver SIGINT (snd (main host_webcam ["cold"] fs_iso))))) in
  acts = [Spawned 100; Spawned 101; Signalled 100; Waited 100; Signalled 101; Waited 101]
  /\ acts <> [Spawned 100; Spawned 101; Signalled 101; Waited 101; Signalled 100; Waited 100].
Proof. split; vm_compute; [reflexivity | discriminate]. Qed.

(** C1, amended.  After a [launch] that started both children (remote
    display mode), a termination signal makes [cleanup] signal and await
    the hypervisor child first and only then signal and await the
    display-proxy child: teardown runs in the spawn order. *)
Theorem teardown_in_spawn_order H sig p p1 :
  launch H p = Ok true p1 ->
  useVNC (vm p) = true ->
  globalVM p = true ->
  exists q w tl td pf,
    trace p1 = (trace p ++ tl)%list
    /\ child_actions tl = [Spawned q; Spawned w]
    /\ deliver sig p1 = (Exited 0, pf)
    /\ trace pf = (trace p1 ++ td)%list
    /\ child_actions td = [Signalled q; Waited q; Signalled w; Waited w].
Proof.
  intros E Hvnc G.
  destruct (launch_remote_started _ _ _ E Hvnc) as (q & w & tl & Hq & Hw & Eq & Ew & Eg & Et & Ea).
  exists q, w, tl. eexists _, _. split; [exact Et |]. split; [exact Ea |].
  unfold deliver, run. rewrite signalHandler_eval by (rewrite Eg; exact G).
  split; [reflexivity |]. split; [reflexivity |].
  rewrite !child_actions_app, child_actions_teardown, Eq, Ew.
  assert (Nq : (q =? -1)%Z = false) by (apply Z.eqb_neq; lia).
  assert (Nw : (w =? -1)%Z = false) by (apply Z.eqb_neq; lia).
  rewrite Nq, Nw. reflexivity.
Qed.

Lemma teardown_in_spawn_order_witness :
  exists q w tl td pf,
    trace (final (launch host_webcam (prepared host_webcam ["cold"] fs_iso)))
    = (trace (prepared host_webcam ["cold"] fs_iso) ++ tl)%list
    /\ child_actions tl = [Spawned q; Spawned w]
    /\ deliver SIGTERM (final (launch host_webcam (prepared host_webcam ["cold"] fs_iso)))
       = (Exited 0, pf)
    /\ trace pf
       = (trace (final (launch host_webcam (prepared host_webcam ["cold"] fs_iso))) ++ td)%list
    /\ child_actions td = [Signalled q; Waited q; Signalled w; Waited w].
Proof.
  apply (teardown_in_spawn_order host_webcam SIGTERM
           (prepared host_webcam ["cold"] fs_iso)
           (final (launch host_webcam (prepared host_webcam ["cold"] fs_iso))));
    vm_compute; reflexivity.
Defined.

(* ================================================================== *)
(** ** C2: a second teardown *)

(** C2, counterexample.  With the noVNC directory missing the proxy spawn
    fails and [boot] runs [cleanup] on the hypervisor (pid 100); a
    termination signal that arrives when [boot] has returned runs
    [cleanup] again, which signals and awaits pid 100 a second time. *)
Lemma second_teardown_counterexample :
  child_actions
    (trace (snd (deliver SIGTERM
                   (final (boot host_webcam (configured ["cold"] fs_iso_no_novnc))))))
  = [Spawned 100; Signalled 100; Waited 100; Signalled 100; Waited 100].
Proof. vm_compute. reflexivity. Qed.

(** C2, amended.  [cleanup] keeps no shutting-down flag and leaves the
    recorded pids as they are: called a second time it appends exactly the
    events of the first call, signalling and awaiting again every child
    whose recorded pid is not -1; only a child never started is skipped. *)
Theorem cleanup_again_repeats_teardown p :
  exists p1 p2 t,
    cleanup p = Ok tt p1 /\ cleanup p1 = Ok tt p2
    /\ untouched p p1 /\ untouched p1 p2
    /\ trace p1 = (trace p ++ t)%list /\ trace p2 = (trace p1 ++ t)%list
    /\ child_actions t =
         ((if (qemuPid (vm p) =? -1)%Z then []
           else [Signalled (qemuPid (vm p)); Waited (qemuPid (vm p))])
          ++ (if (websockifyPid (vm p) =? -1)%Z then []
              else [Signalled (websockifyPid (vm p)); Waited (websockifyPid (vm p))]))%list.
Proof.
  exists (append_events (teardown_events (vm p)) p),
    (append_events (teardown_events (vm p)) (append_events (teardown_events (vm p)) p)),
    (teardown_events (vm p)).
  split; [apply cleanup_eval |]. split; [apply (cleanup_eval (append_events _ p)) |].
  unfold untouched. cbn [append_events vm fs nforks globalVM trace].
  repeat split. apply child_actions_teardown.
Qed.

(* ================================================================== *)
(** ** C3: the proxy spawn fails after the hypervisor started *)

(** C3.  In remote display mode, when the hypervisor [fork] hands back a
    pid and the proxy spawn then fails (the noVNC directory is missing or
    the second [fork] fails), [main] signals and awaits the hypervisor
    child, only then reports the failure and exits with status 1; the
    hypervisor is the only child ever spawned, it is torn down once, and
    no proxy pid is recorded. *)
Theorem proxy_failure_tears_down_hypervisor H argv fs0 p_cfg p cmd pb :
  startup argv (initial fs0) = Ok None p_cfg ->
  prepare H p_cfg = Ok true p ->
  useVNC (vm p) = true ->
  buildQEMUCommand H (with_event (Stdout ("- Starting QEMU virtual machine..." ++ nl)) p)
  = Ok cmd pb ->
  (host_fork H 0 > 0)%Z ->
  exists_ (fs pb) (noVNCPath (vm pb)) = false \/ (host_fork H 1 < 0)%Z ->
  exists pf t,
    main H argv fs0 = (Exited 1, pf)
    /\ trace pf =
         (trace pb ++ t
          ++ [ Stdout ("- Shutting down Cold VM..." ++ nl);
               Kill (host_fork H 0) SIGTERM; Waitpid (host_fork H 0);
               Stdout ("✓ QEMU stopped" ++ nl);
               Stderr (nl ++ "✗ Failed to start Cold VM!" ++ nl ++ nl) ])%list
    /\ child_actions (trace pf)
       = [Spawned (host_fork H 0); Signalled (host_fork H 0); Waited (host_fork H 0)]
    /\ qemuPid (vm pf) = host_fork H 0
    /\ websockifyPid (vm pf) = (-1)%Z.
Proof.
  intros Hs Hp Hvnc Hb Hq Hw.
  destruct (startup_facts _ _ _ _ Hs) as (Sq & Sw & Sr & Sn & Sg & Sa).
  destruct (within_Ok _ _ _ _ _ (prepare_within H) Hp)
    as [(Pq & Pw & Pr & Pn & Pg) (tp & Pt & Pa)].
  destruct (within_Ok _ _ _ _ _ (buildQEMUCommand_within H) Hb)
    as [(Bvm & Bn & Bg) (tb & Bt & Ba)].
  cbn [vm nforks globalVM trace with_event] in Bvm, Bn, Bg, Bt.
  assert (N0 : nforks p = 0) by congruence.
  destruct (launch_proxy_failure H p cmd pb Hvnc) as (p3 & t & Hl & Lt & La & Lq & Lw).
  { congruence. }
  { exact Hb. }
  { rewrite N0. exact Hq. }
  { rewrite N0. exact Hw. }
  rewrite N0 in Lt, La, Lq.
  exists (with_event (Stderr (nl ++ "✗ Failed to start Cold VM!" ++ nl ++ nl)) p3), t.
  split; [| split; [| split; [| split]]].
  - unfold main, run, main_body. rewrite (run_bind _ _ _ _ _ Hs). cbv beta iota.
    unfold boot. rewrite bind_bind, (run_bind _ _ _ _ _ Hp). cbv beta iota.
    rewrite (run_bind _ _ _ _ _ Hl). cbv beta iota.
    unfold cerr. rewrite emit_bind. reflexivity.
  - cbn [trace with_event]. rewrite Lt. repeat rewrite <- app_assoc. reflexivity.
  - cbn [trace with_event]. rewrite Lt, Bt, Pt.
    rewrite !child_actions_app, La.
    rewrite (child_actions_no_child _ Sa), (child_actions_no_child _ Pa),
      (child_actions_no_child _ Ba).
    reflexivity.
  - exact Lq.
  - exact Lw.
Qed.

Lemma proxy_failure_tears_down_hypervisor_witness :
  exists pf t,
    main host_webcam ["cold"] fs_iso_no_novnc = (Exited 1, pf)
    /\ trace pf =
         (trace (final (building host_webcam ["cold"] fs_iso_no_novnc)) ++ t
          ++ [ Stdout ("- Shutting down Cold VM..." ++ nl);
               Kill (host_fork host_webcam 0) SIGTERM; Waitpid (host_fork host_webcam 0);
               Stdout ("✓ QEMU stopped" ++ nl);
               Stderr (nl ++ "✗ Failed to start Cold VM!" ++ nl ++ nl) ])%list
    /\ child_actions (trace pf)
       = [Spawned (host_fork host_webcam 0); Signalled (host_fork host_webcam 0);
          Waited (host_fork host_webcam 0)]
    /\ qemuPid (vm pf) = host_fork host_webcam 0
    /\ websockifyPid (vm pf) = (-1)%Z.
Proof.
  apply (proxy_failure_tears_down_hypervisor host_webcam ["cold"] fs_iso_no_novnc
           (configured ["cold"] fs_iso_no_novnc)
           (prepared host_webcam ["cold"] fs_iso_no_novnc)
           (built host_webcam ["cold"] fs_iso_no_novnc)
           (final (building host_webcam ["cold"] fs_iso_no_novnc)));
    try (vm_compute; reflexivity).
  left. vm_compute. reflexivity.
Defined.

(* ================================================================== *)
(** ** C4: the exit status of a failed start *)

(** C4, the code at a failing input.  When [lsusb] prints the line
    [Camera ID 12], the preparation succeeds (an ISO is there, the launch
    is not refused), but the start fails: the uncaught
    [std::out_of_range] of the camera probe ends the process while the
    command line is built.  [main] neither reaches the idle loop nor
    returns 1, and its failure report is never printed. *)
Theorem failed_start_has_no_exit_status :
  returned (prepare host_short_id (configured ["cold"] fs_iso)) = Some true
  /\ fst (main host_short_id ["cold"] fs_iso)
     = Terminated (out_of_range "basic_string::substr")
  /\ fst (main host_short_id ["cold"] fs_iso) <> Exited 1
  /\ fst (main host_short_id ["cold"] fs_iso) <> Idle
  /\ existsb (printed_on_stderr (nl ++ "✗ Failed to start Cold VM!" ++ nl ++ nl))
       (trace (snd (main host_short_id ["cold"] fs_iso))) = false.
Proof.
  split; [vm_compute; reflexivity |].
  assert (E : fst (main host_short_id ["cold"] fs_iso)
              = Terminated (out_of_range "basic_string::substr"))
    by (vm_compute; reflexivity).
  split; [exact E |]. rewrite E.
  split; [discriminate |]. split; [discriminate |].
  vm_compute. reflexivity.
Qed.

(* ================================================================== *)
(** ** C5: the disk format *)

(** C5, the code at a failing input.  The scan keeps
    [backup.img.vdi] for its extension [.vdi], and the command builder
    then attaches it with [format=raw], because it looks for [.img]
    anywhere in the path before it looks for [.vdi]; in the same way a
    path ending in [.qcow2] gets [vdi] when [.vdi] occurs earlier in it. *)
Theorem stacked_extension_attached_as_raw :
  extension "./devices/disk/backup.img.vdi" = ".vdi"
  /\ is_disk_ext (extension "./devices/disk/win.vdi.qcow2") = true
  /\ disk_format "./devices/disk/win.vdi.qcow2" = "vdi"
  /\ diskFiles (vm (prepared host_webcam ["cold"] fs_stacked))
     = ["./devices/disk/backup.img.vdi"]
  /\ disk_format "./devices/disk/backup.img.vdi" = "raw"
  /\ exists cmd,
       spawned_commands (trace (snd (main host_webcam ["cold"] fs_stacked))) = [cmd]
       /\ In "file=./devices/disk/backup.img.vdi,format=raw,if=virtio,cache=writeback" cmd.
Proof.
  split; [vm_compute; reflexivity |].
  split; [vm_compute; reflexivity |].
  split; [vm_compute; reflexivity |].
  split; [vm_compute; reflexivity |].
  split; [vm_compute; reflexivity |].
  eexists. split; [vm_compute; reflexivity |].
  vm_compute. tauto.
Qed.

(* ================================================================== *)
(** ** C6: the default disk *)

(** C6, counterexample.  The disk directory holds [a.img], a recognized
    disk, and no [disk.qcow2]: [createDefaultDisk] runs [qemu-img create],
    which writes the default image. *)
Lemma default_disk_counterexample :
  let p := mkProc ColdVM_new fs_img 0 true [] in
  returned (findAllDisks p) = Some ["./devices/disk/a.img"]
  /\ exists p',
       createDefaultDisk host_webcam p = Ok true p'
       /\ fs_files (fs p') = ["./devices/disk/a.img"; "./devices/disk/disk.qcow2"]
       /\ fs p' <> fs p
       /\ In (SystemCmd ("qemu-img create -f qcow2 " ++ dquote ++ "./devices/disk/disk.qcow2"
                         ++ dquote ++ " 30G 2>&1") 0)
             (trace p').
Proof.
  split; [vm_compute; reflexivity |].
  eexists. split; [vm_compute; reflexivity |].
  split; [vm_compute; reflexivity |].
  split; [vm_compute; discriminate |].
  vm_compute. tauto.
Qed.

(** C6, amended.  [createDefaultDisk] returns success and changes nothing
    (no command run, no write, nothing printed) whenever the file
    [disk.qcow2] already exists in the disk directory; and [boot] calls it
    only when the disk scan found nothing: when the scan returns at least
    one recognized disk, media discovery leaves the file system as it is
    and does nothing but print. *)
Theorem default_disk_not_created_again H :
  (forall p,
      exists_ (fs p) (diskDir (vm p) ++ "/disk.qcow2") = true ->
      createDefaultDisk H p = Ok true p)
  /\ (forall p disks p1,
        findAllDisks p = Ok disks p1 -> disks <> [] ->
        exists p' t,
          discoverMedia H p = Ok tt p'
          /\ diskFiles (vm p') = disks
          /\ fs p' = fs p
          /\ trace p' = (trace p ++ t)%list
          /\ forallb only_output t = true).
Proof.
  split.
  - intros p Ex. unfold createDefaultDisk. rewrite get_vm_bind.
    unfold fs_exists. rewrite bind_bind. unfold bind at 1. unfold get_fs.
    rewrite ret_bind. cbv zeta. rewrite Ex. reflexivity.
  - intros p disks p1 Ed Hne.
    destruct (within_Ok _ _ _ _ _ findAllDisks_within Ed)
      as [(Dvm & Dfs & Dn & Dg) (td & Dt & Da)].
    destruct (findAllISOs_total (with_vm (set_diskFiles disks (vm p1)) p1))
      as (isos & p2 & Ei).
    destruct (within_Ok _ _ _ _ _ findAllISOs_within Ei)
      as [(Ivm & Ifs & In_ & Ig) (ti & It & Ia)].
    cbn [vm fs nforks globalVM trace with_vm] in Ivm, Ifs, It.
    exists (with_vm (set_isoFiles isos (vm p2)) p2), (td ++ ti)%list.
    split; [| split; [| split; [| split]]].
    + unfold discoverMedia. rewrite (run_bind _ _ _ _ _ Ed).
      unfold modify_vm at 1. unfold bind at 1.
      rewrite (run_bind _ _ _ _ _ Ei).
      unfold modify_vm at 1. unfold bind at 1. rewrite get_vm_bind.
      cbn [vm with_vm diskFiles set_isoFiles]. rewrite Ivm.
      cbn [diskFiles set_diskFiles].
      destruct disks; [congruence | reflexivity].
    + cbn [vm with_vm diskFiles set_isoFiles]. rewrite Ivm. reflexivity.
    + cbn [fs with_vm]. congruence.
    + cbn [trace with_vm]. rewrite It, Dt, app_assoc. reflexivity.
    + rewrite forallb_app, Da, Ia. reflexivity.
Qed.

Lemma default_disk_not_created_again_witness :
  createDefaultDisk host_webcam
    (mkProc ColdVM_new (mkFS [default_disk] ["./devices/disk"]) 0 true [])
  = Ok true (mkProc ColdVM_new (mkFS [default_disk] ["./devices/disk"]) 0 true [])
  /\ exists p' t,
       discoverMedia host_webcam (mkProc ColdVM_new fs_img 0 true []) = Ok tt p'
       /\ diskFiles (vm p') = ["./devices/disk/a.img"]
       /\ fs p' = fs_img
       /\ trace p' = ([] ++ t)%list
       /\ forallb only_output t = true.
Proof.
  split.
  - apply (proj1 (default_disk_not_created_again host_webcam)). reflexivity.
  - apply (proj2 (default_disk_not_created_again host_webcam)
             (mkProc ColdVM_new fs_img 0 true []) ["./devices/disk/a.img"]
             (final (findAllDisks (mkProc ColdVM_new fs_img 0 true [])))).
    + vm_compute. reflexivity.
    + discriminate.
Defined.

(* ================================================================== *)
(** ** C7: the camera probe *)

(** What the probe does where it was written to fail softly: without
    [lsusb], and without any line that names a camera, the command line
    comes back as it was and only warnings are printed. *)
Lemma attach_camera_without_lsusb H cmd p :
  host_popen H "lsusb 2>/dev/null" = None ->
  attach_camera H cmd p =
    Ok cmd
      (append_events
         [ Stdout ("+ Detecting USB camera devices..." ++ nl);
           PopenCmd "lsusb 2>/dev/null";
           Stdout ("! Could not execute lsusb to detect camera!" ++ nl) ] p).
Proof.
  intro E. unfold attach_camera, debug, warning, cout, popen.
  rewrite emit_bind, bind_bind, emit_bind, ret_bind, E, emit_bind.
  unfold ret, append_events, with_event. cbn [vm fs nforks globalVM trace].
  repeat rewrite <- app_assoc. reflexivity.
Qed.

Lemma scan_camera_no_keyword lines p :
  (forall buffer, In buffer lines ->
     has (of_c_str buffer) "Camera" = false /\ has (of_c_str buffer) "Webcam" = false
     /\ has (of_c_str buffer) "HD Webcam" = false
     /\ has (of_c_str buffer) "Integrated Camera" = false) ->
  scan_camera lines p = Ok None p.
Proof.
  induction lines as [|buffer rest IH]; intro Hno; simpl; [reflexivity |].
  destruct (Hno buffer (or_introl eq_refl)) as (-> & -> & -> & ->). simpl.
  apply IH. intros b Hb. apply Hno. right. exact Hb.
Qed.

Lemma attach_camera_no_keyword H cmd p stream :
  host_popen H "lsusb 2>/dev/null" = Some stream ->
  (forall buffer, In buffer (fgets_lines stream 255) ->
     has (of_c_str buffer) "Camera" = false /\ has (of_c_str buffer) "Webcam" = false
     /\ has (of_c_str buffer) "HD Webcam" = false
     /\ has (of_c_str buffer) "Integrated Camera" = false) ->
  attach_camera H cmd p =
    Ok cmd
      (append_events
         [ Stdout ("+ Detecting USB camera devices..." ++ nl);
           PopenCmd "lsusb 2>/dev/null"; Pclose;
           Stdout ("! No camera device found! Camera disabled." ++ nl);
           Stdout ("! Make sure your camera is connected and working" ++ nl) ] p).
Proof.
  intros E Hno. unfold attach_camera, debug, warning, cout, popen.
  rewrite emit_bind, bind_bind, emit_bind, ret_bind, E.
  rewrite (run_bind _ _ _ _ _ (scan_camera_no_keyword _ _ Hno)).
  rewrite !emit_bind.
  unfold ret, append_events, with_event. cbn [vm fs nforks globalVM trace].
  repeat rewrite <- app_assoc. reflexivity.
Qed.

(** C7, the code at a failing input.  When [lsusb] prints the line
    [Camera ID 12], the text after the marker is three characters long
    and [ids.substr(5, 4)] throws [std::out_of_range]; nothing catches
    it, so the process is terminated while building the command line,
    before any child is spawned. *)
Theorem short_id_line_aborts_build :
  scan_camera (fgets_lines lsusb_short_id 255) (initial fs_iso)
  = Throw (out_of_range "basic_string::substr") (initial fs_iso)
  /\ returned (building host_short_id ["cold"] fs_iso) = None
  /\ fst (main host_short_id ["cold"] fs_iso)
     = Terminated (out_of_range "basic_string::substr")
  /\ child_actions (trace (snd (main host_short_id ["cold"] fs_iso))) = [].
Proof. repeat split; vm_compute; reflexivity. Qed.

(* ================================================================== *)
(** ** C8: the network device *)

(** C8, counterexample.  Started with [--no-bridge], the launcher hands
    the hypervisor the device [virtio-net-pci,netdev=net0]; no argument
    of the command line mentions a MAC address. *)
Lemma nat_nic_counterexample :
  exists cmd,
    spawned_commands (trace (snd (main host_webcam ["cold"; "--no-bridge"] fs_iso))) = [cmd]
    /\ In "virtio-net-pci,netdev=net0" cmd
    /\ forallb (fun arg => (find arg "mac=" =? npos)%N) cmd = true.
Proof.
  eexists. split; [vm_compute; reflexivity |].
  split; [vm_compute; tauto | vm_compute; reflexivity].
Qed.

(** C8, amended.  In both network modes the command line attaches a
    virtio NIC bound to [net0], right before the USB controller; the
    device argument fixes the MAC address 52:54:00:12:34:56 in bridged
    mode only, and is [virtio-net-pci,netdev=net0], with no MAC option,
    in NAT mode. *)
Theorem nic_mac_only_in_bridge_mode H p cmd p' :
  buildQEMUCommand H p = Ok cmd p' ->
  exists before after,
    cmd =
      (before
       ++ (if useBridge (vm p)
           then [ "-netdev"; ("bridge,id=net0,br=" ++ bridgeInterface (vm p))%string;
                  "-device"; "virtio-net-pci,netdev=net0,mac=52:54:00:12:34:56" ]
           else [ "-netdev"; "user,id=net0"; "-device"; "virtio-net-pci,netdev=net0" ])
       ++ ["-device"; "qemu-xhci,id=xhci"; "-device"; "usb-tablet"]
       ++ after)%list.
Proof.
  intro E. destruct (buildQEMUCommand_shape _ _ _ _ E) as (before & cam & ->).
  exists
    ([ "qemu-system-x86_64"; "-enable-kvm"; "-cpu"; cpuModel (vm p); "-smp";
       to_string (cpuCores (vm p)); "-m"; (to_string (ramGB (vm p)) ++ "G")%string;
       "-vga"; "virtio"; "-display" ] ++ before)%list,
    (cam ++ [ "-rtc"; "base=localtime,clock=host,driftfix=slew"; "-boot";
              match isoFiles (vm p) with
              | [] => "order=c,menu=on"
              | _ :: _ => "order=dc,menu=on"
              end;
              "-machine"; "type=q35,accel=kvm" ])%list.
  repeat rewrite <- app_assoc. reflexivity.
Qed.

Lemma nic_mac_only_in_bridge_mode_witness :
  exists before after,
    built host_webcam ["cold"; "--no-bridge"] fs_iso =
      (before
       ++ [ "-netdev"; "user,id=net0"; "-device"; "virtio-net-pci,netdev=net0" ]
       ++ ["-device"; "qemu-xhci,id=xhci"; "-device"; "usb-tablet"]
       ++ after)%list.
Proof.
  apply (nic_mac_only_in_bridge_mode host_webcam
           (with_event (Stdout ("- Starting QEMU virtual machine..." ++ nl))
              (prepared host_webcam ["cold"; "--no-bridge"] fs_iso))
           (built host_webcam ["cold"; "--no-bridge"] fs_iso)
           (final (building host_webcam ["cold"; "--no-bridge"] fs_iso))).
  vm_compute. reflexivity.
Defined.

(* ================================================================== *)
(** ** C9: the boot order *)

(** C9.  The command line ends with the clock, the boot order and the
    machine type, and the boot order is decided by the ISO list alone:
    [order=dc] (optical drive first, then disk) when there is at least one
    ISO, [order=c] (disk only) when there is none. *)
Theorem boot_order_by_iso_presence H p cmd p' :
  buildQEMUCommand H p = Ok cmd p' ->
  exists front,
    cmd =
      (front
       ++ [ "-rtc"; "base=localtime,clock=host,driftfix=slew"; "-boot";
            match isoFiles (vm p) with
            | [] => "order=c,menu=on"
            | _ :: _ => "order=dc,menu=on"
            end;
            "-machine"; "type=q35,accel=kvm" ])%list.
Proof.
  intro E. destruct (buildQEMUCommand_shape _ _ _ _ E) as (before & cam & ->).
  exists
    ([ "qemu-system-x86_64"; "-enable-kvm"; "-cpu"; cpuModel (vm p); "-smp";
       to_string (cpuCores (vm p)); "-m"; (to_string (ramGB (vm p)) ++ "G")%string;
       "-vga"; "virtio"; "-display" ]
     ++ before
     ++ (if useBridge (vm p)
         then [ "-netdev"; ("bridge,id=net0,br=" ++ bridgeInterface (vm p))%string;
                "-device"; "virtio-net-pci,netdev=net0,mac=52:54:00:12:34:56" ]
         else [ "-netdev"; "user,id=net0"; "-device"; "virtio-net-pci,netdev=net0" ])
     ++ ["-device"; "qemu-xhci,id=xhci"; "-device"; "usb-tablet"] ++ cam)%list.
  repeat rewrite <- app_assoc. reflexivity.
Qed.

Lemma boot_order_by_iso_presence_witness :
  (exists front,
      built host_webcam ["cold"] fs_iso =
        (front ++ [ "-rtc"; "base=localtime,clock=host,driftfix=slew"; "-boot";
                    "order=dc,menu=on"; "-machine"; "type=q35,accel=kvm" ])%list)
  /\ (exists front,
        built host_webcam ["cold"] fs_img =
          (front ++ [ "-rtc"; "base=localtime,clock=host,driftfix=slew"; "-boot";
                      "order=c,menu=on"; "-machine"; "type=q35,accel=kvm" ])%list).
Proof.
  split.
  - apply (boot_order_by_iso_presence host_webcam
             (with_event (Stdout ("- Starting QEMU virtual machine..." ++ nl))
                (prepared host_webcam ["cold"] fs_iso))
             (built host_webcam ["cold"] fs_iso)
             (final (building host_webcam ["cold"] fs_iso))).
    vm_compute. reflexivity.
  - apply (boot_order_by_iso_presence host_webcam
             (with_event (Stdout ("- Starting QEMU virtual machine..." ++ nl))
                (prepared host_webcam ["cold"] fs_img))
             (built host_webcam ["cold"] fs_img)
             (final (building host_webcam ["cold"] fs_img))).
    vm_compute. reflexivity.
Defined.

(* ================================================================== *)
(** ** C10: the default RAM size *)

(** C10.  The constructor sets 4 GB of RAM and no command-line flag
    changes it, so whatever the arguments the memory size handed to the
    hypervisor is [4G]; the help text nevertheless lists [6 GB RAM] as
    the default. *)
Theorem default_ram_is_4G_but_help_says_6 :
  ramGB ColdVM_new = 4%Z
  /\ (forall H argv fs0 r p_cfg b p,
         startup argv (initial fs0) = Ok r p_cfg ->
         prepare H p_cfg = Ok b p ->
         ramGB (vm p) = 4%Z)
  /\ (forall H p cmd p',
         ramGB (vm p) = 4%Z ->
         buildQEMUCommand H p = Ok cmd p' ->
         nth_error cmd 6 = Some "-m" /\ nth_error cmd 7 = Some "4G")
  /\ (forall H argv0 fs0,
         In (Stdout ("  - 6 GB RAM" ++ nl))
            (trace (snd (main H [argv0; "--help"] fs0)))).
Proof.
  split; [reflexivity |]. split; [| split].
  - intros H argv fs0 r p_cfg b p Hs Hp.
    destruct (startup_facts _ _ _ _ Hs) as (_ & _ & Sr & _).
    destruct (within_Ok _ _ _ _ _ (prepare_within H) Hp) as [(_ & _ & Pr & _) _].
    congruence.
  - intros H p cmd p' Hr E.
    destruct (buildQEMUCommand_shape _ _ _ _ E) as (before & cam & ->).
    rewrite Hr. split; reflexivity.
  - intros H argv0 fs0.
    assert (E : startup [argv0; "--help"] (initial fs0)
                = Ok (Some 0%Z) (final (startup [argv0; "--help"] (initial fs0))))
      by reflexivity.
    unfold main, run, main_body. rewrite (run_bind _ _ _ _ _ E). cbv beta iota.
    unfold ret. cbn [snd]. vm_compute. tauto.
Qed.

Lemma default_ram_is_4G_but_help_says_6_witness :
  ramGB (vm (prepared host_webcam ["cold"; "--no-mic"] fs_iso)) = 4%Z
  /\ nth_error (built host_webcam ["cold"; "--no-mic"] fs_iso) 6 = Some "-m"
  /\ nth_error (built host_webcam ["cold"; "--no-mic"] fs_iso) 7 = Some "4G".
Proof.
  split.
  - apply (proj1 (proj2 default_ram_is_4G_but_help_says_6)
             host_webcam ["cold"; "--no-mic"] fs_iso None
             (configured ["cold"; "--no-mic"] fs_iso) true
             (prepared host_webcam ["cold"; "--no-mic"] fs_iso));
      vm_compute; reflexivity.
  - apply (proj1 (proj2 (proj2 default_ram_is_4G_but_help_says_6))
             host_webcam
             (with_event (Stdout ("- Starting QEMU virtual machine..." ++ nl))
                (prepared host_webcam ["cold"; "--no-mic"] fs_iso))
             (built host_webcam ["cold"; "--no-mic"] fs_iso)
             (final (building host_webcam ["cold"; "--no-mic"] fs_iso)));
      vm_compute; reflexivity.
Defined.

(* ================================================================== *)
(** ** Media scans *)

Lemma insert_sorted_perm x l : Permutation (insert_sorted x l) (x :: l).
Proof.
  induction l as [|y l IH]; simpl; [reflexivity |].
  destruct (String.leb x y); [reflexivity |].
  rewrite IH. apply perm_swap.
Qed.

Lemma sort_perm l : Permutation (sort l) l.
Proof.
  induction l as [|x l IH]; simpl; [reflexivity |].
  unfold sort in *. simpl. rewrite insert_sorted_perm, IH. reflexivity.
Qed.

Lemma insert_sorted_Sorted x l :
  Sorted (fun a b => String.leb a b = true) l ->
  Sorted (fun a b => String.leb a b = true) (insert_sorted x l).
Proof.
  induction l as [|y l IH]; simpl; intro S.
  - repeat constructor.
  - destruct (String.leb x y) eqn:E.
    + constructor; [exact S |]. constructor. exact E.
    + inversion S as [|? ? S' Hd]; subst.
      constructor; [apply IH, S' |].
      assert (Eyx : String.leb y x = true).
      { destruct (String.leb_total x y) as [T | T]; [congruence | exact T]. }
      destruct l as [|z l]; simpl.
      * constructor. exact Eyx.
      * destruct (String.leb x z); constructor; [exact Eyx |].
        inversion Hd; subst. assumption.
Qed.

Lemma sort_In x l : In x (sort l) <-> In x l.
Proof.
  split; apply Permutation_in; [apply sort_perm | apply Permutation_sym, sort_perm].
Qed.

Lemma sort_Sorted l : Sorted (fun a b => String.leb a b = true) (sort l).
Proof.
  induction l as [|x l IH]; simpl; [constructor |].
  apply insert_sorted_Sorted, IH.
Qed.

Lemma calm_with_event (K : Proc -> Proc -> Prop) {KK : Keeps K} allowed e p :
  allowed e = true -> calm K allowed p (with_event e p).
Proof. intro He. exact (within_emit allowed e He p). Qed.

Ltac by_event := apply calm_with_event; [typeclasses eauto | reflexivity].

(** The loop over the directory entries keeps, in order, the entries whose
    extension passes, and only prints. *)
Lemma scan_entries_eval keep found entries : forall acc p,
  exists p',
    scan_entries keep found entries acc p
    = Ok (acc ++ filter (fun entry => keep (extension entry)) entries)%list p'
    /\ calm untouched only_output p p'.
Proof.
  induction entries as [|entry rest IH]; intros acc p; simpl.
  - exists p. rewrite app_nil_r. split; [reflexivity | apply frame_refl].
  - destruct (keep (extension entry)).
    + unfold debug, cout. rewrite emit_bind.
      destruct (IH (acc ++ [entry])%list
                  (with_event (Stdout ("+ " ++ (found ++ filename entry) ++ nl)) p))
        as (p' & E & C).
      exists p'. rewrite E, <- app_assoc. split; [reflexivity |].
      eapply frame_trans; [| exact C].
      by_event.
    + apply IH.
Qed.

Lemma scan_eval keep found banner dir p :
  exists p',
    (debug banner ;;
     v <- get_vm ;;
     f <- get_fs ;;
     if exists_ f (dir v) && is_directory f (dir v) then
       found_entries <- scan_entries keep found (directory_iterator f (dir v)) [] ;;
       ret (sort found_entries)
     else ret []) p
    = Ok (if is_directory (fs p) (dir (vm p))
          then sort (recognized keep (fs p) (dir (vm p))) else []) p'
    /\ calm untouched only_output p p'.
Proof.
  unfold debug, cout. rewrite emit_bind, get_vm_bind.
  unfold bind at 1. unfold get_fs. cbn [vm fs with_event].
  assert (B : calm untouched only_output p
                (with_event (Stdout ("+ " ++ banner ++ nl)) p))
    by by_event.
  destruct (is_directory (fs p) (dir (vm p))) eqn:D.
  - assert (Ex : exists_ (fs p) (dir (vm p)) = true)
      by (unfold exists_; rewrite D; apply orb_true_r).
    rewrite Ex. cbn [andb].
    destruct (scan_entries_eval keep found (directory_iterator (fs p) (dir (vm p))) []
                (with_event (Stdout ("+ " ++ banner ++ nl)) p)) as (p' & E & C).
    exists p'. rewrite (run_bind _ _ _ _ _ E). split; [reflexivity |].
    eapply frame_trans; eassumption.
  - rewrite andb_false_r. eexists. split; [reflexivity | exact B].
Qed.

(** X1.  [findAllDisks] always returns; it leaves everything but the
    output as it was; its result is sorted, and holds exactly the entries
    of the disk directory whose extension is one of the five recognized
    ones, each as often as the directory lists it; without a disk
    directory the result is empty. *)
Theorem findAllDisks_sorted_recognized p :
  exists disks p',
    findAllDisks p = Ok disks p'
    /\ calm untouched only_output p p'
    /\ Sorted (fun a b => String.leb a b = true) disks
    /\ Permutation disks
         (if is_directory (fs p) (diskDir (vm p))
          then recognized is_disk_ext (fs p) (diskDir (vm p)) else [])
    /\ (forall path,
          In path disks <->
          is_directory (fs p) (diskDir (vm p)) = true
          /\ In path (directory_iterator (fs p) (diskDir (vm p)))
          /\ is_disk_ext (extension path) = true).
Proof.
  destruct (scan_eval is_disk_ext "Found disk: " "Scanning for disk images..." diskDir p)
    as (p' & E & C).
  eexists _, p'. split; [exact E |]. split; [exact C |].
  destruct (is_directory (fs p) (diskDir (vm p))).
  - split; [apply sort_Sorted |]. split; [apply sort_perm |].
    intro path. rewrite sort_In.
    unfold recognized. rewrite filter_In. tauto.
  - split; [constructor |]. split; [reflexivity |].
    intro path. simpl. split; [tauto | intros (D & _); discriminate].
Qed.

(** X2.  [findAllISOs] always returns; it leaves everything but the
    output as it was; its result is sorted, and holds exactly the entries
    of the ROM directory whose extension is [.iso]; without a ROM
    directory the result is empty. *)
Theorem findAllISOs_sorted_recognized p :
  exists isos p',
    findAllISOs p = Ok isos p'
    /\ calm untouched only_output p p'
    /\ Sorted (fun a b => String.leb a b = true) isos
    /\ Permutation isos
         (if is_directory (fs p) (romPath (vm p))
          then recognized is_iso_ext (fs p) (romPath (vm p)) else [])
    /\ (forall path,
          In path isos <->
          is_directory (fs p) (romPath (vm p)) = true
          /\ In path (directory_iterator (fs p) (romPath (vm p)))
          /\ extension path = ".iso").
Proof.
  destruct (scan_eval is_iso_ext "Found ISO: " "Scanning for ISO files..." romPath p)
    as (p' & E & C).
  eexists _, p'. split; [exact E |]. split; [exact C |].
  destruct (is_directory (fs p) (romPath (vm p))).
  - split; [apply sort_Sorted |]. split; [apply sort_perm |].
    intro path. rewrite sort_In.
    unfold recognized, is_iso_ext. rewrite filter_In, String.eqb_eq. tauto.
  - split; [constructor |]. split; [reflexivity |].
    intro path. simpl. split; [tauto | intros (D & _); discriminate].
Qed.

(* ================================================================== *)
(** ** Directories and the firmware variable store *)

Lemma mem_app p l1 l2 : mem p (l1 ++ l2) = mem p l1 || mem p l2.
Proof. unfold mem. apply existsb_app. Qed.

Lemma mem_last p l : mem p (l ++ [p]) = true.
Proof. rewrite mem_app. simpl. rewrite String.eqb_refl. apply orb_true_r. Qed.

Lemma get_fs_bind {B} (k : FS -> M B) p : bind get_fs k p = k (fs p) p.
Proof. reflexivity. Qed.

Lemma create_directories_some f d f' :
  create_directories f d = Some f' ->
  fs_files f' = fs_files f
  /\ is_directory f' d = true
  /\ (forall path, is_directory f path = true -> is_directory f' path = true)
  /\ (forall path, is_directory f' path = true -> is_directory f path = true \/ path = d).
Proof.
  unfold create_directories. destruct (is_directory f d) eqn:Ed.
  - intro E. injection E as <-. repeat split; auto.
  - destruct (blocked f d); [discriminate |]. intro E. injection E as <-.
    unfold is_directory. cbn [fs_files fs_dirs]. repeat split.
    + apply mem_last.
    + intros path E. rewrite mem_app, E. reflexivity.
    + intros path E. rewrite mem_app in E. apply orb_prop in E as [E | E]; [left; exact E |].
      right. simpl in E. rewrite orb_false_r in E. apply String.eqb_eq, E.
Qed.

Lemma create_directories_refused f d :
  create_directories f d = None <-> refused f d = true.
Proof.
  unfold create_directories, refused.
  destruct (is_directory f d); destruct (blocked f d); simpl; split; congruence.
Qed.

Lemma create_directories_accepted f d :
  refused f d = false -> exists f', create_directories f d = Some f'.
Proof.
  intro E. destruct (create_directories f d) as [f'|] eqn:Ec; [exists f'; reflexivity |].
  apply create_directories_refused in Ec. congruence.
Qed.

Lemma create_directories_idle f d :
  is_directory f d = true -> create_directories f d = Some f.
Proof. unfold create_directories. intros ->. reflexivity. Qed.

(** Whether a path is refused only changes when it becomes a directory. *)
Lemma refused_after f d f' x :
  create_directories f d = Some f' -> refused f d = false ->
  refused f' x = if is_directory f' x then false else refused f x.
Proof.
  intros Ec _. destruct (create_directories_some _ _ _ Ec) as (Ff & _ & Mono & Back).
  unfold refused, blocked. rewrite Ff.
  destruct (is_directory f' x) eqn:E'; [reflexivity |].
  destruct (is_directory f x) eqn:E; [rewrite (Mono _ E) in E'; discriminate | reflexivity].
Qed.

Lemma make_dirs_idle f ds :
  (forall d, In d ds -> is_directory f d = true) -> make_dirs f ds = (f, ds, None).
Proof.
  induction ds as [|d rest IH]; intro Hall; [reflexivity |].
  cbn [make_dirs]. rewrite create_directories_idle by (apply Hall; left; reflexivity).
  rewrite IH by (intros x Hx; apply Hall; right; exact Hx). reflexivity.
Qed.

(** When no path is refused, every call is made and succeeds. *)
Lemma make_dirs_ok ds : forall f,
  (forall d, In d ds -> refused f d = false) ->
  exists f2,
    make_dirs f ds = (f2, ds, None)
    /\ fs_files f2 = fs_files f
    /\ (forall path, is_directory f path = true -> is_directory f2 path = true)
    /\ (forall d, In d ds -> is_directory f2 d = true)
    /\ (forall path, is_directory f2 path = true -> is_directory f path = true \/ In path ds).
Proof.
  induction ds as [|d rest IH]; intros f Hall.
  - exists f. repeat split; auto; try (intros ? []).
  - destruct (create_directories_accepted f d (Hall d (or_introl eq_refl))) as (f' & Ec).
    destruct (create_directories_some _ _ _ Ec) as (Ff & Dd & Mono & Back).
    destruct (IH f') as (f2 & E2 & Ff2 & Mono2 & All2 & Back2).
    { intros x Hx. rewrite (refused_after _ _ _ x Ec (Hall d (or_introl eq_refl))).
      destruct (is_directory f' x); [reflexivity | apply Hall; right; exact Hx]. }
    exists f2. cbn [make_dirs]. rewrite Ec, E2.
    split; [reflexivity |]. split; [congruence |]. split; [auto |]. split.
    + intros x [<- | Hx]; [apply Mono2, Dd | apply All2, Hx].
    + intros path E. destruct (Back2 _ E) as [E' | Hin]; [| right; right; exact Hin].
      destruct (Back _ E') as [E0 | ->]; [left; exact E0 | right; left; reflexivity].
Qed.

(** The run stops at the first refused path: the ones before it are
    made, the ones after it are not tried. *)
Lemma make_dirs_stops before : forall f d after,
  (forall b, In b before -> refused f b = false) ->
  refused f d = true ->
  exists f2,
    make_dirs f (before ++ d :: after) = (f2, (before ++ [d])%list, Some d)
    /\ fs_files f2 = fs_files f
    /\ (forall path, is_directory f path = true -> is_directory f2 path = true)
    /\ (forall b, In b before -> is_directory f2 b = true)
    /\ (forall path, is_directory f2 path = true -> is_directory f path = true \/ In path before).
Proof.
  induction before as [|b before IH]; intros f d after Hall Hd.
  - exists f. cbn [app make_dirs].
    rewrite (proj2 (create_directories_refused f d) Hd).
    repeat split; auto; try (intros ? []).
  - destruct (create_directories_accepted f b (Hall b (or_introl eq_refl))) as (f' & Ec).
    destruct (create_directories_some _ _ _ Ec) as (Ff & Db & Mono & Back).
    assert (Hd' : refused f' d = true).
    { rewrite (refused_after _ _ _ d Ec (Hall b (or_introl eq_refl))).
      destruct (is_directory f' d) eqn:E'; [| exact Hd].
      destruct (Back _ E') as [E0 | ->].
      - unfold refused in Hd. rewrite E0 in Hd. discriminate.
      - rewrite (Hall b (or_introl eq_refl)) in Hd. discriminate. }
    destruct (IH f' d after) as (f2 & E2 & Ff2 & Mono2 & All2 & Back2); [| exact Hd' |].
    { intros x Hx. rewrite (refused_after _ _ _ x Ec (Hall b (or_introl eq_refl))).
      destruct (is_directory f' x); [reflexivity | apply Hall; right; exact Hx]. }
    exists f2. cbn [app make_dirs]. rewrite Ec, E2.
    split; [reflexivity |]. split; [congruence |]. split; [auto |]. split.
    + intros x [<- | Hx]; [apply Mono2, Db | apply All2, Hx].
    + intros path E. destruct (Back2 _ E) as [E' | Hin]; [| right; right; exact Hin].
      destruct (Back _ E') as [E0 | ->]; [left; exact E0 | right; left; reflexivity].
Qed.

(** Brings a state built from a record back to record form. *)
Ltac normal_state :=
  unfold with_event, with_fs, with_vm; cbn [vm fs nforks globalVM trace].

Lemma mkdirs_eval d p :
  mkdirs d p =
    match create_directories (fs p) d with
    | Some f' => Ok tt (with_fs f' (with_event (CreateDirectories d) p))
    | None =>
        Throw (filesystem_error (create_directories_what d))
          (with_event (CreateDirectories d) p)
    end.
Proof.
  unfold mkdirs. rewrite get_fs_bind, emit_bind. cbn [fs with_event].
  destruct (create_directories (fs p) d); reflexivity.
Qed.

(** One [create_directories] call of the [try] block. *)
Ltac mkdirs_step :=
  unfold bind at 1; rewrite mkdirs_eval; normal_state;
  match goal with
  | |- context [create_directories ?f ?d] =>
      destruct (create_directories f d) as [?f|];
      [| unfold error, cerr, emit; normal_state;
         repeat rewrite <- app_assoc; reflexivity ]
  end.

(** [createDirectories] by the run of its calls: it always returns, and
    ends on the success line or, where a call failed, on the report. *)
Lemma createDirectories_eval p :
  createDirectories p =
    Ok tt
      (let '(f2, tried, failed) := make_dirs (fs p) (required_dirs (vm p)) in
       mkProc (vm p) f2 (nforks p) (globalVM p)
         (trace p
          ++ [Stdout ("+ Creating required directories..." ++ nl)]
          ++ map CreateDirectories tried
          ++ [match failed with
              | None => Stdout ("✓ Directory structure created!" ++ nl)
              | Some d =>
                  Stderr ("✗ Failed to create directories: "
                          ++ create_directories_what d ++ nl)
              end])).
Proof.
  destruct p as [v f n g t].
  unfold createDirectories, debug, success, cout.
  rewrite emit_bind, get_vm_bind. normal_state.
  unfold try_catch, required_dirs. cbn [make_dirs].
  mkdirs_step. mkdirs_step. mkdirs_step. mkdirs_step.
  unfold emit. normal_state. repeat rewrite <- app_assoc. reflexivity.
Qed.

(** X3.  [createDirectories] always returns, touches no regular file and
    keeps every path that existed.  When none of its four directories is
    refused (a regular file at the path or in its way), all four exist
    afterwards, the success line is printed, and a second run leaves the
    file system as it is.  Otherwise the first refused directory ends the
    run: the ones before it exist, none after it is created, and instead
    of the success line the failure is reported on standard error. *)
Theorem createDirectories_creates_or_reports p :
  exists p1,
    createDirectories p = Ok tt p1
    /\ vm p1 = vm p
    /\ fs_files (fs p1) = fs_files (fs p)
    /\ (forall path, exists_ (fs p) path = true -> exists_ (fs p1) path = true)
    /\ ((forall d, In d (required_dirs (vm p)) -> refused (fs p) d = false) ->
        (forall d, In d (required_dirs (vm p)) -> is_directory (fs p1) d = true)
        /\ trace p1 =
             (trace p
              ++ [Stdout ("+ Creating required directories..." ++ nl)]
              ++ map CreateDirectories (required_dirs (vm p))
              ++ [Stdout ("✓ Directory structure created!" ++ nl)])%list
        /\ exists p2, createDirectories p1 = Ok tt p2 /\ fs p2 = fs p1)
    /\ (forall before d after,
          required_dirs (vm p) = (before ++ d :: after)%list ->
          (forall b, In b before -> refused (fs p) b = false) ->
          refused (fs p) d = true ->
          (forall b, In b before -> is_directory (fs p1) b = true)
          /\ (forall path, is_directory (fs p1) path = true ->
                           is_directory (fs p) path = true \/ In path before)
          /\ trace p1 =
               (trace p
                ++ [Stdout ("+ Creating required directories..." ++ nl)]
                ++ map CreateDirectories (before ++ [d])
                ++ [Stderr ("✗ Failed to create directories: "
                            ++ create_directories_what d ++ nl)])%list).
Proof.
  eexists. split; [apply createDirectories_eval |].
  assert (Gen : forall ds f,
             let '(f2, _, _) := make_dirs f ds in
             fs_files f2 = fs_files f
             /\ (forall path, is_directory f path = true -> is_directory f2 path = true)).
  { induction ds as [|d rest IH]; intro f; cbn [make_dirs]; [split; auto |].
    destruct (create_directories f d) as [f'|] eqn:Ec; [| split; auto].
    destruct (create_directories_some _ _ _ Ec) as (Ff & _ & Mono & _).
    specialize (IH f'). destruct (make_dirs f' rest) as [[f2 tried] failed].
    destruct IH as (Ff2 & Mono2). split; [congruence | auto]. }
  specialize (Gen (required_dirs (vm p)) (fs p)).
  split; [| split; [| split; [| split]]].
  - destruct (make_dirs (fs p) (required_dirs (vm p))) as [[f2 tried] failed]. reflexivity.
  - destruct (make_dirs (fs p) (required_dirs (vm p))) as [[f2 tried] failed].
    cbn [fs]. apply Gen.
  - destruct (make_dirs (fs p) (required_dirs (vm p))) as [[f2 tried] failed].
    cbn [fs]. destruct Gen as (Ff & Mono). intros path E.
    unfold exists_ in *. unfold is_regular_file in *. rewrite Ff.
    apply orb_prop in E as [-> | E]; [reflexivity |].
    rewrite (Mono _ E). apply orb_true_r.
  - intro Hall. destruct (make_dirs_ok _ _ Hall) as (f2 & E2 & Ff & Mono & All & _).
    rewrite E2. cbn [fs trace vm]. split; [exact All |]. split; [reflexivity |].
    eexists. split; [apply createDirectories_eval |].
    cbn [fs vm]. rewrite (make_dirs_idle _ _ All). reflexivity.
  - intros before d after Ed Hall Hd. rewrite Ed.
    destruct (make_dirs_stops before (fs p) d after Hall Hd)
      as (f2 & E2 & Ff & Mono & All & Back).
    rewrite E2. cbn [fs trace]. split; [exact All |]. split; [exact Back |]. reflexivity.
Qed.


Lemma createDirectories_creates_or_reports_witness :
  exists p1,
    createDirectories (mkProc ColdVM_new (mkFS ["./devices/disk"] []) 0 true []) = Ok tt p1
    /\ fs_files (fs p1) = ["./devices/disk"]
    /\ (forall path, is_directory (fs p1) path = true ->
                     is_directory (mkFS ["./devices/disk"] []) path = true \/ In path [])
    /\ trace p1 =
         [ Stdout ("+ Creating required directories..." ++ nl);
           CreateDirectories "./devices/disk";
           Stderr ("✗ Failed to create directories: "
                   ++ create_directories_what "./devices/disk" ++ nl) ].
Proof.
  destruct (createDirectories_creates_or_reports
              (mkProc ColdVM_new (mkFS ["./devices/disk"] []) 0 true []))
    as (p1 & E & _ & Pf & _ & _ & Pfail).
  exists p1. split; [exact E |]. split; [exact Pf |].
  destruct (Pfail [] "./devices/disk" ["./devices/rom"; "./boot/firmware"; "./libraries"]
              eq_refl (fun b (Hb : In b []) => match Hb with end) eq_refl)
    as (_ & Back & Et).
  split; [exact Back | exact Et].
Defined.

(** The loop over the template locations: it changes nothing but the
    trace and, at most once, copies a template to [dst]. *)
Lemma copy_vars_from_eval sources dst : forall p,
  exists_ (fs p) dst = false ->
  has_directory (fs p) (parent_path dst) = true ->
  exists b p1,
    copy_vars_from sources dst p = Ok b p1
    /\ vm p1 = vm p /\ nforks p1 = nforks p /\ globalVM p1 = globalVM p
    /\ (b = true ->
        exists_ (fs p1) dst = true
        /\ exists before source after t,
             sources = (before ++ source :: after)%list
             /\ is_regular_file (fs p) source = true
             /\ (forall s, In s before -> is_regular_file (fs p) s = false)
             /\ trace p1 = (trace p ++ t ++ [CopyFile source dst;
                              Stdout ("✓ OVMF VARS file created from system template!" ++ nl)])%list
             /\ forallb only_output t = true)
    /\ (b = false ->
        fs p1 = fs p
        /\ (forall s, In s sources -> is_regular_file (fs p) s = false)
        /\ exists t, trace p1 = (trace p ++ t)%list /\ forallb only_output t = true).
Proof.
  induction sources as [|source rest IH]; intros p Hd Hp; simpl.
  - exists false, p. split; [reflexivity |]. repeat split; try discriminate.
    + intros s [].
    + exists []. rewrite app_nil_r. split; reflexivity.
  - rewrite get_fs_bind.
    assert (Step : forall q,
               vm q = vm p -> fs q = fs p -> nforks q = nforks p ->
               globalVM q = globalVM p ->
               (exists tq, trace q = (trace p ++ tq)%list /\ forallb only_output tq = true) ->
               is_regular_file (fs p) source = false ->
               exists b p1,
                 copy_vars_from rest dst q = Ok b p1
                 /\ vm p1 = vm p /\ nforks p1 = nforks p /\ globalVM p1 = globalVM p
                 /\ (b = true ->
                     exists_ (fs p1) dst = true
                     /\ exists before source0 after t,
                          (source :: rest) = (before ++ source0 :: after)%list
                          /\ is_regular_file (fs p) source0 = true
                          /\ (forall s, In s before -> is_regular_file (fs p) s = false)
                          /\ trace p1 = (trace p ++ t ++ [CopyFile source0 dst;
                                Stdout ("✓ OVMF VARS file created from system template!" ++ nl)])%list
                          /\ forallb only_output t = true)
                 /\ (b = false ->
                     fs p1 = fs p
                     /\ (forall s, In s (source :: rest) -> is_regular_file (fs p) s = false)
                     /\ exists t, trace p1 = (trace p ++ t)%list
                                  /\ forallb only_output t = true)).
    { intros q Qv Qf Qn Qg (tq & Qt & Qa) Hs.
      destruct (IH q) as (b & p1 & E & Pv & Pn & Pg & Ht & Hf);
        [rewrite Qf; exact Hd | rewrite Qf; exact Hp |].
      exists b, p1. split; [exact E |].
      split; [congruence |]. split; [congruence |]. split; [congruence |]. split.
      - intro Eb. destruct (Ht Eb) as (Ex & before & s0 & after & t & Es & Er & Hb & Et & Ea).
        split; [exact Ex |].
        exists (source :: before), s0, after, (tq ++ t)%list.
        split; [rewrite Es; reflexivity |].
        split; [rewrite <- Qf; exact Er |].
        split; [intros s [<- | Hin]; [exact Hs | rewrite <- Qf; apply Hb, Hin] |].
        split; [rewrite Et, Qt; repeat rewrite <- app_assoc; reflexivity |].
        rewrite forallb_app, Qa, Ea. reflexivity.
      - intro Eb. destruct (Hf Eb) as (Ef & Hall & t & Et & Ea).
        split; [congruence |].
        split; [intros s [<- | Hin]; [exact Hs | rewrite <- Qf; apply Hall, Hin] |].
        exists (tq ++ t)%list. rewrite Et, Qt, app_assoc.
        split; [reflexivity |]. rewrite forallb_app, Qa, Ea. reflexivity. }
    destruct (exists_ (fs p) source) eqn:Es.
    + unfold copy_file. rewrite Hd, Hp. cbn [negb]. rewrite !andb_true_r.
      destruct (is_regular_file (fs p) source) eqn:Er.
      * unfold success, cout. rewrite !emit_bind. unfold put_fs at 1. unfold bind at 1.
        rewrite emit_bind.
        eexists true, _. split; [reflexivity |]. cbn [vm fs nforks globalVM trace with_event with_fs].
        repeat split; try discriminate.
        -- unfold exists_, is_regular_file. cbn [fs_files]. rewrite mem_last. reflexivity.
        -- exists [], source, rest, []. repeat split; try assumption.
           ++ intros s [].
           ++ repeat rewrite <- app_assoc. reflexivity.
      * unfold debug, cout. rewrite emit_bind.
        apply Step; try reflexivity.
        eexists [_]. cbn [trace with_event]. split; reflexivity.
    + apply Step; [reflexivity | reflexivity | reflexivity | reflexivity | |].
      * exists []. rewrite app_nil_r. split; reflexivity.
      * unfold exists_ in Es. apply orb_false_elim in Es as [Er _]. exact Er.
Qed.

(** The same loop when the directory [dst] is to go into is missing:
    every copy fails and nothing changes but the output. *)
Lemma copy_vars_from_nowhere sources dst : forall p,
  has_directory (fs p) (parent_path dst) = false ->
  exists p1 t,
    copy_vars_from sources dst p = Ok false p1
    /\ vm p1 = vm p /\ fs p1 = fs p /\ nforks p1 = nforks p /\ globalVM p1 = globalVM p
    /\ trace p1 = (trace p ++ t)%list /\ forallb only_output t = true.
Proof.
  induction sources as [|source rest IH]; intros p Hp; simpl.
  - exists p, []. rewrite app_nil_r. repeat split.
  - rewrite get_fs_bind. unfold copy_file. rewrite Hp, andb_false_r.
    destruct (exists_ (fs p) source).
    + unfold debug, cout. rewrite emit_bind.
      destruct (IH (with_event (Stdout ("+ " ++ ("Failed to copy from " ++ source) ++ nl)) p) Hp)
        as (p1 & t & E & Pv & Pf & Pn & Pg & Pt & Pa).
      exists p1, (Stdout ("+ " ++ ("Failed to copy from " ++ source) ++ nl) :: t).
      split; [exact E |]. cbn [vm fs nforks globalVM trace with_event] in *.
      repeat split; try assumption. rewrite Pt, <- app_assoc. reflexivity.
    + apply IH, Hp.
Qed.

(** X4.  When the variable store is missing and the directory it goes
    into exists, [createVarsFile] creates it and returns [true]: it copies
    the first template location that is a regular file, or, when none is,
    writes a zero-filled file of 64 MiB after a warning. *)
Theorem createVarsFile_creates p :
  exists_ (fs p) (varsPath (vm p)) = false ->
  has_directory (fs p) (parent_path (varsPath (vm p))) = true ->
  exists p' t,
    createVarsFile p = Ok true p'
    /\ vm p' = vm p
    /\ exists_ (fs p') (varsPath (vm p)) = true
    /\ forallb only_output t = true
    /\ ((exists before source after,
           varsSources = (before ++ source :: after)%list
           /\ is_regular_file (fs p) source = true
           /\ (forall s, In s before -> is_regular_file (fs p) s = false)
           /\ trace p' =
                (trace p ++ t
                 ++ [CopyFile source (varsPath (vm p));
                     Stdout ("✓ OVMF VARS file created from system template!" ++ nl)])%list)
        \/ ((forall s, In s varsSources -> is_regular_file (fs p) s = false)
            /\ trace p' =
                 (trace p ++ t
                  ++ [Stdout ("! Creating empty OVMF VARS file (not recommended)" ++ nl);
                      WriteFile (varsPath (vm p)) 67108864])%list)).
Proof.
  intros Hd Hp. unfold createVarsFile. rewrite get_vm_bind.
  unfold fs_exists. rewrite bind_bind, get_fs_bind, ret_bind, Hd. cbn [negb].
  unfold log, cout. rewrite emit_bind.
  destruct (copy_vars_from_eval varsSources (varsPath (vm p))
              (with_event (Stdout ("- " ++ "Creating OVMF VARS file..." ++ nl)) p) Hd Hp)
    as (b & p1 & E & Pv & Pn & Pg & Ht & Hf).
  rewrite (run_bind _ _ _ _ _ E). cbn [vm fs trace with_event] in *.
  destruct b.
  - destruct (Ht eq_refl) as (Ex & before & source & after & t & Es & Er & Hb & Et & Ea).
    exists p1, (Stdout ("- " ++ "Creating OVMF VARS file..." ++ nl) :: t).
    split; [reflexivity |]. split; [exact Pv |]. split; [exact Ex |].
    split; [exact Ea |]. left.
    exists before, source, after. repeat split; try assumption.
    rewrite Et. repeat rewrite <- app_assoc. reflexivity.
  - destruct (Hf eq_refl) as (Ef & Hall & t & Et & Ea).
    unfold warning, cout. rewrite emit_bind, get_fs_bind, emit_bind.
    unfold put_fs at 1. unfold bind at 1. unfold ret.
    eexists _, (Stdout ("- " ++ "Creating OVMF VARS file..." ++ nl) :: t).
    split; [reflexivity |]. normal_state.
    split; [exact Pv |]. split.
    { unfold write_file. rewrite Ef, Hd, Hp. cbn [negb orb].
      unfold exists_, is_regular_file. cbn [fs_files]. rewrite mem_last. reflexivity. }
    split; [exact Ea |]. right. split; [exact Hall |].
    rewrite Et. repeat rewrite <- app_assoc. reflexivity.
Qed.

Lemma createVarsFile_creates_witness :
  exists p' t,
    createVarsFile (mkProc ColdVM_new
                      (mkFS ["/usr/share/edk2-ovmf/x64/OVMF_VARS.fd"] ["./boot/firmware"])
                      0 true []) = Ok true p'
    /\ vm p' = ColdVM_new
    /\ exists_ (fs p') "./boot/firmware/OVMF_VARS.fd" = true
    /\ forallb only_output t = true
    /\ ((exists before source after,
           varsSources = (before ++ source :: after)%list
           /\ is_regular_file (mkFS ["/usr/share/edk2-ovmf/x64/OVMF_VARS.fd"]
                                 ["./boot/firmware"]) source = true
           /\ (forall s, In s before ->
                         is_regular_file (mkFS ["/usr/share/edk2-ovmf/x64/OVMF_VARS.fd"]
                                            ["./boot/firmware"]) s = false)
           /\ trace p' =
                ([] ++ t
                 ++ [CopyFile source "./boot/firmware/OVMF_VARS.fd";
                     Stdout ("✓ OVMF VARS file created from system template!" ++ nl)])%list)
        \/ ((forall s, In s varsSources ->
                       is_regular_file (mkFS ["/usr/share/edk2-ovmf/x64/OVMF_VARS.fd"]
                                          ["./boot/firmware"]) s = false)
            /\ trace p' =
                 ([] ++ t
                  ++ [Stdout ("! Creating empty OVMF VARS file (not recommended)" ++ nl);
                      WriteFile "./boot/firmware/OVMF_VARS.fd" 67108864])%list)).
Proof.
  apply (createVarsFile_creates
           (mkProc ColdVM_new
              (mkFS ["/usr/share/edk2-ovmf/x64/OVMF_VARS.fd"] ["./boot/firmware"])
              0 true [])).
  - reflexivity.
  - reflexivity.
Defined.

(** X5.  [createVarsFile] has no failure path: it always returns [true]
    and leaves the [ColdVM] object alone.  Afterwards the variable store
    exists exactly when it existed before or the directory it goes into
    does: when the store was already there nothing at all happens, and
    when that directory is missing every copy and the final write fail
    unnoticed, so [true] is returned although no file was created. *)
Theorem createVarsFile_always_reports_success p :
  exists p',
    createVarsFile p = Ok true p'
    /\ vm p' = vm p
    /\ exists_ (fs p') (varsPath (vm p))
       = exists_ (fs p) (varsPath (vm p))
         || has_directory (fs p) (parent_path (varsPath (vm p)))
    /\ (exists_ (fs p) (varsPath (vm p)) = true -> p' = p)
    /\ (exists_ (fs p) (varsPath (vm p)) = false ->
        has_directory (fs p) (parent_path (varsPath (vm p))) = false ->
        fs p' = fs p).
Proof.
  destruct (exists_ (fs p) (varsPath (vm p))) eqn:Hd.
  - exists p. split.
    + unfold createVarsFile. rewrite get_vm_bind.
      unfold fs_exists. rewrite bind_bind, get_fs_bind, ret_bind, Hd. reflexivity.
    + repeat split; try discriminate; try exact Hd.
  - unfold createVarsFile. rewrite get_vm_bind.
    unfold fs_exists. rewrite bind_bind, get_fs_bind, ret_bind, Hd. cbn [negb orb].
    unfold log, cout. rewrite emit_bind.
    destruct (has_directory (fs p) (parent_path (varsPath (vm p)))) eqn:Hp.
    + destruct (copy_vars_from_eval varsSources (varsPath (vm p))
                  (with_event (Stdout ("- " ++ "Creating OVMF VARS file..." ++ nl)) p) Hd Hp)
        as (b & p1 & E & Pv & Pn & Pg & Ht & Hf).
      rewrite (run_bind _ _ _ _ _ E). cbn [vm fs trace with_event] in *.
      destruct b.
      * exists p1. split; [reflexivity |]. split; [exact Pv |].
        split; [apply Ht; reflexivity |]. split; discriminate.
      * destruct (Hf eq_refl) as (Ef & _).
        unfold warning, cout. rewrite emit_bind, get_fs_bind, emit_bind.
        unfold put_fs at 1. unfold bind at 1. unfold ret.
        eexists. split; [reflexivity |]. normal_state.
        split; [exact Pv |]. split; [| split; discriminate].
        unfold write_file. rewrite Ef, Hd, Hp. cbn [negb orb].
        unfold exists_, is_regular_file. cbn [fs_files]. rewrite mem_last. reflexivity.
    + destruct (copy_vars_from_nowhere varsSources (varsPath (vm p))
                  (with_event (Stdout ("- " ++ "Creating OVMF VARS file..." ++ nl)) p) Hp)
        as (p1 & t & E & Pv & Pf & Pn & Pg & Pt & Pa).
      rewrite (run_bind _ _ _ _ _ E). cbn [vm fs trace with_event] in *.
      unfold warning, cout. rewrite emit_bind, get_fs_bind, emit_bind.
      unfold put_fs at 1. unfold bind at 1. unfold ret.
      eexists. split; [reflexivity |]. normal_state.
      assert (W : write_file (fs p1) (varsPath (vm p)) = fs p).
      { unfold write_file. rewrite Pf, Hd, Hp. reflexivity. }
      rewrite W. split; [exact Pv |]. split; [exact Hd |].
      split; [discriminate | reflexivity].
Qed.

Lemma createVarsFile_always_reports_success_witness :
  exists p',
    createVarsFile (mkProc ColdVM_new (mkFS [] []) 0 true []) = Ok true p'
    /\ exists_ (fs p') "./boot/firmware/OVMF_VARS.fd" = false
    /\ fs p' = mkFS [] [].
Proof.
  destruct (createVarsFile_always_reports_success (mkProc ColdVM_new (mkFS [] []) 0 true []))
    as (p' & E & _ & Ex & _ & Efs).
  exists p'. split; [exact E |]. split; [exact Ex | exact (Efs eq_refl eq_refl)].
Defined.

(* ================================================================== *)
(** ** The bridge check and the argument loop *)

#[export] Instance same_fs_Keeps : Keeps same_fs.
Proof.
  split; unfold same_fs; simpl; intros.
  - intuition.
  - intuition congruence.
  - intuition.
Qed.

Lemma untouched_same_fs p q : untouched p q -> same_fs p q.
Proof. unfold untouched, same_fs. intuition. Qed.

Lemma only_output_no_command e : only_output e = true -> no_command e = true.
Proof. destruct e; simpl; congruence. Qed.

#[export] Hint Resolve untouched_same_fs only_output_no_command : frame_incl.

Ltac side ::=
  solve [ reflexivity
        | intros; reflexivity
        | intros; unfold untouched, same_vm, steady, same_fs; simpl; auto ].

Lemma parse_args_keeps_fs argv0 args :
  within (calm same_fs only_output) (parse_args argv0 args).
Proof. induction args as [|arg rest IH]; simpl; within_auto. Qed.

Lemma commands_run_app t1 t2 :
  commands_run (t1 ++ t2) = (commands_run t1 ++ commands_run t2)%list.
Proof. apply flat_map_app. Qed.

Lemma commands_run_none t : forallb no_command t = true -> commands_run t = [].
Proof.
  induction t as [|e t IH]; simpl; [reflexivity |].
  intro E. apply andb_prop in E as [E1 E2]. rewrite (IH E2).
  destruct e; simpl in *; try reflexivity; discriminate.
Qed.

Lemma forallb_only_output_no_command t :
  forallb only_output t = true -> forallb no_command t = true.
Proof.
  rewrite !forallb_forall. intros Hall e He. apply only_output_no_command, Hall, He.
Qed.

Lemma middle_of {A} (a b c d : list A) :
  exists x y, (a ++ b ++ c ++ d)%list = (x ++ c ++ y)%list.
Proof. exists (a ++ b)%list, d. rewrite <- app_assoc. reflexivity. Qed.

(** X6.  [checkBridgeInterface] returns whether [ip link show] succeeded
    on the configured interface; when it did not, the launcher falls back
    to NAT: [useBridge] is cleared, nothing else in the [ColdVM] object
    changes, and a command line built afterwards, with [useBridge] still
    cleared, carries the user-mode backend and the NIC without the
    bridge. *)
Theorem checkBridgeInterface_falls_back_to_nat H p :
  exists p',
    checkBridgeInterface H p
    = Ok (fst (host_system H
                 ("ip link show " ++ bridgeInterface (vm p) ++ " > /dev/null 2>&1") (fs p))
          =? 0)%Z p'
    /\ vm p' =
         (if (fst (host_system H
                     ("ip link show " ++ bridgeInterface (vm p) ++ " > /dev/null 2>&1")
                     (fs p)) =? 0)%Z
          then vm p else set_useBridge false (vm p))
    /\ ((fst (host_system H
                ("ip link show " ++ bridgeInterface (vm p) ++ " > /dev/null 2>&1") (fs p))
         =? 0)%Z = false ->
        forall q cmd q',
          useBridge (vm q) = useBridge (vm p') ->
          buildQEMUCommand H q = Ok cmd q' ->
          exists before after,
            cmd = (before
                   ++ ["-netdev"; "user,id=net0"; "-device"; "virtio-net-pci,netdev=net0"]
                   ++ after)%list).
Proof.
  unfold checkBridgeInterface. rewrite get_vm_bind. cbv zeta.
  unfold bind at 1. unfold system.
  destruct (host_system H ("ip link show " ++ bridgeInterface (vm p) ++ " > /dev/null 2>&1")
              (fs p)) as [status f'] eqn:Es.
  cbn [fst]. destruct (status =? 0)%Z eqn:E0.
  - unfold success, cout. rewrite emit_bind. unfold ret.
    eexists. split; [reflexivity |]. split; [reflexivity | discriminate].
  - unfold warning, cout. rewrite !emit_bind.
    unfold modify_vm at 1. unfold bind at 1. unfold ret.
    eexists. split; [reflexivity |]. normal_state. split; [reflexivity |].
    intros _ q cmd q' Hq Hb.
    destruct (buildQEMUCommand_shape _ _ _ _ Hb) as (before & cam & ->).
    rewrite Hq. cbn [useBridge set_useBridge].
    apply middle_of.
Qed.

Lemma checkBridgeInterface_falls_back_to_nat_witness :
  exists before after,
    built (mkHost (fun cmd f => if String.prefix "ip link" cmd then (1%Z, f) else (0%Z, f))
             (fun _ => None) demo_fork)
      ["cold"] fs_iso
    = (before ++ ["-netdev"; "user,id=net0"; "-device"; "virtio-net-pci,netdev=net0"]
       ++ after)%list.
Proof.
  set (H := mkHost (fun cmd f => if String.prefix "ip link" cmd then (1%Z, f) else (0%Z, f))
              (fun _ => None) demo_fork).
  destruct (checkBridgeInterface_falls_back_to_nat H (configured ["cold"] fs_iso))
    as (p' & _ & Hv & Hnat).
  apply (Hnat eq_refl
           (with_event (Stdout ("- Starting QEMU virtual machine..." ++ nl))
              (prepared H ["cold"] fs_iso))
           (built H ["cold"] fs_iso) (final (building H ["cold"] fs_iso))).
  - rewrite Hv. vm_compute. reflexivity.
  - vm_compute. reflexivity.
Defined.

Lemma flag_test flag arg rest :
  existsb (String.eqb flag) (arg :: rest)
  = String.eqb arg flag || existsb (String.eqb flag) rest.
Proof. simpl. rewrite String.eqb_sym. reflexivity. Qed.

(** The argument loop, when no help flag is met: each of the four flags
    clears its setting if it occurs, nothing is printed, and arguments
    that are not flags are skipped. *)
Lemma parse_args_flags argv0 args : forall v f n g t,
  existsb is_help args = false ->
  parse_args argv0 args (mkProc v f n g t) =
    Ok None
      (mkProc
         (set_enableMicrophone
            (enableMicrophone v && negb (existsb (String.eqb "--no-mic") args))
            (set_enableCamera
               (enableCamera v && negb (existsb (String.eqb "--no-camera") args))
               (set_useBridge
                  (useBridge v && negb (existsb (String.eqb "--no-bridge") args))
                  (set_useVNC
                     (useVNC v && negb (existsb (String.eqb "--no-vnc") args)) v))))
         f n g t).
Proof.
  induction args as [|arg rest IH]; intros v f n g t Eh.
  - destruct v. simpl. rewrite !andb_true_r. reflexivity.
  - cbn [existsb] in Eh. apply orb_false_elim in Eh as [Ea Er].
    rewrite !flag_test. cbn [parse_args]. rewrite Ea.
    unfold setVNCMode, setBridgeMode, setCamera, setMicrophone.
    destruct (String.eqb arg "--no-vnc") eqn:E1.
    { apply String.eqb_eq in E1. subst arg.
      unfold modify_vm at 1. unfold bind at 1. normal_state.
      rewrite (IH _ _ _ _ _ Er). destruct v. cbn. rewrite ?andb_false_r. reflexivity. }
    destruct (String.eqb arg "--no-bridge") eqn:E2.
    { apply String.eqb_eq in E2. subst arg.
      unfold modify_vm at 1. unfold bind at 1. normal_state.
      rewrite (IH _ _ _ _ _ Er). destruct v. cbn. rewrite ?andb_false_r. reflexivity. }
    destruct (String.eqb arg "--no-camera") eqn:E3.
    { apply String.eqb_eq in E3. subst arg.
      unfold modify_vm at 1. unfold bind at 1. normal_state.
      rewrite (IH _ _ _ _ _ Er). destruct v. cbn. rewrite ?andb_false_r. reflexivity. }
    destruct (String.eqb arg "--no-mic") eqn:E4.
    { apply String.eqb_eq in E4. subst arg.
      unfold modify_vm at 1. unfold bind at 1. normal_state.
      rewrite (IH _ _ _ _ _ Er). destruct v. cbn. rewrite ?andb_false_r. reflexivity. }
    cbn [orb]. apply (IH _ _ _ _ _ Er).
Qed.

(** Where [main] stands when the argument loop ends without a help flag. *)
Lemma startup_configured argv fs0 :
  existsb is_help (tl argv) = false ->
  exists p_cfg,
    startup argv (initial fs0) = Ok None p_cfg
    /\ fs p_cfg = fs0 /\ nforks p_cfg = 0 /\ globalVM p_cfg = true
    /\ trace p_cfg = [InstallHandler SIGINT; InstallHandler SIGTERM]
    /\ diskFiles (vm p_cfg) = [] /\ isoFiles (vm p_cfg) = []
    /\ qemuPid (vm p_cfg) = (-1)%Z /\ websockifyPid (vm p_cfg) = (-1)%Z
    /\ useVNC (vm p_cfg) = negb (existsb (String.eqb "--no-vnc") (tl argv))
    /\ enableCamera (vm p_cfg) = negb (existsb (String.eqb "--no-camera") (tl argv)).
Proof.
  intro Eh. eexists. split.
  - rewrite startup_eq. apply parse_args_flags, Eh.
  - cbn. repeat split.
Qed.

(** X7.  Started without a help flag, [main] reaches [boot] with the
    constructor's configuration except for the four switches: remote
    display, bridged networking, camera and microphone are each on unless
    the matching [--no-...] flag occurs among the arguments; unknown
    arguments are ignored, and nothing has been printed or run yet. *)
Theorem startup_reads_flags argv fs0 :
  existsb is_help (tl argv) = false ->
  startup argv (initial fs0) =
    Ok None
      (mkProc
         (mkColdVM "./devices/disk" "./devices/rom" "./boot/firmware/OVMF_CODE.fd"
            "./boot/firmware/OVMF_VARS.fd" "./libraries/noVNC"
            (negb (existsb (String.eqb "--no-vnc") (tl argv)))
            (negb (existsb (String.eqb "--no-bridge") (tl argv)))
            "virbr0" (-1) (-1) [] [] 4 4 "host"
            (negb (existsb (String.eqb "--no-camera") (tl argv)))
            true
            (negb (existsb (String.eqb "--no-mic") (tl argv))))
         fs0 0 true [InstallHandler SIGINT; InstallHandler SIGTERM]).
Proof.
  intro Eh. rewrite startup_eq, (parse_args_flags _ _ _ _ _ _ _ Eh). reflexivity.
Qed.

Lemma startup_reads_flags_witness :
  startup ["cold"; "--no-mic"; "--verbose"; "--no-vnc"; "--no-mic"] (initial fs_iso) =
    Ok None
      (mkProc
         (mkColdVM "./devices/disk" "./devices/rom" "./boot/firmware/OVMF_CODE.fd"
            "./boot/firmware/OVMF_VARS.fd" "./libraries/noVNC"
            false true "virbr0" (-1) (-1) [] [] 4 4 "host" true true false)
         fs_iso 0 true [InstallHandler SIGINT; InstallHandler SIGTERM]).
Proof.
  apply (startup_reads_flags ["cold"; "--no-mic"; "--verbose"; "--no-vnc"; "--no-mic"]
           fs_iso).
  reflexivity.
Defined.

(** X8.  With a help flag among the arguments [main] only prints: it
    exits with status 0 without touching the file system, running a
    command or creating a process, whatever other arguments there are. *)
Theorem help_has_no_side_effects H argv fs0 :
  existsb is_help (tl argv) = true ->
  exists pf t,
    main H argv fs0 = (Exited 0, pf)
    /\ fs pf = fs0
    /\ nforks pf = 0
    /\ trace pf = ([InstallHandler SIGINT; InstallHandler SIGTERM] ++ t)%list
    /\ forallb only_output t = true
    /\ commands_run (trace pf) = []
    /\ child_actions (trace pf) = [].
Proof.
  intro Eh.
  destruct (parse_args_help (hd EmptyString argv) (tl argv)
              (mkProc ColdVM_new fs0 0 true [InstallHandler SIGINT; InstallHandler SIGTERM])
              Eh) as (pf & Ep).
  destruct (within_Ok _ _ _ _ _ (parse_args_keeps_fs _ _) Ep)
    as [(Kf & Kn & Kg) (t & Et & Ea)].
  cbn [fs nforks trace] in Kf, Kn, Et.
  exists pf, t. split.
  - unfold main, run, main_body. rewrite <- startup_eq in Ep.
    rewrite (run_bind _ _ _ _ _ Ep). reflexivity.
  - repeat split; try assumption.
    + rewrite Et, commands_run_app. simpl.
      apply commands_run_none, forallb_only_output_no_command, Ea.
    + rewrite Et, child_actions_app. simpl.
      apply child_actions_no_child, forallb_only_output_no_child, Ea.
Qed.

Lemma help_has_no_side_effects_witness :
  exists pf t,
    main host_webcam ["cold"; "--no-vnc"; "-h"; "--no-mic"] fs_bare = (Exited 0, pf)
    /\ fs pf = fs_bare
    /\ nforks pf = 0
    /\ trace pf = ([InstallHandler SIGINT; InstallHandler SIGTERM] ++ t)%list
    /\ forallb only_output t = true
    /\ commands_run (trace pf) = []
    /\ child_actions (trace pf) = [].
Proof.
  apply (help_has_no_side_effects host_webcam ["cold"; "--no-vnc"; "-h"; "--no-mic"] fs_bare).
  reflexivity.
Defined.

(* ================================================================== *)
(** ** Missing tools *)

Lemma createDirectories_no_command : within (calm same_vm no_command) createDirectories.
Proof. unfold createDirectories. within_auto. Qed.

#[export] Hint Resolve createDirectories_no_command : frame.

(** Runs the computation at the head of the goal, which always returns,
    and records what it leaves alone. *)
Ltac run_step R :=
  match goal with
  | |- context [bind ?c ?k ?q] =>
      let a := fresh "a" in
      let q' := fresh "q" in
      let E := fresh "E" in
      let C := fresh "C" in
      destruct ((ltac:(total_auto) : total c) q) as (a & q' & E);
      pose proof (within_Ok R c q a q' ltac:(within_auto) E) as C;
      rewrite (run_bind c k q a q' E); clear E
  end.

Lemma checkCommand_eval H cmd name p :
  exists p' status msg,
    checkCommand H cmd name p = Ok (status =? 0)%Z p'
    /\ status = fst (host_system H ("which " ++ cmd ++ " > /dev/null 2>&1") (fs p))
    /\ vm p' = vm p /\ nforks p' = nforks p /\ globalVM p' = globalVM p
    /\ trace p' = (trace p ++ [SystemCmd ("which " ++ cmd ++ " > /dev/null 2>&1") status;
                               Stdout msg])%list.
Proof.
  unfold checkCommand. cbv zeta. unfold bind at 1. unfold system.
  destruct (host_system H ("which " ++ cmd ++ " > /dev/null 2>&1") (fs p))
    as [status f'] eqn:Es.
  cbn [fst]. destruct (status =? 0)%Z eqn:E0.
  - unfold success, cout. rewrite emit_bind. unfold ret.
    eexists _, status, _. rewrite E0. split; [reflexivity |]. normal_state.
    repeat split. rewrite <- app_assoc. reflexivity.
  - unfold warning, cout. rewrite emit_bind. unfold ret.
    eexists _, status, _. rewrite E0. split; [reflexivity |]. normal_state.
    repeat split. rewrite <- app_assoc. reflexivity.
Qed.

(** [prepare] when the hypervisor binary is not found. *)
Lemma prepare_without_qemu H p :
  (forall f, fst (host_system H which_qemu f) <> 0%Z) ->
  exists p' t,
    prepare H p = Ok false p'
    /\ vm p' = vm p /\ nforks p' = nforks p
    /\ trace p' = (trace p ++ t)%list
    /\ commands_run t = [which_qemu]
    /\ child_actions t = [].
Proof.
  intro Hq. unfold prepare.
  run_step (calm same_vm no_command).
  run_step (calm same_vm no_command).
  run_step (calm same_vm no_command).
  run_step (calm same_vm no_command).
  destruct (checkCommand_eval H "qemu-system-x86_64" "QEMU" q2)
    as (q3 & status & msg & E & Es & Kv & Kn & Kg & Kt).
  rewrite (run_bind _ _ _ _ _ E).
  assert (E0 : (status =? 0)%Z = false).
  { apply Z.eqb_neq. rewrite Es. apply Hq. }
  rewrite E0. cbn [negb]. unfold error, cerr. rewrite emit_bind. unfold ret.
  destruct C as [(V0 & N0 & _) (t0 & T0 & A0)], C0 as [(V1 & N1 & _) (t1 & T1 & A1)],
    C1 as [(V2 & N2 & _) (t2 & T2 & A2)], C2 as [(V3 & N3 & _) (t3 & T3 & A3)].
  eexists _, (t0 ++ t1 ++ t2 ++ t3
              ++ [SystemCmd which_qemu status; Stdout msg;
                  Stderr ("✗ " ++ "QEMU is required but not installed!" ++ nl)])%list.
  split; [reflexivity |]. cbn [vm nforks trace with_event].
  split; [congruence |]. split; [congruence |]. split.
  - rewrite Kt, T3, T2, T1, T0. repeat rewrite <- app_assoc. reflexivity.
  - split.
    + rewrite !commands_run_app, (commands_run_none _ A0), (commands_run_none _ A1),
        (commands_run_none _ A2), (commands_run_none _ A3). reflexivity.
    + rewrite !child_actions_app.
      assert (NC : forall t, forallb no_command t = true -> child_actions t = []).
      { intros t Ht. apply child_actions_no_child.
        rewrite forallb_forall in *. intros e He. specialize (Ht e He).
        destruct e; simpl in *; congruence. }
      rewrite (NC _ A0), (NC _ A1), (NC _ A2), (NC _ A3). reflexivity.
Qed.

(** X9.  When [which] does not find the hypervisor binary, [main] gives
    up at once: it exits with status 1 having run that one command only;
    no media scan was stored, no default disk was asked for and no process
    was created, signalled or awaited. *)
Theorem missing_hypervisor_stops_main H argv fs0 :
  existsb is_help (tl argv) = false ->
  (forall f, fst (host_system H which_qemu f) <> 0%Z) ->
  exists pf,
    main H argv fs0 = (Exited 1, pf)
    /\ commands_run (trace pf) = [which_qemu]
    /\ child_actions (trace pf) = []
    /\ nforks pf = 0
    /\ diskFiles (vm pf) = [] /\ isoFiles (vm pf) = [].
Proof.
  intros Eh Hq.
  destruct (startup_configured argv fs0 Eh)
    as (p_cfg & Hs & Sf & Sn & Sg & St & Sd & Si & _).
  destruct (prepare_without_qemu H p_cfg Hq) as (p' & t & Hp & Pv & Pn & Pt & Pc & Pa).
  exists (with_event (Stderr (nl ++ "✗ Failed to start Cold VM!" ++ nl ++ nl)) p').
  split.
  - unfold main, run, main_body. rewrite (run_bind _ _ _ _ _ Hs). cbv beta iota.
    unfold boot. rewrite bind_bind, (run_bind _ _ _ _ _ Hp). cbv beta iota.
    rewrite ret_bind. cbv beta iota. unfold cerr. rewrite emit_bind. reflexivity.
  - cbn [vm nforks trace with_event]. rewrite Pt, Pv, Pn, St.
    rewrite !commands_run_app, !child_actions_app, Pc, Pa. repeat split; assumption.
Qed.

Lemma missing_hypervisor_stops_main_witness :
  exists pf,
    main (mkHost (fun cmd f => (1%Z, f)) (fun _ => None) demo_fork) ["cold"] fs_iso
    = (Exited 1, pf)
    /\ commands_run (trace pf) = [which_qemu]
    /\ child_actions (trace pf) = []
    /\ nforks pf = 0
    /\ diskFiles (vm pf) = [] /\ isoFiles (vm pf) = [].
Proof.
  apply (missing_hypervisor_stops_main
           (mkHost (fun cmd f => (1%Z, f)) (fun _ => None) demo_fork) ["cold"] fs_iso).
  - reflexivity.
  - intros f. cbn. discriminate.
Defined.

(** [prepare] in remote display mode when the proxy binary is not found. *)
Lemma prepare_without_websockify H p :
  useVNC (vm p) = true ->
  (forall f, fst (host_system H which_qemu f) = 0%Z) ->
  (forall f, fst (host_system H which_websockify f) <> 0%Z) ->
  exists p' t,
    prepare H p = Ok false p'
    /\ vm p' = vm p /\ nforks p' = nforks p
    /\ trace p' = (trace p ++ t)%list
    /\ commands_run t = [which_qemu; which_websockify]
    /\ child_actions t = [].
Proof.
  intros Hvnc Hq Hw. unfold prepare.
  run_step (calm same_vm no_command).
  run_step (calm same_vm no_command).
  run_step (calm same_vm no_command).
  run_step (calm same_vm no_command).
  destruct (checkCommand_eval H "qemu-system-x86_64" "QEMU" q2)
    as (q3 & status & msg & E & Es & Kv & Kn & Kg & Kt).
  rewrite (run_bind _ _ _ _ _ E).
  assert (E0 : (status =? 0)%Z = true) by (apply Z.eqb_eq; rewrite Es; apply Hq).
  rewrite E0. cbn [negb]. rewrite get_vm_bind.
  run_step (calm same_vm no_command).
  destruct C as [(V0 & N0 & _) (t0 & T0 & A0)], C0 as [(V1 & N1 & _) (t1 & T1 & A1)],
    C1 as [(V2 & N2 & _) (t2 & T2 & A2)], C2 as [(V3 & N3 & _) (t3 & T3 & A3)],
    C3 as [(V4 & N4 & _) (t4 & T4 & A4)].
  assert (Hv3 : useVNC (vm q3) = true) by congruence.
  rewrite Hv3, bind_bind.
  destruct (checkCommand_eval H "websockify" "Websockify" q4)
    as (q5 & status' & msg' & E' & Es' & Kv' & Kn' & Kg' & Kt').
  rewrite (run_bind _ _ _ _ _ E').
  assert (E0' : (status' =? 0)%Z = false) by (apply Z.eqb_neq; rewrite Es'; apply Hw).
  rewrite E0'. cbn [negb]. unfold error, cerr. rewrite bind_bind, emit_bind, !ret_bind.
  cbn [negb]. unfold ret.
  eexists _, (t0 ++ t1 ++ t2 ++ t3
              ++ [SystemCmd which_qemu status; Stdout msg] ++ t4
              ++ [SystemCmd which_websockify status'; Stdout msg';
                  Stderr ("✗ " ++ "Websockify is required for VNC mode!" ++ nl)])%list.
  split; [reflexivity |]. cbn [vm nforks trace with_event].
  split; [congruence |]. split; [congruence |]. split.
  - rewrite Kt', T4, Kt, T3, T2, T1, T0. repeat rewrite <- app_assoc. reflexivity.
  - assert (NC : forall t, forallb no_command t = true -> child_actions t = []).
    { intros t Ht. apply child_actions_no_child.
      rewrite forallb_forall in *. intros e He. specialize (Ht e He).
      destruct e; simpl in *; congruence. }
    split.
    + rewrite !commands_run_app, (commands_run_none _ A0), (commands_run_none _ A1),
        (commands_run_none _ A2), (commands_run_none _ A3), (commands_run_none _ A4).
      reflexivity.
    + rewrite !child_actions_app, (NC _ A0), (NC _ A1), (NC _ A2), (NC _ A3), (NC _ A4).
      reflexivity.
Qed.

(** X10.  In remote display mode (no [--no-vnc]), when the hypervisor
    binary is found but [websockify] is not, [main] exits with status 1
    after these two lookups: nothing else was run, the media were not
    scanned and no process was created. *)
Theorem missing_proxy_stops_main H argv fs0 :
  existsb is_help (tl argv) = false ->
  existsb (String.eqb "--no-vnc") (tl argv) = false ->
  (forall f, fst (host_system H which_qemu f) = 0%Z) ->
  (forall f, fst (host_system H which_websockify f) <> 0%Z) ->
  exists pf,
    main H argv fs0 = (Exited 1, pf)
    /\ commands_run (trace pf) = [which_qemu; which_websockify]
    /\ child_actions (trace pf) = []
    /\ nforks pf = 0
    /\ diskFiles (vm pf) = [] /\ isoFiles (vm pf) = [].
Proof.
  intros Eh Ev Hq Hw.
  destruct (startup_configured argv fs0 Eh)
    as (p_cfg & Hs & Sf & Sn & Sg & St & Sd & Si & _ & _ & Sv & _).
  rewrite Ev in Sv.
  destruct (prepare_without_websockify H p_cfg Sv Hq Hw)
    as (p' & t & Hp & Pv & Pn & Pt & Pc & Pa).
  exists (with_event (Stderr (nl ++ "✗ Failed to start Cold VM!" ++ nl ++ nl)) p').
  split.
  - unfold main, run, main_body. rewrite (run_bind _ _ _ _ _ Hs). cbv beta iota.
    unfold boot. rewrite bind_bind, (run_bind _ _ _ _ _ Hp). cbv beta iota.
    rewrite ret_bind. cbv beta iota. unfold cerr. rewrite emit_bind. reflexivity.
  - cbn [vm nforks trace with_event]. rewrite Pt, Pv, Pn, St.
    rewrite !commands_run_app, !child_actions_app, Pc, Pa. repeat split; assumption.
Qed.

Lemma missing_proxy_stops_main_witness :
  exists pf,
    main (mkHost (fun cmd f => if String.eqb cmd which_websockify then (1%Z, f) else (0%Z, f))
            (fun _ => None) demo_fork) ["cold"; "--no-camera"] fs_iso
    = (Exited 1, pf)
    /\ commands_run (trace pf) = [which_qemu; which_websockify]
    /\ child_actions (trace pf) = []
    /\ nforks pf = 0
    /\ diskFiles (vm pf) = [] /\ isoFiles (vm pf) = [].
Proof.
  apply (missing_proxy_stops_main
           (mkHost (fun cmd f => if String.eqb cmd which_websockify then (1%Z, f)
                                 else (0%Z, f))
              (fun _ => None) demo_fork) ["cold"; "--no-camera"] fs_iso).
  - reflexivity.
  - reflexivity.
  - intros f. reflexivity.
  - intros f. cbn. discriminate.
Defined.

(* ================================================================== *)
(** ** Every way the two spawns and [launch] can end *)

Lemma gtb_pos r : (r >? 0)%Z = true -> (r > 0)%Z.
Proof. intro E. apply Z.gtb_lt in E. lia. Qed.

Lemma run_bind_throw {A B} (c : M A) (k : A -> M B) p e p1 :
  c p = Throw e p1 -> bind c k p = Throw e p1.
Proof. intro E. unfold bind. rewrite E. reflexivity. Qed.

Lemma run_bind_child {A B} (c : M A) (k : A -> M B) p img p1 :
  c p = InChild img p1 -> bind c k p = InChild img p1.
Proof. intro E. unfold bind. rewrite E. reflexivity. Qed.

(** [startWebsockify] in remote display mode, by how it ends. *)
Lemma startWebsockify_cases H p :
  useVNC (vm p) = true ->
  exists t,
    trace (final (startWebsockify H p)) = (trace p ++ t)%list
    /\ globalVM (final (startWebsockify H p)) = globalVM p
    /\ qemuPid (vm (final (startWebsockify H p))) = qemuPid (vm p)
    /\ useVNC (vm (final (startWebsockify H p))) = true
    /\ match startWebsockify H p with
       | Ok true p2 =>
           exists w, (w > 0)%Z /\ websockifyPid (vm p2) = w /\ child_actions t = [Spawned w]
       | Ok false p2 =>
           websockifyPid (vm p2) = websockifyPid (vm p) /\ child_actions t = []
       | Throw _ _ => False
       | InChild _ _ => child_actions t = []
       end.
Proof.
  intros Hvnc. destruct p as [v f n g t0]. cbn [vm fs nforks globalVM trace] in *.
  unfold startWebsockify, log, error, cout, cerr, fs_exists, bind, get_vm, get_fs,
    emit, ret, fork, modify_vm, in_child, with_event, with_vm.
  cbv beta iota zeta delta [vm fs nforks globalVM trace].
  rewrite Hvnc. cbv beta iota delta [negb].
  destruct (exists_ f (noVNCPath v)); cbv beta iota delta [negb].
  - destruct (host_fork H n =? 0)%Z eqn:E0.
    + cbn [final trace globalVM vm]. eexists. split; [rewrite <- app_assoc; reflexivity |].
      repeat split; try assumption. simpl.
      apply Z.eqb_eq in E0. rewrite E0. reflexivity.
    + destruct (host_fork H n >? 0)%Z eqn:Eg.
      * cbn [final trace globalVM vm]. eexists.
        split; [repeat rewrite <- app_assoc; reflexivity |].
        destruct v; cbn. repeat split; try assumption.
        exists (host_fork H n). split; [apply gtb_pos, Eg |]. split; [reflexivity |].
        rewrite Eg. reflexivity.
      * cbn [final trace globalVM vm]. eexists.
        split; [repeat rewrite <- app_assoc; reflexivity |].
        repeat split; try assumption. simpl. rewrite Eg. reflexivity.
  - cbn [final trace globalVM vm]. eexists.
    split; [repeat rewrite <- app_assoc; reflexivity |].
    repeat split; assumption.
Qed.

(** [startQEMU], by how it ends. *)
Lemma startQEMU_cases H p :
  exists t,
    trace (final (startQEMU H p)) = (trace p ++ t)%list
    /\ globalVM (final (startQEMU H p)) = globalVM p
    /\ websockifyPid (vm (final (startQEMU H p))) = websockifyPid (vm p)
    /\ useVNC (vm (final (startQEMU H p))) = useVNC (vm p)
    /\ match startQEMU H p with
       | Ok true p1 =>
           exists q, (q > 0)%Z /\ qemuPid (vm p1) = q /\ child_actions t = [Spawned q]
       | Ok false p1 => qemuPid (vm p1) = qemuPid (vm p) /\ child_actions t = []
       | Throw _ _ => child_actions t = []
       | InChild _ _ => child_actions t = []
       end.
Proof.
  destruct p as [v f n g t0].
  pose proof (buildQEMUCommand_within H
                (with_event (Stdout ("- Starting QEMU virtual machine..." ++ nl))
                   (mkProc v f n g t0))) as W.
  unfold startQEMU, log, debug, cout. rewrite emit_bind.
  destruct (buildQEMUCommand H
              (with_event (Stdout ("- Starting QEMU virtual machine..." ++ nl))
                 (mkProc v f n g t0)))
    as [cmd pb | e pb | img pb] eqn:Hb;
    cbn [final] in W; destruct W as [(Bvm & Bn & Bg) (tb & Bt & Ba)];
    cbn [vm nforks globalVM trace with_event] in Bvm, Bn, Bg, Bt.
  - rewrite (run_bind _ _ _ _ _ Hb). cbv zeta. rewrite !emit_bind.
    clear Hb. destruct pb as [vb fb nb gb tb0]. cbn [vm nforks globalVM trace] in *.
    subst vb nb gb tb0.
    unfold bind, fork, modify_vm, emit, ret, in_child, error, cerr, with_event, with_vm.
    cbv beta iota zeta delta [vm fs nforks globalVM trace].
    destruct (host_fork H n =? 0)%Z eqn:E0;
      [| destruct (host_fork H n >? 0)%Z eqn:Eg];
      cbn [final trace globalVM vm].
    + eexists. split; [repeat rewrite <- app_assoc; reflexivity |].
      repeat split; try assumption.
      rewrite !child_actions_app, (child_actions_no_child _ Ba). simpl.
      apply Z.eqb_eq in E0. rewrite E0. reflexivity.
    + eexists. split; [repeat rewrite <- app_assoc; reflexivity |].
      destruct v; cbn. repeat split; try assumption.
      exists (host_fork H n). split; [apply gtb_pos, Eg |].
      split; [reflexivity |].
      rewrite !child_actions_app, (child_actions_no_child _ Ba). simpl.
      rewrite Eg. reflexivity.
    + unfold emit, with_event. cbn [final trace globalVM vm fs nforks].
      eexists. split; [repeat rewrite <- app_assoc; reflexivity |].
      repeat split; try assumption.
      rewrite !child_actions_app, (child_actions_no_child _ Ba). simpl.
      rewrite Eg. reflexivity.
  - rewrite (run_bind_throw _ _ _ _ _ Hb). cbn [final].
    exists (Stdout ("- " ++ "Starting QEMU virtual machine..." ++ nl) :: tb).
    split; [rewrite Bt, <- app_assoc; reflexivity |]. rewrite Bvm.
    repeat split; try assumption. simpl. apply child_actions_no_child, Ba.
  - rewrite (run_bind_child _ _ _ _ _ Hb). cbn [final].
    exists (Stdout ("- " ++ "Starting QEMU virtual machine..." ++ nl) :: tb).
    split; [rewrite Bt, <- app_assoc; reflexivity |]. rewrite Bvm.
    repeat split; try assumption. simpl. apply child_actions_no_child, Ba.
Qed.

(** *** The display mode is fixed once the arguments are read *)

#[export] Instance same_switches_Keeps : Keeps same_switches.
Proof.
  split; unfold same_switches; simpl; intros.
  - split; reflexivity.
  - intuition congruence.
  - split; reflexivity.
Qed.

Lemma untouched_same_switches p q : untouched p q -> same_switches p q.
Proof. unfold untouched, same_switches. intros (-> & _). split; reflexivity. Qed.

Lemma same_vm_same_switches p q : same_vm p q -> same_switches p q.
Proof. unfold same_vm, same_switches. intros (-> & _). split; reflexivity. Qed.

Lemma any_event_allowed (a : Event -> bool) e : a e = true -> any_event e = true.
Proof. reflexivity. Qed.

#[export] Hint Resolve untouched_same_switches same_vm_same_switches : frame_incl.
#[export] Hint Resolve any_event_allowed | 10 : frame_incl.

Ltac side ::=
  solve [ reflexivity
        | intros; reflexivity
        | intros; unfold untouched, same_vm, steady, same_fs, same_switches; simpl; auto ].

Lemma checkBridgeInterface_display H :
  within (calm same_switches any_event) (checkBridgeInterface H).
Proof. unfold checkBridgeInterface. within_auto. Qed.

#[export] Hint Resolve checkBridgeInterface_display : frame.

Lemma discoverMedia_display H : within (calm same_switches any_event) (discoverMedia H).
Proof. unfold discoverMedia. within_auto. Qed.

#[export] Hint Resolve discoverMedia_display : frame.

Lemma prepare_display H : within (calm same_switches any_event) (prepare H).
Proof. unfold prepare. within_auto. Qed.

(** *** [launch], by how it ends *)

Lemma readyBanner_total : total readyBanner.
Proof. unfold readyBanner. total_auto. Qed.

Lemma launch_cases H p :
  websockifyPid (vm p) = (-1)%Z ->
  exists t,
    trace (final (launch H p)) = (trace p ++ t)%list
    /\ globalVM (final (launch H p)) = globalVM p
    /\ useVNC (vm (final (launch H p))) = useVNC (vm p)
    /\ match launch H p with
       | Ok true pf =>
           exists q, (q > 0)%Z /\ qemuPid (vm pf) = q
             /\ if useVNC (vm p)
                then exists w, (w > 0)%Z /\ websockifyPid (vm pf) = w
                               /\ child_actions t = [Spawned q; Spawned w]
                else websockifyPid (vm pf) = (-1)%Z /\ child_actions t = [Spawned q]
       | Ok false pf =>
           child_actions t = []
           \/ exists q, (q > 0)%Z /\ child_actions t = [Spawned q; Signalled q; Waited q]
       | Throw _ _ => child_actions t = []
       | InChild _ _ =>
           child_actions t = [] \/ exists q, (q > 0)%Z /\ child_actions t = [Spawned q]
       end.
Proof.
  intro Hw. destruct (startQEMU_cases H p) as (t1 & T1 & G1 & W1 & V1 & C1).
  unfold launch.
  destruct (startQEMU H p) as [[|] p1 | e p1 | img p1] eqn:EQ; cbn [final] in *.
  - rewrite (run_bind _ _ _ _ _ EQ). cbv beta iota delta [negb].
    unfold success, cout. rewrite emit_bind, get_vm_bind. cbv zeta.
    cbn [vm with_event]. rewrite V1.
    destruct C1 as (q & Hq & Eq & C1).
    set (p1' := with_event (Stdout ("✓ " ++ "QEMU started successfully!" ++ nl)) p1).
    destruct (useVNC (vm p)) eqn:EV.
    + destruct (startWebsockify_cases H p1') as (t2 & T2 & G2 & Q2 & V2 & C2);
        [cbn [p1' vm with_event]; exact V1 |].
      rewrite bind_bind.
      destruct (startWebsockify H p1') as [[|] p2 | e p2 | img p2] eqn:EW;
        cbn [final] in *; subst p1'.
      * rewrite (run_bind _ _ _ _ _ EW). cbv beta iota delta [negb].
        rewrite bind_bind, emit_bind, bind_bind.
        destruct (readyBanner_total
                    (with_event (Stdout ("✓ " ++ "Websockify started successfully!" ++ nl)) p2))
          as (u & p3 & E3).
        rewrite (run_bind _ _ _ _ _ E3), ret_bind. cbv beta iota delta [negb].
        unfold log, cout. rewrite !emit_bind. unfold ret. cbn [final].
        destruct (within_Ok _ _ _ _ _ readyBanner_within E3)
          as [(Rvm & _ & _ & Rg) (tr & Rt & Ra)].
        cbn [vm globalVM trace with_event] in *.
        destruct C2 as (w & Hw2 & Ew & C2).
        eexists. split; [rewrite Rt, T2, T1; repeat rewrite <- app_assoc; reflexivity |].
        rewrite Rvm, Rg, G2, G1, V2. repeat split.
        exists q. split; [exact Hq |]. split; [rewrite Q2; exact Eq |].
        exists w. split; [exact Hw2 |]. split; [exact Ew |].
        rewrite !child_actions_app, C1, C2,
          (child_actions_no_child _ (forallb_only_output_no_child _ Ra)).
        reflexivity.
      * rewrite (run_bind _ _ _ _ _ EW). cbv beta iota delta [negb].
        rewrite bind_bind. rewrite (run_bind _ _ _ _ _ (cleanup_eval p2)), ret_bind.
        cbv beta iota delta [negb]. unfold ret. cbn [final].
        cbn [vm globalVM trace with_event append_events] in *.
        destruct C2 as (Ew & C2).
        eexists. split; [rewrite T2, T1; repeat rewrite <- app_assoc; reflexivity |].
        rewrite G2, G1, V2. repeat split. right.
        exists q. split; [exact Hq |].
        rewrite !child_actions_app, C1, C2. unfold teardown_events.
        rewrite Ew, W1, Hw, Q2, Eq.
        destruct (q =? -1)%Z eqn:Eq1; [apply Z.eqb_eq in Eq1; lia |].
        reflexivity.
      * destruct C2.
      * rewrite (run_bind_child _ _ _ _ _ EW).
        cbn [final]. cbn [vm globalVM trace with_event] in *.
        eexists. split; [rewrite T2, T1; repeat rewrite <- app_assoc; reflexivity |].
        rewrite G2, G1, V2. repeat split. right.
        exists q. split; [exact Hq |].
        rewrite !child_actions_app, C1, C2. reflexivity.
    + subst p1'. rewrite bind_bind, emit_bind, ret_bind. cbv beta iota delta [negb].
      unfold log, cout. rewrite !emit_bind. unfold ret. cbn [final].
      cbn [vm globalVM trace with_event] in *.
      eexists. split; [rewrite T1; repeat rewrite <- app_assoc; reflexivity |].
      rewrite G1, V1. repeat split.
      exists q. split; [exact Hq |]. split; [exact Eq |].
      split; [rewrite W1; exact Hw |].
      rewrite !child_actions_app, C1. reflexivity.
  - rewrite (run_bind _ _ _ _ _ EQ). cbv beta iota delta [negb].
    unfold error, cerr. rewrite emit_bind. unfold ret. cbn [final].
    cbn [vm globalVM trace with_event] in *.
    destruct C1 as (_ & C1).
    eexists. split; [rewrite T1; repeat rewrite <- app_assoc; reflexivity |].
    rewrite G1, V1. repeat split. left.
    rewrite !child_actions_app, C1. reflexivity.
  - rewrite (run_bind_throw _ _ _ _ _ EQ). cbn [final].
    exists t1. repeat split; assumption.
  - rewrite (run_bind_child _ _ _ _ _ EQ). cbn [final].
    exists t1. repeat split; try assumption. left. exact C1.
Qed.

(* ================================================================== *)
(** ** [boot] and [main], by how they end *)

Lemma boot_cases H p :
  websockifyPid (vm p) = (-1)%Z ->
  child_actions (trace p) = [] ->
  globalVM (final (boot H p)) = globalVM p
  /\ useVNC (vm (final (boot H p))) = useVNC (vm p)
  /\ match boot H p with
     | Ok true pf =>
         exists q, (q > 0)%Z /\ qemuPid (vm pf) = q
           /\ if useVNC (vm p)
              then exists w, (w > 0)%Z /\ websockifyPid (vm pf) = w
                             /\ child_actions (trace pf) = [Spawned q; Spawned w]
              else websockifyPid (vm pf) = (-1)%Z
                   /\ child_actions (trace pf) = [Spawned q]
     | Ok false pf =>
         child_actions (trace pf) = []
         \/ exists q, (q > 0)%Z
                      /\ child_actions (trace pf) = [Spawned q; Signalled q; Waited q]
     | Throw _ pf => child_actions (trace pf) = []
     | InChild _ pf =>
         child_actions (trace pf) = []
         \/ exists q, (q > 0)%Z /\ child_actions (trace pf) = [Spawned q]
     end.
Proof.
  intros Hw Ha. destruct (prepare_total H p) as (b & p1 & Ep).
  destruct (within_Ok _ _ _ _ _ (prepare_within H) Ep)
    as [(Pq & Pw & Pr & Pn & Pg) (tp & Pt & Pa)].
  destruct (within_Ok _ _ _ _ _ (prepare_display H) Ep) as [[Pd _] _].
  assert (A1 : child_actions (trace p1) = []).
  { rewrite Pt, child_actions_app, Ha, (child_actions_no_child _ Pa). reflexivity. }
  unfold boot. rewrite (run_bind _ _ _ _ _ Ep). destruct b.
  - destruct (launch_cases H p1) as (t & T & G & V & C); [congruence |].
    rewrite G, V, Pg, Pd. rewrite Pd in C. split; [reflexivity |]. split; [reflexivity |].
    destruct (launch H p1) as [[|] pf | e pf | img pf]; cbn [final] in T;
      rewrite T, child_actions_app, A1; cbn [app]; exact C.
  - unfold ret. cbn [final]. rewrite Pg, Pd. repeat split. left. exact A1.
Qed.

(** [main] either prints the help and exits 0, or goes through [boot] from
    the state the argument loop left. *)
Lemma main_by_boot H argv fs0 :
  (existsb is_help (tl argv) = true
   /\ exists pf, main H argv fs0 = (Exited 0, pf) /\ child_actions (trace pf) = [])
  \/ (existsb is_help (tl argv) = false
      /\ exists p_cfg,
           startup argv (initial fs0) = Ok None p_cfg
           /\ globalVM p_cfg = true
           /\ websockifyPid (vm p_cfg) = (-1)%Z
           /\ child_actions (trace p_cfg) = []
           /\ useVNC (vm p_cfg) = negb (existsb (String.eqb "--no-vnc") (tl argv))
           /\ main H argv fs0 =
                match boot H p_cfg with
                | Ok true pf => (Idle, pf)
                | Ok false pf =>
                    (Exited 1,
                     with_event (Stderr (nl ++ "✗ Failed to start Cold VM!" ++ nl ++ nl)) pf)
                | Throw e pf => (Terminated e, pf)
                | InChild img pf => (Replaced img, pf)
                end).
Proof.
  destruct (existsb is_help (tl argv)) eqn:Eh; [left | right]; (split; [reflexivity |]).
  - destruct (parse_args_help (hd EmptyString argv) (tl argv)
                (mkProc ColdVM_new fs0 0 true [InstallHandler SIGINT; InstallHandler SIGTERM])
                Eh) as (pf & Ep).
    rewrite <- startup_eq in Ep.
    destruct (startup_facts _ _ _ _ Ep) as (_ & _ & _ & _ & _ & Sa).
    exists pf. split; [| apply child_actions_no_child, Sa].
    unfold main, run, main_body. rewrite (run_bind _ _ _ _ _ Ep). reflexivity.
  - destruct (startup_configured argv fs0 Eh)
      as (p_cfg & Es & _ & _ & Sg & St & _ & _ & _ & Sw & Sv & _).
    exists p_cfg. split; [exact Es |]. split; [exact Sg |]. split; [exact Sw |].
    split; [rewrite St; reflexivity |]. split; [exact Sv |].
    unfold main, run, main_body. rewrite (run_bind _ _ _ _ _ Es).
    unfold bind. destruct (boot H p_cfg) as [[|] pf | e pf | img pf]; reflexivity.
Qed.

(** X11.  However [main] ends, the children it created are accounted for.
    When it exits, with status 0 (help) or 1 (failure), either no child
    was created or the hypervisor was, and it has been signalled and
    awaited.  When it settles in the idle loop, the global pointer is set
    and the recorded pids are those of the children created: hypervisor
    and proxy in remote display mode, the hypervisor alone (proxy pid
    still -1) in local mode.  An escaping exception happens before any
    child exists, and the code running on the child side of a [fork] has
    seen at most the hypervisor spawned. *)
Theorem main_accounts_for_children H argv fs0 :
  let acts := child_actions (trace (snd (main H argv fs0))) in
  let pf := snd (main H argv fs0) in
  match fst (main H argv fs0) with
  | Exited code =>
      (code = 0%Z /\ existsb is_help (tl argv) = true /\ acts = [])
      \/ (code = 1%Z
          /\ (acts = []
              \/ exists q, (q > 0)%Z /\ acts = [Spawned q; Signalled q; Waited q]))
  | Idle =>
      globalVM pf = true
      /\ exists q, (q > 0)%Z /\ qemuPid (vm pf) = q
           /\ if useVNC (vm pf)
              then exists w, (w > 0)%Z /\ websockifyPid (vm pf) = w
                             /\ acts = [Spawned q; Spawned w]
              else websockifyPid (vm pf) = (-1)%Z /\ acts = [Spawned q]
  | Terminated _ => acts = []
  | Replaced _ => acts = [] \/ exists q, (q > 0)%Z /\ acts = [Spawned q]
  end.
Proof.
  cbv zeta.
  destruct (main_by_boot H argv fs0)
    as [(Eh & pf & Em & Ea) | (Eh & p_cfg & Es & Sg & Sw & Sa & Sv & Em)].
  - rewrite Em. cbn [fst snd]. left. repeat split; assumption.
  - destruct (boot_cases H p_cfg Sw Sa) as (G & V & C).
    rewrite Em. clear Em.
    destruct (boot H p_cfg) as [[|] pf | e pf | img pf]; cbn [fst snd final] in *.
    + split; [congruence |]. rewrite V. exact C.
    + right. split; [reflexivity |].
      cbn [trace with_event]. rewrite child_actions_app. cbn [child_actions flat_map
        child_action app]. rewrite app_nil_r. exact C.
    + exact C.
    + exact C.
Qed.

(** X12.  Started with [--no-vnc], a [main] that reaches the idle loop has
    created the hypervisor child and nothing else, with no proxy pid
    recorded; a termination signal then signals and awaits that one child
    and exits with status 0. *)
Theorem local_display_runs_hypervisor_alone H argv fs0 p :
  existsb (String.eqb "--no-vnc") (tl argv) = true ->
  main H argv fs0 = (Idle, p) ->
  useVNC (vm p) = false
  /\ websockifyPid (vm p) = (-1)%Z
  /\ exists q,
       (q > 0)%Z /\ qemuPid (vm p) = q
       /\ child_actions (trace p) = [Spawned q]
       /\ forall sig, exists pf,
            deliver sig p = (Exited 0, pf)
            /\ child_actions (trace pf) = [Spawned q; Signalled q; Waited q].
Proof.
  intros Ev Em.
  destruct (main_by_boot H argv fs0)
    as [(Eh & pf & Em' & Ea) | (Eh & p_cfg & Es & Sg & Sw & Sa & Sv & Em')].
  { rewrite Em in Em'. discriminate. }
  rewrite Ev in Sv. cbn [negb] in Sv.
  destruct (boot_cases H p_cfg Sw Sa) as (G & V & C).
  rewrite Em in Em'. clear Em.
  destruct (boot H p_cfg) as [[|] pf | e pf | img pf]; try discriminate.
  injection Em' as ->. cbn [final] in *. rewrite Sv in C, V.
  destruct C as (q & Hq & Eq & Ew & Ea).
  split; [exact V |]. split; [exact Ew |].
  exists q. split; [exact Hq |]. split; [exact Eq |]. split; [exact Ea |].
  intro sig. eexists. unfold deliver, run.
  rewrite signalHandler_eval by congruence. split; [reflexivity |].
  cbn [trace append_events]. rewrite !child_actions_app, Ea, child_actions_teardown.
  rewrite Eq, Ew.
  destruct (q =? -1)%Z eqn:Eq1; [apply Z.eqb_eq in Eq1; lia |].
  reflexivity.
Qed.

Lemma local_display_runs_hypervisor_alone_witness :
  useVNC (vm (snd (main host_webcam ["cold"; "--no-vnc"] fs_iso))) = false
  /\ websockifyPid (vm (snd (main host_webcam ["cold"; "--no-vnc"] fs_iso))) = (-1)%Z
  /\ exists q,
       (q > 0)%Z /\ qemuPid (vm (snd (main host_webcam ["cold"; "--no-vnc"] fs_iso))) = q
       /\ child_actions (trace (snd (main host_webcam ["cold"; "--no-vnc"] fs_iso)))
          = [Spawned q]
       /\ forall sig, exists pf,
            deliver sig (snd (main host_webcam ["cold"; "--no-vnc"] fs_iso)) = (Exited 0, pf)
            /\ child_actions (trace pf) = [Spawned q; Signalled q; Waited q].
Proof.
  apply (local_display_runs_hypervisor_alone host_webcam ["cold"; "--no-vnc"] fs_iso
           (snd (main host_webcam ["cold"; "--no-vnc"] fs_iso)));
    vm_compute; reflexivity.
Defined.

(* ================================================================== *)
(** ** The hypervisor [fork]: failure, and the child side *)

(** [startQEMU] once the command line is built, by what [fork] hands back. *)
Lemma startQEMU_eval H p cmd pb :
  buildQEMUCommand H (with_event (Stdout ("- Starting QEMU virtual machine..." ++ nl)) p)
  = Ok cmd pb ->
  startQEMU H p =
    let r := host_fork H (nforks pb) in
    let forked :=
      mkProc (vm pb) (fs pb) (S (nforks pb)) (globalVM pb)
        (trace pb ++ [ Stdout ("+ QEMU Command:" ++ nl);
                       Stdout ("+ " ++ join_args cmd ++ nl);
                       ForkCall (Execvp cmd) r ]) in
    if (r =? 0)%Z then InChild (Execvp cmd) forked
    else if (r >? 0)%Z then
      Ok true (mkProc (set_qemuPid r (vm pb)) (fs pb) (S (nforks pb)) (globalVM pb)
                 (trace forked ++ [Sleep 3]))
    else
      Ok false (with_event (Stderr ("✗ Failed to fork QEMU process!" ++ nl)) forked).
Proof.
  intros Hb.
  unfold startQEMU, log, debug, cout. rewrite emit_bind, (run_bind _ _ _ _ _ Hb).
  cbv zeta. rewrite !emit_bind. clear Hb. destruct pb as [vb fb nb gb tb].
  unfold bind, fork, modify_vm, emit, ret, in_child, error, cerr, with_event, with_vm.
  cbv beta iota zeta delta [vm fs nforks globalVM trace].
  destruct (host_fork H nb =? 0)%Z; [| destruct (host_fork H nb >? 0)%Z];
    unfold emit, with_event; cbv beta iota zeta delta [vm fs nforks globalVM trace];
    repeat rewrite <- app_assoc; reflexivity.
Qed.

(** X13.  When the hypervisor [fork] fails, [main] reports the failed
    fork, the failed start and the failed launch on standard error and
    exits with status 1: no child exists, no pid is recorded, and
    [cleanup] is not run (nothing is signalled or awaited, no shutdown
    message is printed). *)
Theorem hypervisor_fork_failure_stops_main H argv fs0 p_cfg p cmd pb :
  startup argv (initial fs0) = Ok None p_cfg ->
  prepare H p_cfg = Ok true p ->
  buildQEMUCommand H (with_event (Stdout ("- Starting QEMU virtual machine..." ++ nl)) p)
  = Ok cmd pb ->
  (host_fork H 0 < 0)%Z ->
  exists pf,
    main H argv fs0 = (Exited 1, pf)
    /\ trace pf =
         (trace pb
          ++ [ Stdout ("+ QEMU Command:" ++ nl);
               Stdout ("+ " ++ join_args cmd ++ nl);
               ForkCall (Execvp cmd) (host_fork H 0);
               Stderr ("✗ Failed to fork QEMU process!" ++ nl);
               Stderr ("✗ Failed to start QEMU!" ++ nl);
               Stderr (nl ++ "✗ Failed to start Cold VM!" ++ nl ++ nl) ])%list
    /\ child_actions (trace pf) = []
    /\ qemuPid (vm pf) = (-1)%Z
    /\ websockifyPid (vm pf) = (-1)%Z.
Proof.
  intros Hs Hp Hb Hf.
  destruct (startup_facts _ _ _ _ Hs) as (Sq & Sw & Sr & Sn & Sg & Sa).
  destruct (within_Ok _ _ _ _ _ (prepare_within H) Hp)
    as [(Pq & Pw & Pr & Pn & Pg) (tp & Pt & Pa)].
  destruct (within_Ok _ _ _ _ _ (buildQEMUCommand_within H) Hb)
    as [(Bvm & Bn & Bg) (tb & Bt & Ba)].
  cbn [vm nforks globalVM trace with_event] in Bvm, Bn, Bg, Bt.
  assert (N0 : nforks pb = 0) by congruence.
  pose proof (startQEMU_eval H p cmd pb Hb) as Eq. cbv zeta in Eq. rewrite N0 in Eq.
  assert (E0 : (host_fork H 0 =? 0)%Z = false) by (apply Z.eqb_neq; lia).
  assert (E1 : (host_fork H 0 >? 0)%Z = false) by (rewrite Z.gtb_ltb; apply Z.ltb_ge; lia).
  rewrite E0, E1 in Eq.
  eexists. split; [| split; [| split; [| split]]].
  - unfold main, run, main_body. rewrite (run_bind _ _ _ _ _ Hs). cbv beta iota.
    unfold boot. rewrite bind_bind, (run_bind _ _ _ _ _ Hp). cbv beta iota.
    unfold launch. rewrite bind_bind, (run_bind _ _ _ _ _ Eq). cbv beta iota delta [negb].
    unfold error, cerr. rewrite bind_bind, emit_bind, ret_bind. cbv beta iota.
    rewrite emit_bind. reflexivity.
  - cbn [trace with_event]. repeat rewrite <- app_assoc. reflexivity.
  - cbn [trace with_event]. rewrite Bt, Pt. rewrite !child_actions_app.
    rewrite (child_actions_no_child _ Sa), (child_actions_no_child _ Pa),
      (child_actions_no_child _ Ba).
    cbn. rewrite E1. reflexivity.
  - cbn [vm with_event]. congruence.
  - cbn [vm with_event]. congruence.
Qed.

Lemma hypervisor_fork_failure_stops_main_witness :
  exists pf,
    main (host_fork_returns (-1)) ["cold"] fs_iso = (Exited 1, pf)
    /\ trace pf =
         (trace (final (building (host_fork_returns (-1)) ["cold"] fs_iso))
          ++ [ Stdout ("+ QEMU Command:" ++ nl);
               Stdout ("+ " ++ join_args (built (host_fork_returns (-1)) ["cold"] fs_iso) ++ nl);
               ForkCall (Execvp (built (host_fork_returns (-1)) ["cold"] fs_iso))
                 (host_fork (host_fork_returns (-1)) 0);
               Stderr ("✗ Failed to fork QEMU process!" ++ nl);
               Stderr ("✗ Failed to start QEMU!" ++ nl);
               Stderr (nl ++ "✗ Failed to start Cold VM!" ++ nl ++ nl) ])%list
    /\ child_actions (trace pf) = []
    /\ qemuPid (vm pf) = (-1)%Z
    /\ websockifyPid (vm pf) = (-1)%Z.
Proof.
  apply (hypervisor_fork_failure_stops_main (host_fork_returns (-1)) ["cold"] fs_iso
           (configured ["cold"] fs_iso)
           (prepared (host_fork_returns (-1)) ["cold"] fs_iso)
           (built (host_fork_returns (-1)) ["cold"] fs_iso)
           (final (building (host_fork_returns (-1)) ["cold"] fs_iso)));
    vm_compute; reflexivity.
Defined.

(** X14.  On the child side of the hypervisor [fork] the launcher's code
    ends at [execvp]: the image run is the command line just built, with
    [qemu-system-x86_64] as the program, and the child neither records a
    pid nor goes on to start the proxy, signal or await anything. *)
Theorem hypervisor_child_execs_built_command H argv fs0 p_cfg p cmd pb :
  startup argv (initial fs0) = Ok None p_cfg ->
  prepare H p_cfg = Ok true p ->
  buildQEMUCommand H (with_event (Stdout ("- Starting QEMU virtual machine..." ++ nl)) p)
  = Ok cmd pb ->
  host_fork H 0 = 0%Z ->
  exists pf,
    main H argv fs0 = (Replaced (Execvp cmd), pf)
    /\ hd_error cmd = Some "qemu-system-x86_64"
    /\ trace pf =
         (trace pb
          ++ [ Stdout ("+ QEMU Command:" ++ nl);
               Stdout ("+ " ++ join_args cmd ++ nl);
               ForkCall (Execvp cmd) 0 ])%list
    /\ child_actions (trace pf) = []
    /\ qemuPid (vm pf) = (-1)%Z
    /\ websockifyPid (vm pf) = (-1)%Z.
Proof.
  intros Hs Hp Hb Hf.
  destruct (startup_facts _ _ _ _ Hs) as (Sq & Sw & Sr & Sn & Sg & Sa).
  destruct (within_Ok _ _ _ _ _ (prepare_within H) Hp)
    as [(Pq & Pw & Pr & Pn & Pg) (tp & Pt & Pa)].
  destruct (within_Ok _ _ _ _ _ (buildQEMUCommand_within H) Hb)
    as [(Bvm & Bn & Bg) (tb & Bt & Ba)].
  cbn [vm nforks globalVM trace with_event] in Bvm, Bn, Bg, Bt.
  assert (N0 : nforks pb = 0) by congruence.
  pose proof (startQEMU_eval H p cmd pb Hb) as Eq. cbv zeta in Eq.
  rewrite N0, Hf in Eq. cbn [Z.eqb] in Eq.
  eexists. split; [| split; [| split; [| split; [| split]]]].
  - unfold main, run, main_body. rewrite (run_bind _ _ _ _ _ Hs). cbv beta iota.
    unfold boot. rewrite bind_bind, (run_bind _ _ _ _ _ Hp). cbv beta iota.
    unfold launch. rewrite bind_bind, (run_bind_child _ _ _ _ _ Eq). reflexivity.
  - destruct (buildQEMUCommand_shape _ _ _ _ Hb) as (before & cam & ->). reflexivity.
  - reflexivity.
  - cbn [trace]. rewrite Bt, Pt. rewrite !child_actions_app.
    rewrite (child_actions_no_child _ Sa), (child_actions_no_child _ Pa),
      (child_actions_no_child _ Ba).
    reflexivity.
  - cbn [vm]. congruence.
  - cbn [vm]. congruence.
Qed.

Lemma hypervisor_child_execs_built_command_witness :
  exists pf,
    main (host_fork_returns 0) ["cold"] fs_iso
    = (Replaced (Execvp (built (host_fork_returns 0) ["cold"] fs_iso)), pf)
    /\ hd_error (built (host_fork_returns 0) ["cold"] fs_iso) = Some "qemu-system-x86_64"
    /\ trace pf =
         (trace (final (building (host_fork_returns 0) ["cold"] fs_iso))
          ++ [ Stdout ("+ QEMU Command:" ++ nl);
               Stdout ("+ " ++ join_args (built (host_fork_returns 0) ["cold"] fs_iso) ++ nl);
               ForkCall (Execvp (built (host_fork_returns 0) ["cold"] fs_iso)) 0 ])%list
    /\ child_actions (trace pf) = []
    /\ qemuPid (vm pf) = (-1)%Z
    /\ websockifyPid (vm pf) = (-1)%Z.
Proof.
  apply (hypervisor_child_execs_built_command (host_fork_returns 0) ["cold"] fs_iso
           (configured ["cold"] fs_iso)
           (prepared (host_fork_returns 0) ["cold"] fs_iso)
           (built (host_fork_returns 0) ["cold"] fs_iso)
           (final (building (host_fork_returns 0) ["cold"] fs_iso)));
    vm_compute; reflexivity.
Defined.

(* ================================================================== *)
(** ** The command line in closed form *)

Lemma copy_vars_from_total sources dst : total (copy_vars_from sources dst).
Proof. induction sources as [|source rest IH]; simpl; total_auto. Qed.

#[export] Hint Resolve copy_vars_from_total : frame.

Lemma createVarsFile_total : total createVarsFile.
Proof. unfold createVarsFile. total_auto. Qed.

Lemma copy_vars_from_no_command sources dst :
  within (calm same_vm no_command) (copy_vars_from sources dst).
Proof. induction sources as [|source rest IH]; simpl; within_auto. Qed.

#[export] Hint Resolve copy_vars_from_no_command : frame.

Lemma createVarsFile_no_command : within (calm same_vm no_command) createVarsFile.
Proof. unfold createVarsFile. within_auto. Qed.

Lemma attach_disks_total i disks cmd : total (attach_disks i disks cmd).
Proof.
  revert i cmd. induction disks as [|d rest IH]; intros i cmd; simpl; total_auto.
Qed.

Lemma attach_isos_total i isos cmd : total (attach_isos i isos cmd).
Proof.
  revert i cmd. induction isos as [|d rest IH]; intros i cmd; simpl; total_auto.
Qed.

#[export] Hint Resolve createVarsFile_total createVarsFile_no_command attach_disks_total
  attach_isos_total : frame.

(** [createVarsFile] has no [return false]. *)
Lemma createVarsFile_always_true p b p' : createVarsFile p = Ok b p' -> b = true.
Proof.
  unfold createVarsFile. rewrite get_vm_bind. intro E. inv_bind E.
  destruct a; cbv beta iota delta [negb] in E.
  - inv_ret E. reflexivity.
  - inv_bind E. inv_bind E. destruct a0.
    + inv_ret E. reflexivity.
    + inv_bind E. inv_bind E. inv_bind E. inv_bind E. inv_ret E. reflexivity.
Qed.

Lemma attach_disks_exact disks : forall i cmd p cmd' p',
  attach_disks i disks cmd p = Ok cmd' p' -> cmd' = (cmd ++ disk_args disks)%list.
Proof.
  induction disks as [|d rest IH]; intros i cmd p cmd' p' E; simpl in E.
  - inv_ret E. unfold disk_args. simpl. rewrite app_nil_r. reflexivity.
  - inv_bind E. apply IH in E. rewrite E. unfold push_back, disk_args.
    cbn [flat_map]. repeat rewrite <- app_assoc. reflexivity.
Qed.

Lemma attach_isos_exact isos : forall i cmd p cmd' p',
  attach_isos i isos cmd p = Ok cmd' p' -> cmd' = (cmd ++ iso_args i isos)%list.
Proof.
  induction isos as [|d rest IH]; intros i cmd p cmd' p' E; simpl in E.
  - inv_ret E. simpl. rewrite app_nil_r. reflexivity.
  - cbn [iso_args]. destruct (Nat.eqb i 0); inv_bind E; apply IH in E; rewrite E;
      unfold push_back; repeat rewrite <- app_assoc; reflexivity.
Qed.

Lemma attach_camera_exact H cmd p cmd' p' :
  attach_camera H cmd p = Ok cmd' p' ->
  cmd' = cmd \/ exists cam, cmd' = (cmd ++ camera_args cam)%list.
Proof.
  unfold attach_camera. intro E. inv_bind E. inv_bind E.
  destruct a0 as [stream|].
  - inv_bind E. inv_bind E. destruct a0 as [cam|].
    + inv_bind E. inv_bind E. inv_ret E. right. exists cam.
      unfold push_back, camera_args. rewrite <- app_assoc. reflexivity.
    + inv_bind E. inv_bind E. inv_ret E. left. reflexivity.
  - inv_bind E. inv_ret E. left. reflexivity.
Qed.

(** Every returned command line has the closed form. *)
Lemma buildQEMUCommand_exact H p cmd p' :
  buildQEMUCommand H p = Ok cmd p' ->
  exists camera,
    cmd = command_line (vm p) (exists_ (fs p) (firmwarePath (vm p))) camera
    /\ (enableCamera (vm p) = false -> camera = [])
    /\ (camera = [] \/ exists cam, camera = camera_args cam).
Proof.
  unfold buildQEMUCommand. intro E.
  inv_bind E. unfold get_vm in E0. injection E0 as <- <-.
  cbv zeta in E. set (c0 := if useVNC (vm p) then _ else _) in E.
  assert (X0 : c0 =
                 ([ "qemu-system-x86_64"; "-enable-kvm"; "-cpu"; cpuModel (vm p); "-smp";
                    to_string (cpuCores (vm p)); "-m"; (to_string (ramGB (vm p)) ++ "G")%string;
                    "-vga"; "virtio"; "-display" ]
                  ++ (if useVNC (vm p) then [ "none"; "-vnc"; ":1" ] else [ "gtk,gl=on" ]))%list).
  { subst c0. destruct (useVNC (vm p)); reflexivity. }
  clearbody c0.
  inv_bind E.
  assert (Ea : a = exists_ (fs p) (firmwarePath (vm p))).
  { unfold fs_exists, bind, get_fs, ret in E0. injection E0 as <- _. reflexivity. }
  clear E0. inv_bind E.
  assert (X1 : a0 =
                 (c0 ++ (if a
                         then [ "-drive";
                                ("if=pflash,format=raw,readonly=on,file="
                                 ++ firmwarePath (vm p))%string;
                                "-drive";
                                ("if=pflash,format=raw,file=" ++ varsPath (vm p))%string ]
                         else []))%list).
  { destruct a.
    - inv_bind E0. rewrite (createVarsFile_always_true _ _ _ E1) in E0. inv_ret E0.
      unfold push_back. repeat rewrite <- app_assoc. reflexivity.
    - inv_ret E0. rewrite app_nil_r. reflexivity. }
  clear E0. inv_bind E.
  assert (X2 : a1 = (a0 ++ disk_args (diskFiles (vm p)))%list).
  { destruct (diskFiles (vm p)) eqn:Ed.
    - inv_ret E0. unfold disk_args. simpl. rewrite app_nil_r. reflexivity.
    - inv_bind E0. rewrite <- Ed. eapply attach_disks_exact. rewrite Ed. exact E0. }
  clear E0. inv_bind E.
  assert (X3 : a2 = (a1 ++ iso_args 0 (isoFiles (vm p)))%list).
  { destruct (isoFiles (vm p)) eqn:Ei.
    - inv_ret E0. simpl. rewrite app_nil_r. reflexivity.
    - inv_bind E0. rewrite <- Ei. eapply attach_isos_exact. rewrite Ei. exact E0. }
  clear E0. inv_bind E.
  assert (X4 : a3 =
                 (a2 ++ (if enableAudio (vm p)
                         then [ "-audiodev"; "alsa,id=audio0"; "-device"; "intel-hda";
                                "-device";
                                if enableMicrophone (vm p) then "hda-duplex,audiodev=audio0"
                                else "hda-output,audiodev=audio0" ]
                         else []))%list).
  { destruct (enableAudio (vm p)).
    - destruct (enableMicrophone (vm p)).
      + inv_bind E0. inv_ret E0. unfold push_back. repeat rewrite <- app_assoc. reflexivity.
      + inv_bind E0. inv_bind E0. inv_ret E0.
        unfold push_back. repeat rewrite <- app_assoc. reflexivity.
    - inv_bind E0. inv_ret E0. rewrite app_nil_r. reflexivity. }
  clear E0. inv_bind E.
  assert (X5 : a4 =
                 (a3 ++ (if useBridge (vm p)
                         then [ "-netdev"; ("bridge,id=net0,br=" ++ bridgeInterface (vm p))%string;
                                "-device";
                                "virtio-net-pci,netdev=net0,mac=52:54:00:12:34:56" ]
                         else [ "-netdev"; "user,id=net0"; "-device";
                                "virtio-net-pci,netdev=net0" ]))%list).
  { destruct (useBridge (vm p)); inv_bind E0; inv_ret E0;
      unfold push_back; repeat rewrite <- app_assoc; reflexivity. }
  clear E0. inv_bind E.
  assert (X6 : exists camera,
             a5 = ((a4 ++ ["-device"; "qemu-xhci,id=xhci"; "-device"; "usb-tablet"])
                   ++ camera)%list
             /\ (enableCamera (vm p) = false -> camera = [])
             /\ (camera = [] \/ exists cam, camera = camera_args cam)).
  { replace (a4 ++ ["-device"; "qemu-xhci,id=xhci"; "-device"; "usb-tablet"])%list
      with (push_back (push_back (push_back (push_back a4 "-device") "qemu-xhci,id=xhci")
                         "-device") "usb-tablet")
      by (unfold push_back; repeat rewrite <- app_assoc; reflexivity).
    destruct (enableCamera (vm p)).
    - apply attach_camera_exact in E0 as [-> | (cam & ->)].
      + exists []. rewrite app_nil_r. split; [reflexivity |].
        split; [discriminate | left; reflexivity].
      + exists (camera_args cam). split; [reflexivity |].
        split; [discriminate | right; exists cam; reflexivity].
    - inv_bind E0. inv_ret E0. exists []. rewrite app_nil_r.
      split; [reflexivity |]. split; [reflexivity | left; reflexivity]. }
  clear E0. destruct X6 as (camera & X6 & Coff & Cshape).
  subst a5 a4 a3 a2 a1 a0 c0 a. inv_ret E.
  exists camera. split; [| split; assumption].
  unfold command_line, push_back. destruct (isoFiles (vm p));
    repeat (rewrite <- app_assoc || rewrite <- app_comm_cons); reflexivity.
Qed.

Lemma no_command_no_child e : no_command e = true -> no_child e = true.
Proof. destruct e; simpl; congruence. Qed.

Lemma forallb_no_command_no_child t :
  forallb no_command t = true -> forallb no_child t = true.
Proof.
  rewrite !forallb_forall. intros Hall e He. apply no_command_no_child, Hall, He.
Qed.

(** With the camera switched off, building the command line always
    returns and runs no external command. *)
Lemma buildQEMUCommand_camera_off H p :
  enableCamera (vm p) = false ->
  (exists cmd p', buildQEMUCommand H p = Ok cmd p')
  /\ calm same_vm no_command p (final (buildQEMUCommand H p)).
Proof.
  intro E. unfold buildQEMUCommand. rewrite get_vm_bind. cbv zeta. rewrite E.
  cbv beta iota. split.
  - refine ((_ : total _) p). total_auto.
  - refine ((_ : within _ _) p). within_auto.
Qed.

(** X15.  A command line that [buildQEMUCommand] returns is the fixed
    head, the display arguments, the two firmware drives exactly when the
    firmware file exists, one virtio write-back drive per disk in list
    order, the first ISO as [-cdrom] and each later one as an IDE CD-ROM
    drive carrying its index, the audio devices (duplex with the
    microphone, output-only without), the network pair, the USB
    controller and tablet, at most one camera device, and the fixed tail
    whose boot order prefers the CD-ROM when there is an ISO. *)
Theorem command_line_layout H p cmd p' :
  buildQEMUCommand H p = Ok cmd p' ->
  vm p' = vm p
  /\ exists camera,
       cmd = command_line (vm p) (exists_ (fs p) (firmwarePath (vm p))) camera
       /\ (camera = [] \/ exists cam, camera = camera_args cam).
Proof.
  intro E.
  destruct (within_Ok _ _ _ _ _ (buildQEMUCommand_within H) E) as [(Bvm & _) _].
  split; [exact Bvm |].
  destruct (buildQEMUCommand_exact _ _ _ _ E) as (camera & Ec & _ & Cs).
  exists camera. split; assumption.
Qed.

Lemma command_line_layout_witness :
  vm (final (building host_webcam ["cold"] fs_iso))
  = vm (with_event (Stdout ("- Starting QEMU virtual machine..." ++ nl))
          (prepared host_webcam ["cold"] fs_iso))
  /\ exists camera,
       built host_webcam ["cold"] fs_iso
       = command_line
           (vm (with_event (Stdout ("- Starting QEMU virtual machine..." ++ nl))
                  (prepared host_webcam ["cold"] fs_iso)))
           (exists_
              (fs (with_event (Stdout ("- Starting QEMU virtual machine..." ++ nl))
                     (prepared host_webcam ["cold"] fs_iso)))
              (firmwarePath
                 (vm (with_event (Stdout ("- Starting QEMU virtual machine..." ++ nl))
                        (prepared host_webcam ["cold"] fs_iso)))))
           camera
       /\ (camera = [] \/ exists cam, camera = camera_args cam).
Proof.
  apply (command_line_layout host_webcam
           (with_event (Stdout ("- Starting QEMU virtual machine..." ++ nl))
              (prepared host_webcam ["cold"] fs_iso))
           (built host_webcam ["cold"] fs_iso)
           (final (building host_webcam ["cold"] fs_iso))).
  vm_compute. reflexivity.
Defined.

(** X16.  With the camera switched off, [buildQEMUCommand] always returns:
    it runs no external command (no [lsusb] probe), leaves the [ColdVM]
    object alone, and the command line carries no camera device. *)
Theorem camera_off_build_always_returns H p :
  enableCamera (vm p) = false ->
  exists p' t,
    buildQEMUCommand H p
    = Ok (command_line (vm p) (exists_ (fs p) (firmwarePath (vm p))) []) p'
    /\ vm p' = vm p
    /\ trace p' = (trace p ++ t)%list
    /\ commands_run t = []
    /\ child_actions t = [].
Proof.
  intro E.
  destruct (buildQEMUCommand_camera_off H p E) as [(cmd & p' & Eb) W].
  rewrite Eb in W. cbn [final] in W. destruct W as [(Wvm & _) (t & Wt & Wa)].
  destruct (buildQEMUCommand_exact _ _ _ _ Eb) as (camera & Ec & Coff & _).
  rewrite (Coff E) in Ec. subst cmd.
  exists p', t. split; [exact Eb |]. split; [exact Wvm |]. split; [exact Wt |].
  split; [apply commands_run_none, Wa |].
  apply child_actions_no_child, forallb_no_command_no_child, Wa.
Qed.

Lemma camera_off_build_always_returns_witness :
  exists p' t,
    buildQEMUCommand host_short_id (prepared host_short_id ["cold"; "--no-camera"] fs_iso)
    = Ok (command_line (vm (prepared host_short_id ["cold"; "--no-camera"] fs_iso))
            (exists_ (fs (prepared host_short_id ["cold"; "--no-camera"] fs_iso))
               (firmwarePath (vm (prepared host_short_id ["cold"; "--no-camera"] fs_iso))))
            []) p'
    /\ vm p' = vm (prepared host_short_id ["cold"; "--no-camera"] fs_iso)
    /\ trace p' = (trace (prepared host_short_id ["cold"; "--no-camera"] fs_iso) ++ t)%list
    /\ commands_run t = []
    /\ child_actions t = [].
Proof.
  apply (camera_off_build_always_returns host_short_id
           (prepared host_short_id ["cold"; "--no-camera"] fs_iso)).
  vm_compute. reflexivity.
Defined.

(* ================================================================== *)
(** ** A termination signal before any child exists *)

(** X17.  A termination signal that arrives once the arguments are read
    and the preparation has run, but before anything was launched, finds
    both recorded pids at -1: [cleanup] prints its banner, signals and
    awaits nobody, and the process exits with status 0, leaving the file
    system as it was.  While the global pointer is still null the handler
    does not call [cleanup] at all. *)
Theorem signal_before_launch_signals_nobody H argv fs0 r p_cfg b p sig :
  startup argv (initial fs0) = Ok r p_cfg ->
  prepare H p_cfg = Ok b p ->
  (exists pf,
     deliver sig p = (Exited 0, pf)
     /\ trace pf =
          (trace p
           ++ [ Stdout nl; Stdout ("- Shutting down Cold VM..." ++ nl);
                Stdout (nl ++ "✓ Cold VM shutdown complete!" ++ nl ++ nl) ])%list
     /\ child_actions (trace pf) = []
     /\ fs pf = fs p)
  /\ (forall p0,
        globalVM p0 = false ->
        deliver sig p0
        = (Exited 0,
           append_events
             [ Stdout nl; Stdout (nl ++ "✓ Cold VM shutdown complete!" ++ nl ++ nl) ] p0)).
Proof.
  intros Hs Hp. split.
  - destruct (startup_facts _ _ _ _ Hs) as (Sq & Sw & Sr & Sn & Sg & Sa).
    destruct (within_Ok _ _ _ _ _ (prepare_within H) Hp)
      as [(Pq & Pw & Pr & Pn & Pg) (tp & Pt & Pa)].
    eexists. unfold deliver, run.
    rewrite signalHandler_eval by congruence. split; [reflexivity |].
    cbn [trace fs append_events]. unfold teardown_events.
    rewrite Pq, Sq, Pw, Sw. cbn [Z.eqb Pos.eqb app].
    split; [reflexivity |]. split; [| reflexivity].
    rewrite Pt, !child_actions_app, (child_actions_no_child _ Sa),
      (child_actions_no_child _ Pa).
    reflexivity.
  - intros p0 G. destruct p0 as [v f n g t]. cbn [globalVM] in G. subst g.
    unfold deliver, run, signalHandler, cout, bind, emit, get_globalVM, ret, with_event,
      append_events.
    cbv beta iota delta [vm fs nforks globalVM trace].
    rewrite <- app_assoc. reflexivity.
Qed.

Lemma signal_before_launch_signals_nobody_witness :
  (exists pf,
     deliver SIGINT (prepared host_webcam ["cold"] fs_bare) = (Exited 0, pf)
     /\ trace pf =
          (trace (prepared host_webcam ["cold"] fs_bare)
           ++ [ Stdout nl; Stdout ("- Shutting down Cold VM..." ++ nl);
                Stdout (nl ++ "✓ Cold VM shutdown complete!" ++ nl ++ nl) ])%list
     /\ child_actions (trace pf) = []
     /\ fs pf = fs (prepared host_webcam ["cold"] fs_bare))
  /\ (forall p0,
        globalVM p0 = false ->
        deliver SIGINT p0
        = (Exited 0,
           append_events
             [ Stdout nl; Stdout (nl ++ "✓ Cold VM shutdown complete!" ++ nl ++ nl) ] p0)).
Proof.
  apply (signal_before_launch_signals_nobody host_webcam ["cold"] fs_bare None
           (configured ["cold"] fs_bare)
           true
           (prepared host_webcam ["cold"] fs_bare)).
  - vm_compute. reflexivity.
  - vm_compute. reflexivity.
Defined.

(* ================================================================== *)
(** ** The camera probe on an arbitrary [lsusb] line *)

Lemma length_substring s : forall n m,
  String.length (substring n m s) = Nat.min m (String.length s - n).
Proof.
  induction s as [|c s IH]; intros [|n] [|m]; simpl; try reflexivity; try lia.
  - rewrite IH. lia.
  - rewrite IH. reflexivity.
  - rewrite IH. reflexivity.
Qed.

Lemma substring_clip s : forall n m,
  substring n (Nat.min m (String.length s - n)) s = substring n m s.
Proof.
  induction s as [|c s IH]; intros n m.
  - destruct n, m; reflexivity.
  - destruct n as [|n].
    + destruct m as [|m]; [reflexivity |].
      pose proof (IH 0%nat m) as IH0. rewrite Nat.sub_0_r in IH0.
      simpl. f_equal. exact IH0.
    + simpl. apply IH.
Qed.

Lemma size_add_small a b :
  (a + b < 18446744073709551616)%N -> size_add a b = (a + b)%N.
Proof. intro L. unfold size_add. apply N.mod_small. exact L. Qed.

Lemma size_cons c s : size (String c s) = (size s + 1)%N.
Proof. unfold size. simpl String.length. lia. Qed.

Lemma find_last_not_of_from_range s set : forall i last,
  find_last_not_of_from s set i last = last
  \/ (i <= find_last_not_of_from s set i last < i + size s)%N.
Proof.
  induction s as [|c s IH]; intros i last; simpl.
  - left. reflexivity.
  - rewrite size_cons. destruct (mem_char c set).
    + destruct (IH (i + 1)%N last) as [E | R]; [left; exact E | right; lia].
    + destruct (IH (i + 1)%N i) as [E | R]; right; [rewrite E |]; lia.
Qed.

(** [name.erase(name.find_last_not_of(...) + 1)] does not throw: when
    every character is in the set the position wraps around to 0. *)
Lemma erase_after_trim name set :
  (String.length name <= 255)%nat ->
  exists trimmed, erase name (size_add (find_last_not_of name set) 1) = Some trimmed.
Proof.
  intro L. unfold find_last_not_of, erase.
  destruct (find_last_not_of_from_range name set 0%N npos) as [E | R].
  - rewrite E. change (size_add npos 1) with 0%N.
    destruct (size name <? 0)%N eqn:E0; [apply N.ltb_lt in E0; lia |].
    eexists. reflexivity.
  - assert (Ls : (size name <= 255)%N) by (unfold size; lia).
    rewrite size_add_small by lia.
    destruct (size name <? find_last_not_of_from name set 0 npos + 1)%N eqn:E0;
      [apply N.ltb_lt in E0; lia |].
    eexists. reflexivity.
Qed.

Lemma checked_some_bind {B} what s (k : string -> M B) p :
  bind (checked what (Some s)) k p = k s p.
Proof. reflexivity. Qed.

Lemma checked_none_bind {B} what (k : string -> M B) p :
  bind (checked what None) k p = Throw (out_of_range what) p.
Proof. reflexivity. Qed.

(** Where the marker stands in a line that has one. *)
Lemma marker_position line :
  (find line "ID " =? npos)%N = false ->
  (String.length line <= 255)%nat ->
  exists i, String.index 0 "ID " line = Some i /\ find line "ID " = N.of_nat i
            /\ (i + 3 <= String.length line)%nat.
Proof.
  intros Hid L. unfold find in *. destruct (String.index 0 "ID " line) as [i|] eqn:Ei.
  - exists i. split; [reflexivity |]. split; [reflexivity |].
    pose proof (String.index_correct1 _ _ _ _ Ei) as Hs.
    apply (f_equal String.length) in Hs. rewrite length_substring in Hs.
    simpl String.length in Hs. lia.
  - rewrite N.eqb_refl in Hid. discriminate.
Qed.

(** The text cut out after the marker occurs in the line, at the latest
    right after the marker. *)
Lemma id_text_found line i :
  String.index 0 "ID " line = Some i ->
  (5 <= String.length (substring (i + 3) 9 line))%nat ->
  exists m, String.index 0 (substring (i + 3) 9 line) line = Some m /\ (m <= i + 3)%nat.
Proof.
  intros Ei L5. set (ids := substring (i + 3) 9 line) in *.
  assert (Hocc : substring (i + 3) (String.length ids) line = ids).
  { subst ids. rewrite length_substring. apply substring_clip. }
  destruct (String.index 0 ids line) as [m|] eqn:Em.
  - exists m. split; [reflexivity |].
    destruct (Nat.le_gt_cases m (i + 3)) as [Le | Gt]; [exact Le |].
    exfalso. apply (String.index_correct2 _ _ _ _ Em (i + 3)%nat); [lia | exact Gt | exact Hocc].
  - exfalso. apply (String.index_correct3 0 (i + 3) _ _ Em); [| lia | exact Hocc].
    intro E. rewrite E in L5. simpl in L5. lia.
Qed.

(** The probe on a buffer that passes the keyword and marker tests. *)
Lemma scan_camera_at_camera_line buffer rest p :
  camera_line buffer = true ->
  (String.length (of_c_str buffer) <= 255)%nat ->
  ((size (of_c_str buffer) < find (of_c_str buffer) "ID " + 8
    \/ size (of_c_str buffer) < find (of_c_str buffer) (id_text (of_c_str buffer)) + 10)%N ->
   scan_camera (buffer :: rest) p = Throw (out_of_range "basic_string::substr") p)
  /\ ((find (of_c_str buffer) "ID " + 8 <= size (of_c_str buffer))%N ->
      (find (of_c_str buffer) (id_text (of_c_str buffer)) + 10 <= size (of_c_str buffer))%N ->
      exists name,
        scan_camera (buffer :: rest) p
        = Ok (Some (mkCamera (substring 0 4 (id_text (of_c_str buffer)))
                      (substring 5 4 (id_text (of_c_str buffer))) name)) p)
  /\ ((find (of_c_str buffer) "ID " + 13 <= size (of_c_str buffer))%N ->
      (find (of_c_str buffer) (id_text (of_c_str buffer)) + 10 <= size (of_c_str buffer))%N).
Proof.
  intros Hc L. unfold camera_line in Hc. cbv zeta in Hc.
  remember (scan_camera (buffer :: rest) p) as r eqn:Er.
  cbn [scan_camera] in Er. cbv zeta in Er. unfold id_text.
  set (line := of_c_str buffer) in *.
  apply andb_prop in Hc as [Hk Hid]. rewrite Hk in Er.
  apply negb_true_iff in Hid.
  destruct (marker_position line Hid L) as (i & Ei & Fi & Li).
  rewrite Hid in Er. cbv beta iota delta [negb] in Er.
  rewrite Fi in *. rewrite Nat2N.id.
  set (ids := substring (i + 3) 9 line).
  assert (Sl : size line = N.of_nat (String.length line)) by reflexivity.
  assert (Lids : String.length ids = Nat.min 9 (String.length line - (i + 3))).
  { subst ids. apply length_substring. }
  assert (S1 : substr line (size_add (N.of_nat i) 3) 9 = Some ids).
  { unfold substr. rewrite size_add_small by lia.
    destruct (size line <? N.of_nat i + 3)%N eqn:E0; [apply N.ltb_lt in E0; lia |].
    subst ids. repeat f_equal. lia. }
  rewrite S1, checked_some_bind in Er.
  assert (S2 : substr ids 0 4 = Some (substring 0 4 ids)).
  { unfold substr. destruct (size ids <? 0)%N eqn:E0; [apply N.ltb_lt in E0; lia |].
    reflexivity. }
  rewrite S2, checked_some_bind in Er.
  unfold substr in Er.
  destruct (size ids <? 5)%N eqn:E5.
  - apply N.ltb_lt in E5. unfold size in E5.
    rewrite checked_none_bind in Er. subst r.
    split; [intros _; reflexivity |]. split; intros; exfalso; lia.
  - apply N.ltb_ge in E5. unfold size in E5.
    rewrite checked_some_bind in Er. cbv zeta in Er.
    destruct (id_text_found line i Ei) as (m & Em & Lm); [fold ids; lia |].
    fold ids in Em.
    assert (Fm : find line ids = N.of_nat m) by (unfold find; rewrite Em; reflexivity).
    rewrite Fm in *.
    rewrite size_add_small in Er by lia.
    unfold substr_from in Er.
    destruct (size line <? N.of_nat m + 10)%N eqn:E10.
    + apply N.ltb_lt in E10. rewrite checked_none_bind in Er. subst r.
      split; [intros _; reflexivity |]. split; intros; exfalso; lia.
    + apply N.ltb_ge in E10. rewrite checked_some_bind in Er.
      destruct (erase_after_trim
                  (substring (N.to_nat (N.of_nat m + 10)) (String.length line) line)
                  (" " ++ nl ++ cr ++ tab)) as (name & En).
      { rewrite length_substring. lia. }
      rewrite En, checked_some_bind in Er. subst r.
      split; [intros [A | A]; exfalso; lia |].
      split; [intros _ _; exists name; reflexivity | intros _; exact E10].
Qed.

Lemma scan_camera_skip skipped rest p :
  forallb (fun b => negb (camera_line b)) skipped = true ->
  scan_camera (skipped ++ rest) p = scan_camera rest p.
Proof.
  induction skipped as [|b skipped IH]; intro Hs; [reflexivity |].
  simpl in Hs. apply andb_prop in Hs as [Hb Hs].
  simpl app. cbn [scan_camera]. cbv zeta.
  unfold camera_line in Hb. cbv zeta in Hb.
  destruct (has (of_c_str b) "Camera" || has (of_c_str b) "Webcam"
            || has (of_c_str b) "HD Webcam" || has (of_c_str b) "Integrated Camera");
    [| apply IH, Hs].
  destruct (negb (find (of_c_str b) "ID " =? npos)%N); [discriminate |].
  apply IH, Hs.
Qed.

Lemma of_c_str_length buf : (String.length (of_c_str buf) <= String.length buf)%nat.
Proof.
  induction buf as [|c buf IH]; simpl; [lia |].
  destruct (Ascii.eqb c zero); simpl; lia.
Qed.

(** No [fgets] call hands back more than 255 characters. *)
Lemma fgets_lines_bounded stream : forall room,
  (room <= 255)%nat ->
  match fgets_lines stream room with
  | [] => True
  | l :: ls =>
      (String.length l <= Nat.max 1 room)%nat
      /\ Forall (fun b => (String.length b <= 255)%nat) ls
  end.
Proof.
  induction stream as [|c stream IH]; intros room Hr; cbn [fgets_lines]; [exact I |].
  destruct (Ascii.eqb c (ascii_of_nat 10) || Nat.leb room 1) eqn:E.
  - split; [cbn [String.length]; lia |].
    specialize (IH 255%nat (Nat.le_refl _)).
    destruct (fgets_lines stream 255) as [|l ls]; [constructor |].
    destruct IH as [Hl Hls]. constructor; [lia | exact Hls].
  - apply orb_false_elim in E as [_ E]. apply Nat.leb_gt in E.
    specialize (IH (room - 1)%nat). 
    destruct (fgets_lines stream (room - 1)) as [|l ls].
    + split; [cbn [String.length]; lia | constructor].
    + destruct IH as [Hl Hls]; [lia |]. split; [cbn [String.length]; lia | exact Hls].
Qed.

Lemma fgets_line_length stream before buffer rest :
  fgets_lines stream 255 = (before ++ buffer :: rest)%list ->
  (String.length (of_c_str buffer) <= 255)%nat.
Proof.
  intro E. pose proof (fgets_lines_bounded stream 255 (Nat.le_refl _)) as B.
  rewrite E in B. pose proof (of_c_str_length buffer) as Lc.
  destruct before as [|b before]; simpl in B; destruct B as [Hl Hls].
  - lia.
  - rewrite Forall_forall in Hls.
    specialize (Hls buffer (in_elt _ _ _)). simpl in Hls. lia.
Qed.

Lemma raises_bind_left {A B} e (c : M A) (k : A -> M B) :
  raises e c -> raises e (bind c k).
Proof.
  intros Hc p. destruct (Hc p) as (p' & E). exists p'.
  apply run_bind_throw, E.
Qed.

Lemma raises_bind_right {A B} e (c : M A) (k : A -> M B) :
  total c -> (forall a, raises e (k a)) -> raises e (bind c k).
Proof.
  intros Hc Hk p. destruct (Hc p) as (a & p1 & E).
  destruct (Hk a p1) as (p' & E'). exists p'.
  rewrite (run_bind _ _ _ _ _ E). exact E'.
Qed.

(** The probe when the first line that passes the tests is too short. *)
Lemma attach_camera_short_line H cmd p stream skipped buffer rest :
  host_popen H lsusb = Some stream ->
  fgets_lines stream 255 = (skipped ++ buffer :: rest)%list ->
  forallb (fun b => negb (camera_line b)) skipped = true ->
  camera_line buffer = true ->
  (size (of_c_str buffer) < find (of_c_str buffer) "ID " + 8
   \/ size (of_c_str buffer) < find (of_c_str buffer) (id_text (of_c_str buffer)) + 10)%N ->
  attach_camera H cmd p
  = Throw (out_of_range "basic_string::substr")
      (append_events [ Stdout ("+ Detecting USB camera devices..." ++ nl); PopenCmd lsusb ] p).
Proof.
  intros Hp Hf Hs Hc Hshort.
  pose proof (fgets_line_length _ _ _ _ Hf) as L.
  unfold attach_camera, debug, cout, popen. rewrite emit_bind, bind_bind, emit_bind, ret_bind.
  fold lsusb. rewrite Hp, Hf.
  destruct (scan_camera_at_camera_line buffer rest
              (with_event (PopenCmd lsusb)
                 (with_event (Stdout ("+ " ++ "Detecting USB camera devices..." ++ nl)) p))
              Hc L) as (Thr & _).
  rewrite (run_bind_throw _ _ _ _ _
             (eq_trans (scan_camera_skip _ _ _ Hs) (Thr Hshort))).
  unfold append_events, with_event. cbn [vm fs nforks globalVM trace].
  rewrite <- app_assoc. reflexivity.
Qed.

(** With the camera enabled, an exception of the probe escapes
    [buildQEMUCommand] whatever the configuration. *)
Lemma buildQEMUCommand_raises H e p :
  (forall cmd, raises e (attach_camera H cmd)) ->
  enableCamera (vm p) = true ->
  exists p', buildQEMUCommand H p = Throw e p'.
Proof.
  intros Hcam E. unfold buildQEMUCommand. rewrite get_vm_bind. cbv zeta. rewrite E.
  cbv beta iota. refine ((_ : raises e _) p).
  repeat first [ apply raises_bind_left; apply Hcam
               | apply raises_bind_right; [solve [total_auto] | intros ] ].
Qed.

(** X18.  The camera probe takes the first [lsusb] line that has a camera
    keyword and the [ID ] marker.  When fewer than five characters follow
    the marker, or the line ends less than ten characters after the place
    where the id text is first found, a [substr] call throws
    [std::out_of_range]: the probe ends there with the pipe still open (no
    [pclose]), and with the camera enabled the exception escapes
    [buildQEMUCommand] in every configuration. *)
Theorem camera_probe_throws_on_short_line H stream skipped buffer rest :
  host_popen H lsusb = Some stream ->
  fgets_lines stream 255 = (skipped ++ buffer :: rest)%list ->
  forallb (fun b => negb (camera_line b)) skipped = true ->
  camera_line buffer = true ->
  (size (of_c_str buffer) < find (of_c_str buffer) "ID " + 8
   \/ size (of_c_str buffer) < find (of_c_str buffer) (id_text (of_c_str buffer)) + 10)%N ->
  (forall cmd p,
     attach_camera H cmd p
     = Throw (out_of_range "basic_string::substr")
         (append_events
            [ Stdout ("+ Detecting USB camera devices..." ++ nl); PopenCmd lsusb ] p))
  /\ (forall p,
        enableCamera (vm p) = true ->
        exists p', buildQEMUCommand H p = Throw (out_of_range "basic_string::substr") p').
Proof.
  intros Hp Hf Hs Hc Hshort.
  assert (A : forall cmd p,
             attach_camera H cmd p
             = Throw (out_of_range "basic_string::substr")
                 (append_events
                    [ Stdout ("+ Detecting USB camera devices..." ++ nl); PopenCmd lsusb ] p)).
  { intros cmd p. eapply attach_camera_short_line; eassumption. }
  split; [exact A |].
  intros p E. apply buildQEMUCommand_raises; [| exact E].
  intros cmd q. eexists. apply A.
Qed.

Lemma camera_probe_throws_on_short_line_witness :
  (forall cmd p,
     attach_camera host_no_name cmd p
     = Throw (out_of_range "basic_string::substr")
         (append_events
            [ Stdout ("+ Detecting USB camera devices..." ++ nl); PopenCmd lsusb ] p))
  /\ (forall p,
        enableCamera (vm p) = true ->
        exists p',
          buildQEMUCommand host_no_name p = Throw (out_of_range "basic_string::substr") p').
Proof.
  apply (camera_probe_throws_on_short_line host_no_name lsusb_no_name
           [ "Bus 001 Device 002: ID 8087:0024 Intel Corp. Integrated Rate Matching Hub" ++ nl ]
           "Bus 001 Device 003: Webcam ID 046d:0825" []).
  - reflexivity.
  - vm_compute. reflexivity.
  - vm_compute. reflexivity.
  - vm_compute. reflexivity.
  - right. vm_compute. reflexivity.
Defined.

(** X19.  When at least ten characters follow the marker in that line,
    the probe never throws: it closes the pipe and appends one [usb-host]
    device whose vendor id is the first four characters after the marker
    and whose product id is the four characters after the separator that
    follows them. *)
Theorem camera_probe_parses_full_line H cmd p stream skipped buffer rest :
  host_popen H lsusb = Some stream ->
  fgets_lines stream 255 = (skipped ++ buffer :: rest)%list ->
  forallb (fun b => negb (camera_line b)) skipped = true ->
  camera_line buffer = true ->
  (find (of_c_str buffer) "ID " + 13 <= size (of_c_str buffer))%N ->
  exists name,
    attach_camera H cmd p
    = Ok (cmd ++ camera_args (mkCamera (substring 0 4 (id_text (of_c_str buffer)))
                                (substring 5 4 (id_text (of_c_str buffer))) name))%list
        (append_events
           [ Stdout ("+ Detecting USB camera devices..." ++ nl); PopenCmd lsusb; Pclose;
             Stdout ("✓ Camera enabled: " ++ name ++ nl);
             Stdout ("+ " ++ ("Camera IDs: " ++ substring 0 4 (id_text (of_c_str buffer))
                              ++ ":" ++ substring 5 4 (id_text (of_c_str buffer))) ++ nl) ] p).
Proof.
  intros Hp Hf Hs Hc Hroom.
  pose proof (fgets_line_length _ _ _ _ Hf) as L.
  unfold attach_camera, debug, cout, popen. rewrite emit_bind, bind_bind, emit_bind, ret_bind.
  fold lsusb. rewrite Hp, Hf.
  destruct (scan_camera_at_camera_line buffer rest
              (with_event (PopenCmd lsusb)
                 (with_event (Stdout ("+ " ++ "Detecting USB camera devices..." ++ nl)) p))
              Hc L) as (_ & Parse & Room).
  destruct Parse as (name & En); [lia | exact (Room Hroom) |].
  exists name.
  rewrite (run_bind _ _ _ _ _ (eq_trans (scan_camera_skip _ _ _ Hs) En)).
  rewrite emit_bind. cbv beta iota zeta. unfold success, cout. rewrite !emit_bind.
  unfold ret, append_events, with_event, push_back, camera_args.
  cbn [vm fs nforks globalVM trace cameraVendor cameraProduct cameraName].
  repeat rewrite <- app_assoc. reflexivity.
Qed.

Lemma camera_probe_parses_full_line_witness :
  exists name,
    attach_camera host_webcam [ "qemu-system-x86_64" ] (initial fs_iso)
    = Ok ([ "qemu-system-x86_64" ]
          ++ camera_args
               (mkCamera
                  (substring 0 4
                     (id_text (of_c_str
                                 ("Bus 001 Device 003: ID 046d:0825 Logitech, Inc. Webcam C270"
                                  ++ nl))))
                  (substring 5 4
                     (id_text (of_c_str
                                 ("Bus 001 Device 003: ID 046d:0825 Logitech, Inc. Webcam C270"
                                  ++ nl))))
                  name))%list
        (append_events
           [ Stdout ("+ Detecting USB camera devices..." ++ nl); PopenCmd lsusb; Pclose;
             Stdout ("✓ Camera enabled: " ++ name ++ nl);
             Stdout ("+ "
                     ++ ("Camera IDs: "
                         ++ substring 0 4
                              (id_text (of_c_str
                                          ("Bus 001 Device 003: ID 046d:0825 Logitech, Inc. Webcam C270"
                                           ++ nl)))
                         ++ ":"
                         ++ substring 5 4
                              (id_text (of_c_str
                                          ("Bus 001 Device 003: ID 046d:0825 Logitech, Inc. Webcam C270"
                                           ++ nl))))
                     ++ nl) ] (initial fs_iso)).
Proof.
  apply (camera_probe_parses_full_line host_webcam [ "qemu-system-x86_64" ] (initial fs_iso)
           lsusb_webcam
           [ "Bus 001 Device 002: ID 8087:0024 Intel Corp. Integrated Rate Matching Hub" ++ nl ]
           ("Bus 001 Device 003: ID 046d:0825 Logitech, Inc. Webcam C270" ++ nl) []).
  - reflexivity.
  - vm_compute. reflexivity.
  - vm_compute. reflexivity.
  - vm_compute. reflexivity.
  - vm_compute. discriminate.
Defined.

(** X20.  Started with the camera enabled on a host whose [lsusb] output
    has such a short camera line, [main] is terminated by the uncaught
    [std::out_of_range] while the command line is being built: no child
    was created and nothing is signalled or awaited. *)
Theorem short_camera_line_terminates_main H argv fs0 p_cfg p stream skipped buffer rest :
  startup argv (initial fs0) = Ok None p_cfg ->
  enableCamera (vm p_cfg) = true ->
  prepare H p_cfg = Ok true p ->
  host_popen H lsusb = Some stream ->
  fgets_lines stream 255 = (skipped ++ buffer :: rest)%list ->
  forallb (fun b => negb (camera_line b)) skipped = true ->
  camera_line buffer = true ->
  (size (of_c_str buffer) < find (of_c_str buffer) "ID " + 8
   \/ size (of_c_str buffer) < find (of_c_str buffer) (id_text (of_c_str buffer)) + 10)%N ->
  exists pf,
    main H argv fs0 = (Terminated (out_of_range "basic_string::substr"), pf)
    /\ child_actions (trace pf) = []
    /\ qemuPid (vm pf) = (-1)%Z /\ websockifyPid (vm pf) = (-1)%Z.
Proof.
  intros Hs Hcam Hprep Hp Hf Hsk Hc Hshort.
  destruct (startup_facts _ _ _ _ Hs) as (Sq & Sw & Sr & Sn & Sg & Sa).
  destruct (within_Ok _ _ _ _ _ (prepare_within H) Hprep)
    as [(Pq & Pw & Pr & Pn & Pg) (tp & Pt & Pa)].
  destruct (within_Ok _ _ _ _ _ (prepare_display H) Hprep) as [[_ Pc] _].
  destruct (buildQEMUCommand_raises H (out_of_range "basic_string::substr")
              (with_event (Stdout ("- Starting QEMU virtual machine..." ++ nl)) p))
    as (pf & Eb).
  { intros cmd q. eexists. eapply attach_camera_short_line; eassumption. }
  { cbn [vm with_event]. congruence. }
  pose proof (buildQEMUCommand_within H
                (with_event (Stdout ("- Starting QEMU virtual machine..." ++ nl)) p)) as W.
  rewrite Eb in W. cbn [final] in W. destruct W as [(Bvm & Bn & Bg) (tb & Bt & Ba)].
  cbn [vm nforks globalVM trace with_event] in Bvm, Bn, Bg, Bt.
  exists pf. split; [| split; [| split]].
  - unfold main, run, main_body. rewrite (run_bind _ _ _ _ _ Hs). cbv beta iota.
    unfold boot. rewrite bind_bind, (run_bind _ _ _ _ _ Hprep). cbv beta iota.
    unfold launch, startQEMU, log, cout. rewrite !bind_bind, emit_bind, !bind_bind.
    rewrite (run_bind_throw _ _ _ _ _ Eb). reflexivity.
  - rewrite Bt, Pt, !child_actions_app, (child_actions_no_child _ Sa),
      (child_actions_no_child _ Pa), (child_actions_no_child _ Ba).
    reflexivity.
  - congruence.
  - congruence.
Qed.

Lemma short_camera_line_terminates_main_witness :
  exists pf,
    main host_no_name ["cold"] fs_iso
    = (Terminated (out_of_range "basic_string::substr"), pf)
    /\ child_actions (trace pf) = []
    /\ qemuPid (vm pf) = (-1)%Z /\ websockifyPid (vm pf) = (-1)%Z.
Proof.
  apply (short_camera_line_terminates_main host_no_name ["cold"] fs_iso
           (configured ["cold"] fs_iso) (prepared host_no_name ["cold"] fs_iso)
           lsusb_no_name
           [ "Bus 001 Device 002: ID 8087:0024 Intel Corp. Integrated Rate Matching Hub" ++ nl ]
           "Bus 001 Device 003: Webcam ID 046d:0825" []).
  - vm_compute. reflexivity.
  - reflexivity.
  - vm_compute. reflexivity.
  - reflexivity.
  - vm_compute. reflexivity.
  - vm_compute. reflexivity.
  - vm_compute. reflexivity.
  - right. vm_compute. reflexivity.
Defined.

(* ================================================================== *)
(** ** Recognition by extension and the format by substring *)

Lemma substring_none a s : substring a 0 s = EmptyString.
Proof.
  revert a. induction s as [|c s IH]; intros [|a]; simpl; try reflexivity. apply IH.
Qed.

Lemma substring_of_empty a b : substring a b EmptyString = EmptyString.
Proof. destruct a, b; reflexivity. Qed.

Lemma substring_substring s : forall n m a b,
  substring a b (substring n m s) = substring (n + a) (Nat.min b (m - a)) s.
Proof.
  induction s as [|c s IH]; intros n m a b.
  - replace (substring n m EmptyString) with EmptyString by (destruct n, m; reflexivity).
    rewrite !substring_of_empty. reflexivity.
  - destruct n as [|n].
    + destruct m as [|m].
      * change (substring 0 0 (String c s)) with EmptyString.
        rewrite substring_of_empty. change (0 - a)%nat with 0%nat.
        rewrite Nat.min_0_r. symmetry. apply substring_none.
      * change (substring 0 (S m) (String c s)) with (String c (substring 0 m s)).
        change (0 + a)%nat with a. destruct a as [|a].
        -- destruct b as [|b]; [reflexivity |].
           transitivity (String c (substring 0 b (substring 0 m s))); [reflexivity |].
           transitivity (String c (substring 0 (Nat.min b m) s)); [| reflexivity].
           f_equal. rewrite IH. rewrite Nat.sub_0_r. reflexivity.
        -- transitivity (substring a b (substring 0 m s)); [reflexivity |].
           rewrite IH. reflexivity.
    + exact (IH n m a b).
Qed.

(** A non-empty text cut out of a string is found in it by [find]. *)
Lemma cut_is_found s n m :
  substring n m s <> EmptyString ->
  exists i, String.index 0 (substring n m s) s = Some i /\ (i < String.length s)%nat.
Proof.
  intro Hne. set (e := substring n m s) in *.
  assert (Hocc : substring n (String.length e) s = e).
  { subst e. rewrite length_substring. apply substring_clip. }
  destruct (String.index 0 e s) as [i|] eqn:Ei.
  - exists i. split; [reflexivity |].
    pose proof (String.index_correct1 _ _ _ _ Ei) as Hs.
    apply (f_equal String.length) in Hs. rewrite length_substring in Hs.
    destruct e as [|c e]; [contradiction Hne; reflexivity |].
    simpl String.length in Hs. lia.
  - exfalso. apply (String.index_correct3 0 n _ _ Ei Hne); [lia | exact Hocc].
Qed.

(** A non-empty extension is cut out of the path. *)
Lemma extension_is_cut p :
  extension p <> EmptyString -> exists n m, extension p = substring n m p.
Proof.
  unfold extension, filename, drop. cbv zeta.
  destruct (rfind_char p "/"%char) as [j|].
  - destruct (String.eqb _ "." || String.eqb _ ".."); [intro C; contradiction C; reflexivity |].
    destruct (rfind_char _ "."%char) as [[|i]|]; try (intro C; contradiction C; reflexivity).
    intros _. rewrite substring_substring. eexists _, _. reflexivity.
  - destruct (String.eqb p "." || String.eqb p ".."); [intro C; contradiction C; reflexivity |].
    destruct (rfind_char p "."%char) as [[|i]|]; try (intro C; contradiction C; reflexivity).
    intros _. eexists _, _. reflexivity.
Qed.

Lemma extension_found p :
  (size p < npos)%N -> extension p <> EmptyString -> has p (extension p) = true.
Proof.
  intros L Hne. destruct (extension_is_cut p Hne) as (n & m & E).
  rewrite E in Hne |- *. destruct (cut_is_found p n m Hne) as (i & Ei & Li).
  unfold has, find. rewrite Ei.
  destruct (N.of_nat i =? npos)%N eqn:En; [| reflexivity].
  apply N.eqb_eq in En. unfold size in L. lia.
Qed.

(** X21.  The disk scan recognizes a file by its extension, the command
    line picks the format by substring; the two agree in this direction:
    a path whose extension is [.img] or [.raw] is always attached as
    [raw]; one whose extension is [.vdi] is attached as [vdi] unless
    [.img] or [.raw] occurs in the path, and one whose extension is
    [.vmdk] as [vmdk] unless one of those three occurs in it. *)
Theorem format_of_recognized_disk p :
  (size p < npos)%N ->
  (extension p = ".img" \/ extension p = ".raw" -> disk_format p = "raw")
  /\ (extension p = ".vdi" ->
      disk_format p = if has p ".img" || has p ".raw" then "raw" else "vdi")
  /\ (extension p = ".vmdk" ->
      disk_format p = if has p ".img" || has p ".raw" then "raw"
                      else if has p ".vdi" then "vdi" else "vmdk").
Proof.
  intro L.
  assert (F : forall e, extension p = e -> e <> EmptyString -> has p e = true).
  { intros e <- Hne. apply extension_found; assumption. }
  unfold disk_format. fold (has p ".img") (has p ".raw") (has p ".vdi") (has p ".vmdk").
  split; [| split].
  - intros [E | E].
    + rewrite (F _ E) by discriminate. reflexivity.
    + rewrite (F _ E) by discriminate. rewrite orb_true_r. reflexivity.
  - intro E. rewrite (F _ E) by discriminate.
    destruct (has p ".img" || has p ".raw"); reflexivity.
  - intro E. rewrite (F _ E) by discriminate.
    destruct (has p ".img" || has p ".raw"); [reflexivity |].
    destruct (has p ".vdi"); reflexivity.
Qed.

Lemma format_of_recognized_disk_witness :
  (extension "./devices/disk/win.raw" = ".img" \/ extension "./devices/disk/win.raw" = ".raw" ->
   disk_format "./devices/disk/win.raw" = "raw")
  /\ (extension "./devices/disk/win.raw" = ".vdi" ->
      disk_format "./devices/disk/win.raw"
      = if has "./devices/disk/win.raw" ".img" || has "./devices/disk/win.raw" ".raw"
        then "raw" else "vdi")
  /\ (extension "./devices/disk/win.raw" = ".vmdk" ->
      disk_format "./devices/disk/win.raw"
      = if has "./devices/disk/win.raw" ".img" || has "./devices/disk/win.raw" ".raw"
        then "raw"
        else if has "./devices/disk/win.raw" ".vdi" then "vdi" else "vmdk").
Proof.
  apply (format_of_recognized_disk "./devices/disk/win.raw").
  vm_compute. reflexivity.
Defined.

(* ================================================================== *)
(** ** The launch refused *)

(** X22.  Without a help flag the argument loop and the preparation always
    run to their end.  When the disk list and the ISO list are both empty
    once the preparation is over (the default disk was tried inside it),
    the launch is refused; and whenever it is refused, no [fork] was made,
    no process was signalled or awaited, and [main] reports the failure
    and exits with status 1. *)
Theorem launch_refused_without_media H argv fs0 :
  existsb is_help (tl argv) = false ->
  exists p_cfg b p,
    startup argv (initial fs0) = Ok None p_cfg
    /\ prepare H p_cfg = Ok b p
    /\ (diskFiles (vm p) = [] -> isoFiles (vm p) = [] -> b = false)
    /\ (b = false ->
        main H argv fs0
        = (Exited 1,
           with_event (Stderr (nl ++ "✗ Failed to start Cold VM!" ++ nl ++ nl)) p)
        /\ nforks p = 0
        /\ child_actions (trace p) = []).
Proof.
  intro Eh.
  destruct (parse_args_no_help (hd EmptyString argv) (tl argv)
              (mkProc ColdVM_new fs0 0 true [InstallHandler SIGINT; InstallHandler SIGTERM])
              Eh) as (p_cfg & Hs).
  rewrite <- startup_eq in Hs.
  destruct (prepare_total H p_cfg) as (b & p & Hp).
  exists p_cfg, b, p. split; [exact Hs |]. split; [exact Hp |]. split.
  - intros Hd Hi. destruct b; [| reflexivity].
    destruct (prepare_true_has_media _ _ _ Hp); congruence.
  - intros ->.
    destruct (startup_facts _ _ _ _ Hs) as (Sq & Sw & Sr & Sn & Sg & Sa).
    destruct (within_Ok _ _ _ _ _ (prepare_within H) Hp)
      as [(Pq & Pw & Pr & Pn & Pg) (tp & Pt & Pa)].
    repeat split.
    + unfold main, run, main_body. rewrite (run_bind _ _ _ _ _ Hs). cbv beta iota.
      unfold boot. rewrite bind_bind, (run_bind _ _ _ _ _ Hp). cbv beta iota.
      rewrite ret_bind. cbv beta iota. unfold cerr. rewrite emit_bind. reflexivity.
    + congruence.
    + rewrite Pt, child_actions_app, (child_actions_no_child _ Sa),
        (child_actions_no_child _ Pa). reflexivity.
Qed.

Lemma launch_refused_without_media_witness :
  main host_no_qemu_img ["cold"] fs_bare
  = (Exited 1,
     with_event (Stderr (nl ++ "✗ Failed to start Cold VM!" ++ nl ++ nl))
       (prepared host_no_qemu_img ["cold"] fs_bare))
  /\ nforks (prepared host_no_qemu_img ["cold"] fs_bare) = 0
  /\ child_actions (trace (prepared host_no_qemu_img ["cold"] fs_bare)) = [].
Proof.
  destruct (launch_refused_without_media host_no_qemu_img ["cold"] fs_bare eq_refl)
    as (p_cfg & b & p & Hs & Hp & Hempty & Hrefused).
  assert (Ec : p_cfg = configured ["cold"] fs_bare).
  { assert (Hs' : startup ["cold"] (initial fs_bare)
                  = Ok None (configured ["cold"] fs_bare)) by (vm_compute; reflexivity).
    rewrite Hs' in Hs. apply Ok_inj in Hs as [_ Hs]. symmetry. exact Hs. }
  subst p_cfg.
  assert (Ep : b = false /\ p = prepared host_no_qemu_img ["cold"] fs_bare).
  { assert (Hp' : prepare host_no_qemu_img (configured ["cold"] fs_bare)
                  = Ok false (prepared host_no_qemu_img ["cold"] fs_bare))
      by (vm_compute; reflexivity).
    rewrite Hp' in Hp. apply Ok_inj in Hp as [Hb Hp]. split; symmetry; assumption. }
  destruct Ep as [-> ->].
  exact (Hrefused (Hempty ltac:(vm_compute; reflexivity) ltac:(vm_compute; reflexivity))).
Defined.
